(** * Background task core of claude-code-telegram: a shallow embedding

    The development follows [src/tasks/models.py], [src/tasks/repository.py],
    [src/tasks/heartbeat.py] and [src/tasks/manager.py], and then their
    callers: [src/notifications/task_notifications.py], the task callbacks
    of [src/bot/orchestrator.py] and [src/bot/handlers/task_handlers.py].

    Modelling conventions.
    - Python [float] amounts (costs, the heartbeat timeout) are exact
      rationals [Q]; every finite double is a rational, only rounding is
      abstracted. The statements that depend on the rounding are made on
      [REAL], the cost column on binary64 values.
    - The provider is the protocol of [src/llm/interface.py] seen from the
      manager; [ClaudeProvider], its one implementation among the
      sources, is modelled after the manager.
    - A [datetime] is the microsecond count of its wall-clock reading
      together with its [tzinfo] (absent for a naive value).
    - The SQLite table [background_tasks] is the list of its rows in rowid
      order; an [UPDATE ... WHERE task_id = ?] rewrites every matching row.
      A row holds the values the code binds: a [datetime] for a timestamp
      it wrote, the list of commits. What SQLite keeps of them, the text
      [isoformat(" ")] of the default adapter and the text of
      [json.dumps], and how [from_row] reads these texts back, is
      [Stored]; [isoformat] and [json] are modelled with it.
    - Coroutines are run to completion one at a time; what one coroutine
      does is a state transformer over [World] that may raise.
    - A Python [str] is a [string]; slices and searches count its
      elements. *)

From Stdlib Require Import ZArith QArith String Ascii List Bool Lia.
From Stdlib Require Import DecimalString.
From Stdlib Require Import Floats.PrimFloat.
From stdpp Require Import gmap strings.

Local Open Scope string_scope.
Local Open Scope Z_scope.

(** ** Exceptions and results *)

Inductive exn : Type :=
| ValueError (msg : string)
| RuntimeError (msg : string)
| TypeError (msg : string)
| ValidationError (msg : string)
| IntegrityError (msg : string)
| CostLimitExceeded (task_id : string) (cost limit : Q)
| CancelledError
| OtherException (msg : string).

Inductive result (A : Type) : Type :=
| Ok (a : A)
| Raise (e : exn).
Arguments Ok {A} a.
Arguments Raise {A} e.

(** ** datetime *)

Module datetime.

(** [wall_us]: microseconds from 0001-01-01T00:00:00 to the wall-clock
    reading; [tzinfo]: the UTC offset in microseconds, [None] when the
    value is naive. *)
Record t : Type := mk { wall_us : Z; tzinfo : option Z }.

Definition utc : option Z := Some 0.

Definition aware (d : t) : bool :=
  match tzinfo d with Some _ => true | None => false end.

(** [a - b] of two datetimes, as a timedelta in microseconds. *)
Definition sub (a b : t) : result Z :=
  match tzinfo a, tzinfo b with
  | None, None => Ok (wall_us a - wall_us b)
  | Some oa, Some ob => Ok ((wall_us a - oa) - (wall_us b - ob))
  | _, _ => Raise (TypeError "can't subtract offset-naive and offset-aware datetimes")
  end.

(** [timedelta.total_seconds()] *)
Definition total_seconds (td : Z) : Q := (td # 1000000)%Q.

Definition is_leap (y : Z) : bool :=
  (y mod 4 =? 0) && (negb (y mod 100 =? 0) || (y mod 400 =? 0)).

Definition days_before_year (y : Z) : Z :=
  let p := y - 1 in p * 365 + p / 4 - p / 100 + p / 400.

Definition days_in_month (y m : Z) : Z :=
  if m =? 2 then (if is_leap y then 29 else 28)
  else if (m =? 4) || (m =? 6) || (m =? 9) || (m =? 11) then 30 else 31.

Fixpoint days_before_month_aux (y : Z) (k : nat) : Z :=
  match k with
  | O => 0
  | S k' => days_before_month_aux y k' + days_in_month y (Z.of_nat k)
  end.

Definition days_before_month (y m : Z) : Z :=
  days_before_month_aux y (Z.to_nat (m - 1)).

Definition ymd2ord (y m d : Z) : Z :=
  days_before_year y + days_before_month y m + d.

Definition of_fields (y mo d h mi s us : Z) (tz : option Z) : t :=
  mk ((((((ymd2ord y mo d - 1) * 24 + h) * 60 + mi) * 60 + s) * 1000000) + us) tz.

(** *** [datetime.fromisoformat] on the texts [isoformat()] and [str()]
    produce: [YYYY-MM-DD], optionally followed by [T] or a space,
    [HH:MM:SS], an optional [.ffffff] or [.fff], and an optional
    [+HH:MM], [-HH:MM] or [Z]. Anything else is a [ValueError]. *)

Definition digit (c : ascii) : option Z :=
  let n := Z.of_nat (nat_of_ascii c) in
  if (48 <=? n) && (n <=? 57) then Some (n - 48) else None.

Fixpoint digits (k : nat) (acc : Z) (s : string) : option (Z * string) :=
  match k with
  | O => Some (acc, s)
  | S k' =>
      match s with
      | String c s' =>
          match digit c with
          | Some v => digits k' (acc * 10 + v) s'
          | None => None
          end
      | EmptyString => None
      end
  end.

Definition expect (c : ascii) (s : string) : option string :=
  match s with
  | String c' s' => if Ascii.eqb c c' then Some s' else None
  | EmptyString => None
  end.

Definition parse_date (s : string) : option (Z * Z * Z * string) :=
  match digits 4 0 s with
  | Some (y, s1) =>
      match expect "-" s1 with
      | Some s2 =>
          match digits 2 0 s2 with
          | Some (m, s3) =>
              match expect "-" s3 with
              | Some s4 =>
                  match digits 2 0 s4 with
                  | Some (d, s5) =>
                      if (1 <=? y) && (1 <=? m) && (m <=? 12)
                         && (1 <=? d) && (d <=? days_in_month y m)
                      then Some (y, m, d, s5) else None
                  | None => None
                  end
              | None => None
              end
          | None => None
          end
      | None => None
      end
  | None => None
  end.

Definition parse_hms (s : string) : option (Z * Z * Z * string) :=
  match digits 2 0 s with
  | Some (h, s1) =>
      match expect ":" s1 with
      | Some s2 =>
          match digits 2 0 s2 with
          | Some (mi, s3) =>
              match expect ":" s3 with
              | Some s4 =>
                  match digits 2 0 s4 with
                  | Some (sec, s5) =>
                      if (h <? 24) && (mi <? 60) && (sec <? 60)
                      then Some (h, mi, sec, s5) else None
                  | None => None
                  end
              | None => None
              end
          | None => None
          end
      | None => None
      end
  | None => None
  end.

Definition parse_fraction (s : string) : Z * string :=
  match expect "." s with
  | Some s1 =>
      match digits 6 0 s1 with
      | Some (us, s2) => (us, s2)
      | None =>
          match digits 3 0 s1 with
          | Some (ms, s2) => (ms * 1000, s2)
          | None => (0, s)
          end
      end
  | None => (0, s)
  end.

Definition parse_offset (s : string) : option (option Z) :=
  match s with
  | EmptyString => Some None
  | String c s1 =>
      if Ascii.eqb c "Z" then
        (match s1 with EmptyString => Some utc | _ => None end)
      else
        let sign :=
          if Ascii.eqb c "+" then Some 1
          else if Ascii.eqb c "-" then Some (-1) else None in
        match sign with
        | Some sg =>
            match digits 2 0 s1 with
            | Some (h, s2) =>
                match expect ":" s2 with
                | Some s3 =>
                    match digits 2 0 s3 with
                    | Some (mi, EmptyString) =>
                        if (h <? 24) && (mi <? 60)
                        then Some (Some (sg * (h * 60 + mi) * 60 * 1000000))
                        else None
                    | _ => None
                    end
                | None => None
                end
            | None => None
            end
        | None => None
        end
  end.

Definition fromisoformat (s : string) : result t :=
  let bad := Raise (ValueError ("Invalid isoformat string: '" +:+ s +:+ "'")) in
  match parse_date s with
  | Some (y, mo, d, EmptyString) => Ok (of_fields y mo d 0 0 0 0 None)
  | Some (y, mo, d, String sep rest) =>
      if Ascii.eqb sep "T" || Ascii.eqb sep " " then
        match parse_hms rest with
        | Some (h, mi, sec, rest1) =>
            let '(us, rest2) := parse_fraction rest1 in
            match parse_offset rest2 with
            | Some tz => Ok (of_fields y mo d h mi sec us tz)
            | None => bad
            end
        | None => bad
        end
      else bad
  | None => bad
  end.

(** *** [isoformat]: the text of a reading

    The fields are computed as CPython's [datetime] holds them:
    [_ord2ymd] of the day ordinal, and the time of day split into hours,
    minutes, seconds and microseconds. *)

Definition US_PER_DAY : Z := 86400000000.

(** [_MAXORDINAL], the ordinal of 9999-12-31, and the number of
    microseconds up to the end of that day. *)
Definition _MAXORDINAL : Z := 3652059.

Definition MAX_US : Z := _MAXORDINAL * US_PER_DAY.

Definition _DAYS_IN_MONTH : list Z :=
  [-1; 31; 28; 31; 30; 31; 30; 31; 31; 30; 31; 30; 31].

Definition _DAYS_BEFORE_MONTH : list Z :=
  [-1; 0; 31; 59; 90; 120; 151; 181; 212; 243; 273; 304; 334].

Definition _DI400Y : Z := 146097.
Definition _DI100Y : Z := 36524.
Definition _DI4Y : Z := 1461.

(** [int(b)] of a Python [bool] used as a number. *)
Definition int_of_bool (b : bool) : Z := if b then 1 else 0.

(** The end of [_ord2ymd]: month and day of day [n] of a year, counted
    from 0, from the estimate [(n + 50) >> 5] of the month. *)
Definition _month_day (n : Z) (leapyear : bool) : Z * Z :=
  let month := Z.shiftr (n + 50) 5 in
  let preceding :=
    nth (Z.to_nat month) _DAYS_BEFORE_MONTH 0
    + int_of_bool ((2 <? month) && leapyear) in
  if n <? preceding then
    let month := month - 1 in
    let preceding :=
      preceding
      - (nth (Z.to_nat month) _DAYS_IN_MONTH 0
         + int_of_bool ((month =? 2) && leapyear)) in
    (month, n - preceding + 1)
  else (month, n - preceding + 1).

(** [_ord2ymd(n)]: year, month and day of the ordinal [n], 0001-01-01
    being day 1. *)
Definition _ord2ymd (n : Z) : Z * Z * Z :=
  let n := n - 1 in
  let n400 := n / _DI400Y in
  let n := n mod _DI400Y in
  let year := n400 * 400 + 1 in
  let n100 := n / _DI100Y in
  let n := n mod _DI100Y in
  let n4 := n / _DI4Y in
  let n := n mod _DI4Y in
  let n1 := n / 365 in
  let n := n mod 365 in
  let year := year + n100 * 100 + n4 * 4 + n1 in
  if (n1 =? 4) || (n100 =? 4) then (year - 1, 12, 31)
  else
    let leapyear := (n1 =? 3) && (negb (n4 =? 24) || (n100 =? 3)) in
    let '(month, day) := _month_day n leapyear in
    (year, month, day).

Definition digit_char (v : Z) : ascii := ascii_of_nat (Z.to_nat (48 + v)).

(** The last [width] decimal digits of [v] put in front of [rest]. *)
Fixpoint pad_onto (width : nat) (v : Z) (rest : string) : string :=
  match width with
  | O => rest
  | S width' =>
      pad_onto width' (v / 10) (String (digit_char (v mod 10)) rest)
  end.

(** ["%0<width>d" % v] for [0 <= v < 10 ^ width], the only use
    [isoformat] makes of it. *)
Definition pad (width : nat) (v : Z) : string := pad_onto width v "".

(** [_format_offset(off)]; the offset is a number of microseconds. *)
Definition _format_offset (off : option Z) : string :=
  match off with
  | None => ""
  | Some off =>
      let sign := if off <? 0 then "-" else "+" in
      let a := Z.abs off in
      let hh := a / 3600000000 in
      let mm := a mod 3600000000 / 60000000 in
      let ss := a mod 60000000 / 1000000 in
      let us := a mod 1000000 in
      sign +:+ pad 2 hh +:+ ":" +:+ pad 2 mm
      +:+ (if (ss =? 0) && (us =? 0) then ""
           else ":" +:+ pad 2 ss
                +:+ (if us =? 0 then "" else "." +:+ pad 6 us))
  end.

(** [d.isoformat(sep)]: the date, [sep], the time with its microseconds
    when there are any, and the offset of an aware value. *)
Definition isoformat (sep : ascii) (d : t) : string :=
  let '(year, month, day) := _ord2ymd (wall_us d / US_PER_DAY + 1) in
  let rest := wall_us d mod US_PER_DAY in
  let seconds := rest / 1000000 in
  let us := rest mod 1000000 in
  pad 4 year +:+ "-" +:+ pad 2 month +:+ "-" +:+ pad 2 day
  +:+ String sep
        (pad 2 (seconds / 3600) +:+ ":" +:+ pad 2 (seconds / 60 mod 60)
         +:+ ":" +:+ pad 2 (seconds mod 60)
         +:+ (if us =? 0 then "" else "." +:+ pad 6 us)
         +:+ _format_offset (tzinfo d)).

(** A value Python's [datetime] can hold, years 1 to 9999, that is naive
    or has an offset of whole minutes within a day, as [timezone.utc]
    has. *)
Definition valid (d : t) : bool :=
  (0 <=? wall_us d) && (wall_us d <? MAX_US)
  && match tzinfo d with
     | None => true
     | Some off => (off mod 60000000 =? 0) && (Z.abs off <? US_PER_DAY)
     end.

(** [f] holds of [k] consecutive numbers from [start] on. *)
Fixpoint all_from (f : Z -> bool) (start : Z) (k : nat) : bool :=
  match k with
  | O => true
  | S k' => f start && all_from f (start + 1) k'
  end.

(** Year [1 + 100 * n100 + 4 * n4 + n1] of a 400-year cycle: the days
    before it, and whether it is a leap year, as [_ord2ymd] has them. *)
Definition year_slot_ok (n100 n4 n1 : Z) : bool :=
  let y := 1 + n100 * 100 + n4 * 4 + n1 in
  (days_before_year y =? n100 * _DI100Y + n4 * _DI4Y + n1 * 365)
  && Bool.eqb (is_leap y) ((n1 =? 3) && (negb (n4 =? 24) || (n100 =? 3))).

Definition year_slots_ok : bool :=
  all_from
    (fun n100 =>
       all_from (fun n4 => all_from (year_slot_ok n100 n4) 0 4) 0 25)
    0 4.

(** Day [n] of a year, counted from 0, gets a month and a day of that
    month that lie [n] days after the first of January; year 4 stands
    for the leap years and year 1 for the others. *)
Definition year_day_ok (leapyear : bool) (n : Z) : bool :=
  let y := if leapyear then 4 else 1 in
  let '(m, d) := _month_day n leapyear in
  (1 <=? m) && (m <=? 12) && (1 <=? d) && (d <=? days_in_month y m)
  && (days_before_month y m + d =? n + 1).

Definition year_days_ok : bool :=
  all_from (year_day_ok true) 0 365 && all_from (year_day_ok false) 0 365.

End datetime.

(** [sqlite3]'s default adapter of [datetime] values, which the
    connection applies to a bound [datetime]. *)
Module sqlite3.

Definition adapt_datetime (val : datetime.t) : string :=
  datetime.isoformat " " val.

End sqlite3.

(** ** The [background_tasks] table and the [BackgroundTask] model *)

Definition commit : Type := (string * string)%type.

(** A timestamp column as the code binds it or gets it back: [None] or
    SQL NULL, a text, or a [datetime], one the code bound or one a
    sqlite3 converter parsed. *)
Inductive cell : Type :=
| CNull
| CText (s : string)
| CDatetime (d : datetime.t).

(** One row of the table. [commits_json] is kept as the list the stored
    JSON text encodes, [json.loads] of what [json.dumps] wrote; the text
    itself is in [Stored.Row]. *)
Module Row.

Record t : Type := mk {
  task_id : string;
  user_id : Z;
  project_path : string;
  prompt : string;
  status : string;
  session_id : option string;
  provider : string;
  created_at : cell;
  finished_at : cell;
  total_cost : Q;
  total_turns : Z;
  last_output : option string;
  last_activity_at : cell;
  result_summary : option string;
  error_message : option string;
  commits_json : list commit;
  chat_id : option Z;
  message_thread_id : option Z
}.

End Row.

Module BackgroundTask.

Record t : Type := mk {
  task_id : string;
  user_id : Z;
  project_path : string;
  prompt : string;
  status : string;
  session_id : option string;
  provider : string;
  created_at : datetime.t;
  finished_at : option datetime.t;
  total_cost : Q;
  total_turns : Z;
  last_output : option string;
  last_activity_at : datetime.t;
  result_summary : option string;
  error_message : option string;
  commits : list commit;
  chat_id : option Z;
  message_thread_id : option Z
}.

(** The loop of [from_row] over the three timestamp fields:
    [if isinstance(val, str) and val: data[field] = datetime.fromisoformat(val)]. *)
Definition parse_field (c : cell) : result cell :=
  match c with
  | CText EmptyString => Ok c
  | CText s =>
      match datetime.fromisoformat s with
      | Ok d => Ok (CDatetime d)
      | Raise e => Raise e
      end
  | _ => Ok c
  end.

(** Validation of a required [datetime] field by the model constructor. *)
Definition required_datetime (field : string) (c : cell) : result datetime.t :=
  match c with
  | CDatetime d => Ok d
  | _ => Raise (ValidationError field)
  end.

(** Validation of an [Optional[datetime]] field. *)
Definition optional_datetime (field : string) (c : cell)
  : result (option datetime.t) :=
  match c with
  | CNull => Ok None
  | CDatetime d => Ok (Some d)
  | CText _ => Raise (ValidationError field)
  end.

Definition from_row (row : Row.t) : result t :=
  match parse_field (Row.created_at row) with
  | Raise e => Raise e
  | Ok c_created =>
  match parse_field (Row.last_activity_at row) with
  | Raise e => Raise e
  | Ok c_activity =>
  match parse_field (Row.finished_at row) with
  | Raise e => Raise e
  | Ok c_finished =>
  match required_datetime "created_at" c_created with
  | Raise e => Raise e
  | Ok created =>
  match optional_datetime "finished_at" c_finished with
  | Raise e => Raise e
  | Ok finished =>
  match required_datetime "last_activity_at" c_activity with
  | Raise e => Raise e
  | Ok activity =>
      Ok (mk (Row.task_id row) (Row.user_id row) (Row.project_path row)
            (Row.prompt row) (Row.status row) (Row.session_id row)
            (Row.provider row) created finished (Row.total_cost row)
            (Row.total_turns row) (Row.last_output row) activity
            (Row.result_summary row) (Row.error_message row)
            (Row.commits_json row) (Row.chat_id row)
            (Row.message_thread_id row))
  end end end end end end.

End BackgroundTask.

(** ** TaskRepository: the SQL statements of [src/tasks/repository.py] *)

Module TaskRepository.

Definition table : Type := list Row.t.

Definition has_id (task_id : string) (r : Row.t) : bool :=
  String.eqb (Row.task_id r) task_id.

Definition is_running (r : Row.t) : bool :=
  String.eqb (Row.status r) "running".

(** The tuple bound to the INSERT of [create], with the commits before
    [json.dumps]. *)
Definition row_of_task (task : BackgroundTask.t) : Row.t :=
  Row.mk (BackgroundTask.task_id task) (BackgroundTask.user_id task)
    (BackgroundTask.project_path task) (BackgroundTask.prompt task)
    (BackgroundTask.status task) (BackgroundTask.session_id task)
    (BackgroundTask.provider task)
    (CDatetime (BackgroundTask.created_at task))
    (match BackgroundTask.finished_at task with
     | Some d => CDatetime d | None => CNull end)
    (BackgroundTask.total_cost task) (BackgroundTask.total_turns task)
    (BackgroundTask.last_output task)
    (CDatetime (BackgroundTask.last_activity_at task))
    (BackgroundTask.result_summary task) (BackgroundTask.error_message task)
    (BackgroundTask.commits task) (BackgroundTask.chat_id task)
    (BackgroundTask.message_thread_id task).

(** Modelled from the spec: the schema of [background_tasks] is not part of
    the sources at hand; per section 4.1 [create] fails when the id collides
    with a stored one. *)
Definition create (task : BackgroundTask.t) (db : table) : result table :=
  if existsb (has_id (BackgroundTask.task_id task)) db
  then Raise (IntegrityError "UNIQUE constraint failed: background_tasks.task_id")
  else Ok (db ++ [row_of_task task])%list.

Definition fetch (row : option Row.t) : result (option BackgroundTask.t) :=
  match row with
  | Some r =>
      match BackgroundTask.from_row r with
      | Ok t => Ok (Some t)
      | Raise e => Raise e
      end
  | None => Ok None
  end.

Definition get (task_id : string) (db : table) : result (option BackgroundTask.t) :=
  fetch (List.find (has_id task_id) db).

(** [**kwargs] of [update_status]: a key is present or not, and a present
    key may carry [None]. *)
Record kwargs : Type := mk_kwargs {
  kw_result_summary : option (option string);
  kw_error_message : option (option string);
  kw_session_id : option (option string);
  kw_commits : option (list commit)
}.

Definition no_kwargs : kwargs := mk_kwargs None None None None.

Definition is_finishing (status : string) : bool :=
  String.eqb status "completed" || String.eqb status "failed".

Definition set_status (now : datetime.t) (status : string) (kw : kwargs)
  (r : Row.t) : Row.t :=
  Row.mk (Row.task_id r) (Row.user_id r) (Row.project_path r) (Row.prompt r)
    status
    (match kw_session_id kw with Some v => v | None => Row.session_id r end)
    (Row.provider r) (Row.created_at r)
    (if is_finishing status then CDatetime now else Row.finished_at r)
    (Row.total_cost r) (Row.total_turns r) (Row.last_output r)
    (CDatetime now)
    (match kw_result_summary kw with Some v => v | None => Row.result_summary r end)
    (match kw_error_message kw with Some v => v | None => Row.error_message r end)
    (match kw_commits kw with Some v => v | None => Row.commits_json r end)
    (Row.chat_id r) (Row.message_thread_id r).

Definition update_status (now : datetime.t) (task_id status : string)
  (kw : kwargs) (db : table) : table :=
  map (fun r => if has_id task_id r then set_status now status kw r else r) db.

Definition set_progress (now : datetime.t) (cost : Q)
  (last_output : option string) (r : Row.t) : Row.t :=
  Row.mk (Row.task_id r) (Row.user_id r) (Row.project_path r) (Row.prompt r)
    (Row.status r) (Row.session_id r) (Row.provider r) (Row.created_at r)
    (Row.finished_at r)
    (Row.total_cost r + cost)%Q (Row.total_turns r + 1)
    last_output
    (CDatetime now)
    (Row.result_summary r) (Row.error_message r) (Row.commits_json r)
    (Row.chat_id r) (Row.message_thread_id r).

Definition update_progress (now : datetime.t) (task_id : string) (cost : Q)
  (last_output : option string) (db : table) : table :=
  map (fun r => if has_id task_id r then set_progress now cost last_output r else r) db.

Definition get_running_for_project (project_path : string) (db : table)
  : result (option BackgroundTask.t) :=
  fetch (List.find (fun r => String.eqb (Row.project_path r) project_path
                        && is_running r) db).

Fixpoint from_rows (rows : list Row.t) : result (list BackgroundTask.t) :=
  match rows with
  | [] => Ok []
  | r :: rest =>
      match BackgroundTask.from_row r with
      | Raise e => Raise e
      | Ok t =>
          match from_rows rest with
          | Raise e => Raise e
          | Ok ts => Ok (t :: ts)
          end
      end
  end.

Definition get_all_running (db : table) : result (list BackgroundTask.t) :=
  from_rows (List.filter is_running db).

Definition count_running (db : table) : Z :=
  Z.of_nat (length (List.filter is_running db)).

End TaskRepository.

(** ** Events of [src/events/types.py] published by the task core *)

Inductive Event : Type :=
| TaskStartedEvent (task_id project_path prompt : string) (user_id chat_id : Z)
    (message_thread_id : option Z)
| TaskProgressEvent (task_id : string) (elapsed_seconds : Z) (cost : Q)
    (stage : string) (chat_id : Z) (message_thread_id : option Z)
| TaskCompletedEvent (task_id : string) (duration_seconds : Z) (cost : Q)
    (commits : list commit) (result_summary : string) (chat_id : Z)
    (message_thread_id : option Z)
| TaskFailedEvent (task_id : string) (duration_seconds : Z) (cost : Q)
    (error_message last_output : string) (chat_id : Z)
    (message_thread_id : option Z)
| TaskTimeoutEvent (task_id : string) (duration_seconds : Z) (cost : Q)
    (idle_seconds : Z) (chat_id : Z) (message_thread_id : option Z).

(** ** The provider interface of [src/llm/interface.py] *)

Module LLMResponse.

Record t : Type := mk {
  content : string;
  session_id : option string;
  cost : Q;
  duration_ms : Z;
  num_turns : Z;
  is_error : bool;
  error_message : option string
}.

End LLMResponse.

(** A stream event is any object; the callback reads three attributes with
    [getattr(event, name, default)]. [None] stands for an absent attribute
    as well as for one holding [None]. *)
Module StreamEvent.

Record t : Type := mk {
  cost : option Q;
  content : option string;
  tool_name : option string
}.

End StreamEvent.

(** One call of [provider.execute], seen from the manager: the stream events
    handed to the callback, in order, then the value returned or the
    exception raised. The [LLMProvider] protocol of [src/llm/interface.py]
    leaves open what a provider does with an exception of the callback;
    the provider of a [ProviderCall] lets it through at once, as the stub
    providers of [tests/unit/test_tasks/test_manager.py] do.
    [ClaudeProvider], which does not, is modelled on its own below. *)
Record ProviderCall : Type := {
  stream : list StreamEvent.t;
  outcome : result LLMResponse.t
}.

Record Settings : Type := {
  max_concurrent_tasks : Z;
  task_max_cost : Q;
  model_background : option string
}.

(** ** The world a coroutine acts on *)

Record World : Type := mkWorld {
  background_tasks : TaskRepository.table;
  published : list Event;
  provider_calls : nat;
  sleeps : list Q;
  clock_reads : nat;
  running_tasks : gmap string BackgroundTask.t;
  heartbeat_tasks : gset string
}.

(** ** A state monad with exceptions

    An exception keeps the state reached when it was raised, as side
    effects in Python survive a [raise]. *)

Definition M (S A : Type) : Type := S -> result A * S.

Definition ret {S A : Type} (a : A) : M S A := fun s => (Ok a, s).

Definition bind {S A B : Type} (m : M S A) (k : A -> M S B) : M S B :=
  fun s =>
    match m s with
    | (Ok a, s') => k a s'
    | (Raise e, s') => (Raise e, s')
    end.

Definition raise {S A : Type} (e : exn) : M S A := fun s => (Raise e, s).

Definition try_except {S A : Type} (m : M S A) (handler : exn -> M S A) : M S A :=
  fun s =>
    match m s with
    | (Ok a, s') => (Ok a, s')
    | (Raise e, s') => handler e s'
    end.

Definition try_finally {S A : Type} (m : M S A) (cleanup : M S unit) : M S A :=
  fun s =>
    let '(r, s') := m s in
    match cleanup s' with
    | (Ok _, s'') => (r, s'')
    | (Raise e, s'') => (Raise e, s'')
    end.

Definition gets {S A : Type} (f : S -> A) : M S A := fun s => (Ok (f s), s).

Definition modify {S : Type} (f : S -> S) : M S unit := fun s => (Ok tt, f s).

Definition of_result {S A : Type} (r : result A) : M S A := fun s => (r, s).

Declare Scope monad_scope.
Delimit Scope monad_scope with monad.
Notation "'let*' x := m 'in' k" := (bind m (fun x => k))
  (at level 10, x pattern, m at level 100, k at level 200) : monad_scope.
Notation "'do*' m 'in' k" := (bind m (fun _ => k))
  (at level 10, m at level 100, k at level 200) : monad_scope.
Local Open Scope monad_scope.

(** ** Python truthiness helpers *)

(** [x or ""] / [x or None] for an optional string: the empty string is
    falsy. *)
Definition truthy (o : option string) : option string :=
  match o with
  | Some EmptyString => None
  | other => other
  end.

(** [x or y] on optional strings. *)
Definition or_else (x y : option string) : option string :=
  match truthy x with Some s => Some s | None => y end.

(** [chat_id or 0] *)
Definition or_zero (o : option Z) : Z :=
  match o with Some z => z | None => 0 end.

(** [int(x)] of a float: truncation towards zero. *)
Definition py_int (q : Q) : Z := Z.quot (Qnum q) (Zpos (Qden q)).

(** [str(n)] of an int. *)
Definition str_int (n : Z) : string := NilZero.string_of_int (Z.to_int n).

(** ** Elementary effects on the world *)

Definition with_db (f : TaskRepository.table -> TaskRepository.table)
  (w : World) : World :=
  mkWorld (f (background_tasks w)) (published w) (provider_calls w) (sleeps w)
    (clock_reads w) (running_tasks w) (heartbeat_tasks w).

Definition with_event (e : Event) (w : World) : World :=
  mkWorld (background_tasks w) (published w ++ [e])%list (provider_calls w)
    (sleeps w) (clock_reads w) (running_tasks w) (heartbeat_tasks w).

Definition with_call (w : World) : World :=
  mkWorld (background_tasks w) (published w) (S (provider_calls w)) (sleeps w)
    (clock_reads w) (running_tasks w) (heartbeat_tasks w).

Definition with_sleep (delay : Q) (w : World) : World :=
  mkWorld (background_tasks w) (published w) (provider_calls w)
    (sleeps w ++ [delay])%list (clock_reads w) (running_tasks w)
    (heartbeat_tasks w).

Definition with_clock_read (w : World) : World :=
  mkWorld (background_tasks w) (published w) (provider_calls w) (sleeps w)
    (S (clock_reads w)) (running_tasks w) (heartbeat_tasks w).

Definition with_running
  (f : gmap string BackgroundTask.t -> gmap string BackgroundTask.t)
  (w : World) : World :=
  mkWorld (background_tasks w) (published w) (provider_calls w) (sleeps w)
    (clock_reads w) (f (running_tasks w)) (heartbeat_tasks w).

Definition with_heartbeats (f : gset string -> gset string) (w : World) : World :=
  mkWorld (background_tasks w) (published w) (provider_calls w) (sleeps w)
    (clock_reads w) (running_tasks w) (f (heartbeat_tasks w)).

(** [await self._event_bus.publish(event)] *)
Definition publish (e : Event) : M World unit := modify (with_event e).

(** [await asyncio.sleep(delay)] *)
Definition sleep (delay : Q) : M World unit := modify (with_sleep delay).

(** ** Stage detection of [src/tasks/heartbeat.py]

    Every pattern of [STAGE_PATTERNS] is an alternation of literal words
    compiled with [re.I]; [pattern.search] is a case-insensitive substring
    search for one of the alternatives. Case folding is that of the ASCII
    letters. *)

Definition lower (c : ascii) : ascii :=
  let n := nat_of_ascii c in
  if (Nat.leb 65 n && Nat.leb n 90)%bool then ascii_of_nat (n + 32) else c.

Fixpoint match_here (p s : string) : bool :=
  match p, s with
  | EmptyString, _ => true
  | String a p', String b s' => Ascii.eqb (lower a) (lower b) && match_here p' s'
  | String _ _, EmptyString => false
  end.

Fixpoint search_literal (p s : string) : bool :=
  match_here p s ||
  match s with
  | String _ s' => search_literal p s'
  | EmptyString => false
  end.

(** [pattern.search(text)] for an alternation of literals. *)
Definition search (alternatives : list string) (text : string) : bool :=
  existsb (fun p => search_literal p text) alternatives.

Definition STAGE_PATTERNS : list (list string * string) :=
  [ (["Read"; "Glob"; "Grep"; "searching"], "исследует код");
    (["Write"; "Edit"; "creating file"], "пишет код");
    (["pytest"; "npm test"; "jest"; "make test"], "запускает тесты");
    (["git commit"; "git push"], "коммитит");
    (["thinking"; "planning"; "analyzing"], "планирует");
    (["pip install"; "npm install"; "poetry"], "устанавливает зависимости") ].

Definition DEFAULT_STAGE : string := "работает".

Fixpoint first_stage (table : list (list string * string)) (text : string)
  : string :=
  match table with
  | [] => DEFAULT_STAGE
  | (pattern, stage) :: rest =>
      if search pattern text then stage else first_stage rest text
  end.

Definition parse_stage (last_output : option string) : string :=
  match truthy last_output with
  | None => DEFAULT_STAGE
  | Some text => first_stage STAGE_PATTERNS text
  end.

(** ** Heartbeat service and task manager

    What lies outside the task core enters as an oracle: the wall clock
    ([clock n] is the UTC reading, in microseconds, of the [n]-th call of
    [datetime.now(timezone.utc)]), the provider ([provider n] is what the
    [n]-th call of [execute] does), the rendering [f"{x:.2f}"] of a float,
    and the list [_collect_commits] extracts from [git log]. *)

Definition RETRY_DELAY_SECONDS : Q := 30.

Definition RECOVERY_MESSAGE : string := "Бот был перезапущен, задача прервана".

Record HeartbeatService : Type := {
  interval : Q;
  timeout : Q
}.

(** The local variables of [_run_task] that outlive an exception. *)
Record Frame : Type := mkFrame {
  world : World;
  accumulated_cost : Q;
  last_error : option exn
}.

Definition in_world {A : Type} (m : M World A) : M Frame A :=
  fun f =>
    let '(r, w) := m (world f) in
    (r, mkFrame w (accumulated_cost f) (last_error f)).

Section TaskCore.

Variable clock : nat -> Z.
Variable provider : nat -> ProviderCall.
Variable format_2f : Q -> string.
Variable git_log : string -> datetime.t -> list commit.

(** [datetime.now(timezone.utc)] *)
Definition utcnow : M World datetime.t :=
  fun w => (Ok (datetime.mk (clock (clock_reads w)) datetime.utc),
            with_clock_read w).

(** [str(exc)] *)
Definition str_exn (e : exn) : string :=
  match e with
  | ValueError msg | RuntimeError msg | TypeError msg | ValidationError msg
  | IntegrityError msg | OtherException msg => msg
  | CostLimitExceeded task_id cost limit =>
      "Task " +:+ task_id +:+ " exceeded cost limit: $" +:+ format_2f cost
      +:+ " > $" +:+ format_2f limit
  | CancelledError => ""
  end.

(** *** Repository calls as coroutines *)

Definition repo_create (task : BackgroundTask.t) : M World unit :=
  fun w =>
    match TaskRepository.create task (background_tasks w) with
    | Ok db => (Ok tt, with_db (fun _ => db) w)
    | Raise e => (Raise e, w)
    end.

Definition repo_get (task_id : string) : M World (option BackgroundTask.t) :=
  fun w => (TaskRepository.get task_id (background_tasks w), w).

Definition repo_update_status (task_id status : string)
  (kw : TaskRepository.kwargs) : M World unit :=
  let* now := utcnow in
  modify (with_db (TaskRepository.update_status now task_id status kw)).

Definition repo_update_progress (task_id : string) (cost : Q)
  (last_output : option string) : M World unit :=
  let* now := utcnow in
  modify (with_db (TaskRepository.update_progress now task_id cost last_output)).

Definition repo_get_running_for_project (project_path : string)
  : M World (option BackgroundTask.t) :=
  fun w =>
    (TaskRepository.get_running_for_project project_path (background_tasks w), w).

Definition repo_get_all_running : M World (list BackgroundTask.t) :=
  fun w => (TaskRepository.get_all_running (background_tasks w), w).

Definition repo_count_running : M World Z :=
  gets (fun w => TaskRepository.count_running (background_tasks w)).

(** *** HeartbeatService *)

(** [start]: nothing when a loop is already tracked for the id. *)
Definition heartbeat_start (task_id : string) : M World unit :=
  modify (with_heartbeats (fun s => s ∪ {[ task_id ]})).

(** [stop]: the entry is popped and its loop cancelled. *)
Definition heartbeat_stop (task_id : string) : M World unit :=
  modify (with_heartbeats (fun s => s ∖ {[ task_id ]})).

(** One pass through the body of [while True] in [_loop]; [true] when the
    loop goes on to the next pass, [false] on [break]. *)
Definition _loop_body (hb : HeartbeatService) (task_id : string) : M World bool :=
  do* sleep (interval hb) in
  let* found := repo_get task_id in
  match found with
  | None => ret false
  | Some task =>
      if negb (String.eqb (BackgroundTask.status task) "running") then ret false
      else
        let* now := utcnow in
        let* since_created :=
          of_result (datetime.sub now (BackgroundTask.created_at task)) in
        let elapsed := datetime.total_seconds since_created in
        let* since_activity :=
          of_result (datetime.sub now (BackgroundTask.last_activity_at task)) in
        let idle := datetime.total_seconds since_activity in
        if negb (Qle_bool idle (timeout hb)) then
          do* publish
                (TaskTimeoutEvent task_id (py_int elapsed)
                   (BackgroundTask.total_cost task) (py_int idle)
                   (or_zero (BackgroundTask.chat_id task))
                   (BackgroundTask.message_thread_id task)) in
          ret false
        else
          let stage := parse_stage (BackgroundTask.last_output task) in
          do* publish
                (TaskProgressEvent task_id (py_int elapsed)
                   (BackgroundTask.total_cost task) stage
                   (or_zero (BackgroundTask.chat_id task))
                   (BackgroundTask.message_thread_id task)) in
          ret true
  end.

(** The [while True] of [_loop], cut after [fuel] passes: [true] when the
    loop was left, [false] when it is still going. *)
Fixpoint _loop_while (hb : HeartbeatService) (task_id : string) (fuel : nat)
  : M World bool :=
  match fuel with
  | O => ret false
  | S fuel' =>
      let* again := _loop_body hb task_id in
      if again then _loop_while hb task_id fuel' else ret true
  end.

(** [_loop]: both [except] clauses swallow the exception, and [finally]
    drops the entry of the tracking map once the loop was left. *)
Definition _loop (hb : HeartbeatService) (task_id : string) (fuel : nat)
  : M World bool :=
  fun w =>
    match _loop_while hb task_id fuel w with
    | (Ok false, w') => (Ok false, w')
    | (Ok true, w') | (Raise _, w') =>
        (Ok true, with_heartbeats (fun s => s ∖ {[ task_id ]}) w')
    end.

(** *** TaskManager *)

Definition project_busy (project_path : string) (existing_id : string) : exn :=
  ValueError ("Project " +:+ project_path +:+ " already has a running task: "
              +:+ existing_id).

Definition capacity_exceeded (max_concurrent : Z) : exn :=
  ValueError ("Maximum concurrent tasks reached (" +:+ str_int max_concurrent
              +:+ ")").

(** [start_task]; [uuid8] is [uuid.uuid4().hex[:8]]. The two clock readings
    are the default factories of [created_at] and [last_activity_at]. *)
Definition start_task (settings : Settings) (uuid8 : string)
  (prompt project_path : string) (user_id chat_id : Z)
  (message_thread_id : option Z) (session_id : option string) : M World string :=
  let* existing := repo_get_running_for_project project_path in
  match existing with
  | Some e => raise (project_busy project_path (BackgroundTask.task_id e))
  | None =>
      let* running_count := repo_count_running in
      let max_concurrent := max_concurrent_tasks settings in
      if max_concurrent <=? running_count then
        raise (capacity_exceeded max_concurrent)
      else
        let task_id := uuid8 in
        let* created := utcnow in
        let* activity := utcnow in
        let task :=
          BackgroundTask.mk task_id user_id project_path prompt "running"
            session_id "anthropic" created None 0%Q 0 None activity None None
            [] (Some chat_id) message_thread_id in
        do* repo_create task in
        do* publish
              (TaskStartedEvent task_id project_path prompt user_id chat_id
                 message_thread_id) in
        do* modify (with_running (fun m => <[ task_id := task ]> m)) in
        do* heartbeat_start task_id in
        ret task_id
  end.

(** [stop_task]: cancelling the popped unit makes it unwind through the
    [finally] of [_run_task_with_cleanup]. *)
Definition stop_task (task_id : string) : M World unit :=
  do* modify (with_running (fun m => delete task_id m)) in
  do* heartbeat_stop task_id in
  repo_update_status task_id "stopped" TaskRepository.no_kwargs.

Fixpoint recover_each (orphaned : list BackgroundTask.t) : M World unit :=
  match orphaned with
  | [] => ret tt
  | task :: rest =>
      do* repo_update_status (BackgroundTask.task_id task) "failed"
            (TaskRepository.mk_kwargs None (Some (Some RECOVERY_MESSAGE)) None None) in
      recover_each rest
  end.

Definition recover : M World unit :=
  let* orphaned := repo_get_all_running in
  recover_each orphaned.

(** The guard every caller of [stop_task] applies first
    ([taskstop_command], the [taskstop:] callback): nothing is stopped
    unless the record exists with status [running]. *)
Definition taskstop (task_id : string) : M World bool :=
  let* task := repo_get task_id in
  match task with
  | None => ret false
  | Some t =>
      if negb (String.eqb (BackgroundTask.status t) "running") then ret false
      else do* stop_task task_id in ret true
  end.

(** *** The execution unit *)

Definition cost_delta_of (event : StreamEvent.t) : Q :=
  match StreamEvent.cost event with
  | Some c => if Qeq_bool c 0 then 0%Q else c
  | None => 0%Q
  end.

Definition output_of (event : StreamEvent.t) : option string :=
  or_else (or_else (StreamEvent.content event) (StreamEvent.tool_name event)) None.

Definition add_cost (delta : Q) : M Frame unit :=
  modify (fun f => mkFrame (world f) (accumulated_cost f + delta)%Q (last_error f)).

Definition set_last_error (e : exn) : M Frame unit :=
  modify (fun f => mkFrame (world f) (accumulated_cost f) (Some e)).

Definition stream_callback (task_id : string) (cost_limit : Q)
  (event : StreamEvent.t) : M Frame unit :=
  let cost_delta := cost_delta_of event in
  do* add_cost cost_delta in
  let output := output_of event in
  do* in_world (repo_update_progress task_id cost_delta output) in
  let* acc := gets accumulated_cost in
  if negb (Qle_bool acc cost_limit) then
    raise (CostLimitExceeded task_id acc cost_limit)
  else ret tt.

(** A provider that lets the callback's exceptions through hands its
    stream events to the callback one after the other; the first
    exception of the callback ends the call. *)
Fixpoint feed (callback : StreamEvent.t -> M Frame unit)
  (events : list StreamEvent.t) : M Frame unit :=
  match events with
  | [] => ret tt
  | event :: rest => do* callback event in feed callback rest
  end.

Definition execute (callback : StreamEvent.t -> M Frame unit)
  : M Frame LLMResponse.t :=
  let* n := gets (fun f => provider_calls (world f)) in
  do* in_world (modify with_call) in
  do* feed callback (stream (provider n)) in
  of_result (outcome (provider n)).

(** [int((datetime.now(timezone.utc) - start_time).total_seconds())] *)
Definition duration_since (start_time : datetime.t) : M World Z :=
  let* now := utcnow in
  let* td := of_result (datetime.sub now start_time) in
  ret (py_int (datetime.total_seconds td)).

Definition or_empty (o : option string) : string :=
  match truthy o with Some s => s | None => "" end.

Definition failed_event (task : BackgroundTask.t) (duration : Z) (cost : Q)
  (error_message : string) : Event :=
  TaskFailedEvent (BackgroundTask.task_id task) duration cost error_message
    (or_empty (BackgroundTask.last_output task))
    (or_zero (BackgroundTask.chat_id task))
    (BackgroundTask.message_thread_id task).

Definition error_kwargs (msg : string) : TaskRepository.kwargs :=
  TaskRepository.mk_kwargs None (Some (Some msg)) None None.

(** [response.content[:500] if response.content else ""] *)
Definition result_summary_of (response : LLMResponse.t) : string :=
  match LLMResponse.content response with
  | EmptyString => ""
  | content => substring 0 500 content
  end.

(** The statements of the [try] block that follow a response without
    error flag: commits, summary, the [completed] update, the [Completed]
    event, and the [return]. *)
Definition complete (task : BackgroundTask.t) (start_time : datetime.t)
  (response : LLMResponse.t) : M Frame bool :=
  let task_id := BackgroundTask.task_id task in
  let commits := git_log (BackgroundTask.project_path task) start_time in
  let result_summary := result_summary_of response in
  do* in_world
        (repo_update_status task_id "completed"
           (TaskRepository.mk_kwargs (Some (Some result_summary)) None
              (Some (LLMResponse.session_id response)) (Some commits))) in
  let* duration := in_world (duration_since start_time) in
  let* acc := gets accumulated_cost in
  do* in_world
        (publish
           (TaskCompletedEvent task_id duration
              (acc + LLMResponse.cost response)%Q commits result_summary
              (or_zero (BackgroundTask.chat_id task))
              (BackgroundTask.message_thread_id task))) in
  ret true.

(** The statements [_run_task] has twice, in the [CostLimitExceeded]
    clause and after the loop: the duration, the [failed] update with the
    message, the [Failed] event. *)
Definition fail_task (task : BackgroundTask.t) (start_time : datetime.t)
  (error_msg : string) : M Frame unit :=
  let* duration := in_world (duration_since start_time) in
  do* in_world
        (repo_update_status (BackgroundTask.task_id task) "failed"
           (error_kwargs error_msg)) in
  let* acc := gets accumulated_cost in
  in_world (publish (failed_event task duration acc error_msg)).

(** The [try] block of one pass of [for attempt in range(2)]; [true] is
    the [return] that leaves [_run_task]. *)
Definition attempt_try (settings : Settings) (task : BackgroundTask.t)
  (start_time : datetime.t) (attempt : Z) : M Frame bool :=
  let task_id := BackgroundTask.task_id task in
  do* (if 0 <? attempt then in_world (sleep RETRY_DELAY_SECONDS) else ret tt) in
  let* response := execute (stream_callback task_id (task_max_cost settings)) in
  if LLMResponse.is_error response then
    raise (RuntimeError
             (match truthy (LLMResponse.error_message response) with
              | Some msg => msg
              | None => "LLM execution failed"
              end))
  else complete task start_time response.

(** The three [except] clauses of that pass. *)
Definition attempt_except (task : BackgroundTask.t) (start_time : datetime.t)
  (e : exn) : M Frame bool :=
  match e with
  | CancelledError => raise e
  | CostLimitExceeded _ _ _ =>
      do* fail_task task start_time (str_exn e) in
      ret true
  | _ =>
      do* set_last_error e in
      ret false
  end.

Definition run_attempt (settings : Settings) (task : BackgroundTask.t)
  (start_time : datetime.t) (attempt : Z) : M Frame bool :=
  try_except (attempt_try settings task start_time attempt)
    (attempt_except task start_time).

(** [for attempt in range(2)], over the attempts still to make; [true]
    when a pass returned. *)
Fixpoint attempts (settings : Settings) (task : BackgroundTask.t)
  (start_time : datetime.t) (todo : list Z) : M Frame bool :=
  match todo with
  | [] => ret false
  | attempt :: rest =>
      let* returned := run_attempt settings task start_time attempt in
      if returned then ret true else attempts settings task start_time rest
  end.

(** What follows the loop: all attempts exhausted. *)
Definition exhausted (task : BackgroundTask.t) (start_time : datetime.t)
  : M Frame unit :=
  let* last := gets last_error in
  match last with
  | Some e => fail_task task start_time (str_exn e)
  | None => ret tt
  end.

Definition _run_task_frame (settings : Settings) (task : BackgroundTask.t)
  : M Frame unit :=
  let* start_time := in_world utcnow in
  let* returned := attempts settings task start_time [0; 1] in
  if returned then ret tt else exhausted task start_time.

Definition _run_task (settings : Settings) (task : BackgroundTask.t)
  : M World unit :=
  fun w =>
    let '(r, f) := _run_task_frame settings task (mkFrame w 0%Q None) in
    (r, world f).

Definition _run_task_with_cleanup (settings : Settings)
  (task : BackgroundTask.t) : M World unit :=
  try_finally
    (try_except (_run_task settings task) (fun _ => ret tt))
    (do* heartbeat_stop (BackgroundTask.task_id task) in
     modify (with_running (fun m => delete (BackgroundTask.task_id task) m))).

End TaskCore.

(** ** Vocabulary of the statements *)

(** The statuses the data model calls terminal. *)
Definition is_terminal (status : string) : bool :=
  String.eqb status "completed" || String.eqb status "failed"
  || String.eqb status "stopped".

(** The record stored under an id: the row [get] fetches. *)
Definition stored (task_id : string) (db : TaskRepository.table) : option Row.t :=
  List.find (TaskRepository.has_id task_id) db.

(** The accumulated-cost counter after the callback took [events],
    starting from [acc]. *)
Definition total (acc : Q) (events : list StreamEvent.t) : Q :=
  fold_left (fun a e => (a + cost_delta_of e)%Q) events acc.

(** The counter stays within the limit after each of [events]. *)
Definition within_limit (limit acc : Q) (events : list StreamEvent.t) : Prop :=
  forall n : nat, (0 < n <= length events)%nat ->
    (total acc (firstn n events) <= limit)%Q.

(** A failure of the provider call that is neither a cancellation nor a
    breach of the cost limit: an exception of another kind, or a response
    flagged [is_error]. *)
Definition is_transient (o : result LLMResponse.t) : bool :=
  match o with
  | Ok r => LLMResponse.is_error r
  | Raise CancelledError => false
  | Raise (CostLimitExceeded _ _ _) => false
  | Raise _ => true
  end.

(** The exception [_run_task] sees for a transient failure. *)
Definition transient_error (o : result LLMResponse.t) : exn :=
  match o with
  | Ok r =>
      RuntimeError
        (match truthy (LLMResponse.error_message r) with
         | Some msg => msg
         | None => "LLM execution failed"
         end)
  | Raise e => e
  end.

(** The label of the first pattern of the table that matches. *)
Definition first_match (text : string) : option string :=
  match List.find (fun entry => search (fst entry) text) STAGE_PATTERNS with
  | Some (_, stage) => Some stage
  | None => None
  end.

(** The record [start_task] builds and hands to [create]. *)
Definition new_task (clock : nat -> Z) (w : World) (uuid8 prompt project_path : string)
  (user_id chat_id : Z) (message_thread_id : option Z)
  (session_id : option string) : BackgroundTask.t :=
  BackgroundTask.mk uuid8 user_id project_path prompt "running" session_id
    "anthropic"
    (datetime.mk (clock (clock_reads w)) datetime.utc) None 0%Q 0 None
    (datetime.mk (clock (S (clock_reads w))) datetime.utc) None None []
    (Some chat_id) message_thread_id.

(** ** Concrete data for the worked scenarios *)

Definition sample_clock (n : nat) : Z :=
  63907005600000000 + Z.of_nat n * 1000000.

Definition sample_time : datetime.t :=
  datetime.mk 63907005600000000 datetime.utc.

Definition later_time : datetime.t :=
  datetime.mk 63907005660000000 datetime.utc.

Definition sample_row (status : string) (last_output : option string) : Row.t :=
  Row.mk "abcd1234" 42 "/p/app" "Fix the bug" status None "anthropic"
    (CDatetime sample_time) CNull 0%Q 0 last_output (CDatetime sample_time)
    None None [] (Some 100) None.

Definition sample_settings : Settings :=
  {| max_concurrent_tasks := 3; task_max_cost := 10%Q; model_background := None |}.

Definition empty_world : World := mkWorld [] [] 0 [] 0 ∅ ∅.

(** The world right after [start_task] accepted a first task. *)
Definition started_world : World :=
  snd (start_task sample_clock sample_settings "abcd1234" "Fix the bug"
         "/p/app" 42 100 None None empty_world).

(** ** Intermediate worlds and relations between tables *)

(** The delay before a retry: only a pass after the first sleeps. *)
Definition retry_sleep (attempt : Z) : list Q :=
  if 0 <? attempt then [RETRY_DELAY_SECONDS] else [].

(** The world after the callback persisted the progress of one stream
    event, and after a whole list of them. *)
Definition progress_step (clock : nat -> Z) (task_id : string) (w : World)
  (event : StreamEvent.t) : World :=
  snd (repo_update_progress clock task_id (cost_delta_of event)
         (output_of event) w).

Definition fed (clock : nat -> Z) (task_id : string) (w : World)
  (events : list StreamEvent.t) : World :=
  fold_left (progress_step clock task_id) events w.

(** The duration [duration_since] computes from the [n]-th clock reading. *)
Definition duration_at (clock : nat -> Z) (n : nat) (start_time : datetime.t) : Z :=
  match datetime.sub (datetime.mk (clock n) datetime.utc) start_time with
  | Ok td => py_int (datetime.total_seconds td)
  | Raise _ => 0
  end.

(** The world [fail_task] leaves: the [failed] update, then the [Failed]
    event with the counter [acc]. *)
Definition failed_world (clock : nat -> Z) (task : BackgroundTask.t)
  (start_time : datetime.t) (error_msg : string) (acc : Q) (w : World) : World :=
  mkWorld
    (TaskRepository.update_status
       (datetime.mk (clock (S (clock_reads w))) datetime.utc)
       (BackgroundTask.task_id task) "failed" (error_kwargs error_msg)
       (background_tasks w))
    (published w
     ++ [failed_event task (duration_at clock (clock_reads w) start_time) acc
           error_msg])%list
    (provider_calls w) (sleeps w) (S (S (clock_reads w))) (running_tasks w)
    (heartbeat_tasks w).

(** The world [complete] leaves: the [completed] update, then the
    [Completed] event. *)
Definition completed_world (clock : nat -> Z)
  (git_log : string -> datetime.t -> list commit) (task : BackgroundTask.t)
  (start_time : datetime.t) (response : LLMResponse.t) (acc : Q) (w : World)
  : World :=
  mkWorld
    (TaskRepository.update_status
       (datetime.mk (clock (clock_reads w)) datetime.utc)
       (BackgroundTask.task_id task) "completed"
       (TaskRepository.mk_kwargs (Some (Some (result_summary_of response))) None
          (Some (LLMResponse.session_id response))
          (Some (git_log (BackgroundTask.project_path task) start_time)))
       (background_tasks w))
    (published w
     ++ [TaskCompletedEvent (BackgroundTask.task_id task)
           (duration_at clock (S (clock_reads w)) start_time)
           (acc + LLMResponse.cost response)%Q
           (git_log (BackgroundTask.project_path task) start_time)
           (result_summary_of response)
           (or_zero (BackgroundTask.chat_id task))
           (BackgroundTask.message_thread_id task)])%list
    (provider_calls w) (sleeps w) (S (S (clock_reads w))) (running_tasks w)
    (heartbeat_tasks w).

(** The world an attempt starts the provider call in: after the retry
    delay, if any, with the call counted. *)
Definition calling_world (attempt : Z) (w : World) : World :=
  with_call (if 0 <? attempt then with_sleep RETRY_DELAY_SECONDS w else w).

(** A row and its later version: same id, and a terminal status has not
    been turned into a non-terminal one. *)
Definition keeps_terminal (r r' : Row.t) : Prop :=
  Row.task_id r' = Row.task_id r
  /\ (is_terminal (Row.status r) = true -> is_terminal (Row.status r') = true).

(** A table and a later version of it: the old rows, each kept as above,
    followed by the rows inserted since. *)
Definition evolves (db db' : TaskRepository.table) : Prop :=
  exists old inserted : TaskRepository.table,
    db' = (old ++ inserted)%list /\ Forall2 keeps_terminal db old.

(** Only the table and the clock moved between two worlds. *)
Definition quiet (w w' : World) : Prop :=
  published w' = published w
  /\ provider_calls w' = provider_calls w
  /\ sleeps w' = sleeps w
  /\ running_tasks w' = running_tasks w
  /\ heartbeat_tasks w' = heartbeat_tasks w
  /\ evolves (background_tasks w) (background_tasks w').

(** What [recover] did to one row, given the ids it went through. *)
Definition recovered (ids : list string) (r r' : Row.t) : Prop :=
  Row.task_id r' = Row.task_id r
  /\ (In (Row.task_id r) ids ->
      Row.status r' = "failed" /\ Row.error_message r' = Some RECOVERY_MESSAGE)
  /\ (~ In (Row.task_id r) ids -> r' = r).

(** The stage label the specification describes: that of the first
    matching pattern, the default one for no output or no match. *)
Definition stage_label (last_output : option string) : string :=
  match last_output with
  | None => DEFAULT_STAGE
  | Some text =>
      match first_match text with
      | Some stage => stage
      | None => DEFAULT_STAGE
      end
  end.

(** A record whose last activity lies ten minutes before [sample_clock 0]. *)
Definition idle_row : Row.t :=
  Row.mk "abcd1234" 42 "/p/app" "Fix the bug" "running" None "anthropic"
    (CDatetime (datetime.mk 63907005000000000 datetime.utc)) CNull
    (25 # 100)%Q 3 (Some "Grep for patterns")
    (CDatetime (datetime.mk 63907005000000000 datetime.utc))
    None None [] (Some 200) (Some 5).

Definition idle_world : World := mkWorld [idle_row] [] 0 [] 0 ∅ ∅.

Definition sample_heartbeat : HeartbeatService :=
  {| interval := 60%Q; timeout := 300%Q |}.


(** A legacy record: its timestamps were stored without an offset. *)
Definition legacy_row : Row.t :=
  Row.mk "abcd1234" 42 "/p/app" "Fix the bug" "running" None "anthropic"
    (CText "2026-02-18T10:00:00") CNull 0%Q 0 None
    (CText "2026-02-18T10:00:00") None None [] (Some 100) None.

Definition legacy_world : World := mkWorld [legacy_row] [] 0 [] 0 ∅ ∅.

(** ** Oracles of the worked scenarios *)

(** Two decimals, rounding half up: stands for [f"{x:.2f}"]. *)
Definition sample_format_2f (q : Q) : string :=
  let cents := (Qnum q * 200 + Zpos (Qden q)) / (2 * Zpos (Qden q)) in
  let frac := cents mod 100 in
  str_int (cents / 100) +:+ "." +:+ (if frac <? 10 then "0" else "")
  +:+ str_int frac.

Definition no_commits (project_path : string) (since : datetime.t)
  : list commit := [].

Definition ok_response : LLMResponse.t :=
  LLMResponse.mk "ok" (Some "sess-1") (2 # 10)%Q 1000 1 false None.

Definition glitch_response : LLMResponse.t :=
  LLMResponse.mk "" None 0%Q 0 0 true (Some "network glitch").

(** Scenario S1: the provider answers at once. *)
Definition ok_provider (n : nat) : ProviderCall :=
  {| stream := []; outcome := Ok ok_response |}.


(** Scenario S2: two stream events of cost 0.6 each. *)
Definition costly_provider (n : nat) : ProviderCall :=
  {| stream := [StreamEvent.mk (Some (6 # 10)%Q) (Some "Working...") None;
                StreamEvent.mk (Some (6 # 10)%Q) (Some "Still working") None];
     outcome := Ok ok_response |}.

Definition tight_settings : Settings :=
  {| max_concurrent_tasks := 3; task_max_cost := 1%Q; model_background := None |}.

(** A provider that streams one output snippet and then reports an
    error, on every call. *)
Definition failing_provider (n : nat) : ProviderCall :=
  {| stream := [StreamEvent.mk (Some (1 # 10)%Q) (Some "Step 1 done") None];
     outcome := Ok glitch_response |}.

(** The record [start_task] captured for the unit it spawned in
    [started_world]. *)
Definition sample_task : BackgroundTask.t :=
  new_task sample_clock empty_world "abcd1234" "Fix the bug" "/p/app" 42 100
    None None.

(** [started_world] after its unit ran to completion. *)
Definition finished_world : World :=
  snd (_run_task_with_cleanup sample_clock ok_provider sample_format_2f
         no_commits sample_settings sample_task started_world).

(** ** Vocabulary of the further statements *)

(** The running records of a project. *)
Definition running_for (project_path : string) (db : TaskRepository.table)
  : list Row.t :=
  List.filter
    (fun r => String.eqb (Row.project_path r) project_path
              && TaskRepository.is_running r) db.

(** At most one running record per working directory. *)
Definition exclusive (db : TaskRepository.table) : Prop :=
  forall project_path : string,
    (length (running_for project_path db) <= 1)%nat.

(** A row and its later version, for an operation that starts nothing:
    same id and project, and running only if it was running. *)
Definition settled (r r' : Row.t) : Prop :=
  Row.task_id r' = Row.task_id r
  /\ Row.project_path r' = Row.project_path r
  /\ (TaskRepository.is_running r' = true -> TaskRepository.is_running r = true).

Definition settles (db db' : TaskRepository.table) : Prop :=
  Forall2 settled db db'.

(** A timestamp cell that is read as an aware datetime: a text that
    [fromisoformat] parses to one, as [from_row] does with the text
    SQLite hands back, or an aware datetime a converter already parsed. *)
Definition aware_cell (c : cell) : bool :=
  match c with
  | CDatetime d => datetime.aware d
  | CText s =>
      match datetime.fromisoformat s with
      | Ok d => datetime.aware d
      | Raise _ => false
      end
  | CNull => false
  end.

Definition row_aware (r : Row.t) : bool :=
  aware_cell (Row.created_at r) && aware_cell (Row.last_activity_at r)
  && match Row.finished_at r with
     | CNull => true
     | c => aware_cell c
     end.

Definition table_aware (db : TaskRepository.table) : bool :=
  forallb row_aware db.

(** ** The table as SQLite keeps it

    The rows above hold the values the code binds and reads: [datetime]
    values for the timestamps, the list of commits for [commits_json].
    SQLite keeps a bound [datetime] as the text of sqlite3's default
    adapter, and the commits as the text [json.dumps] made of them;
    [from_row] gets these texts and decodes them. *)

(** [json.dumps] and [json.loads] on the values of [commits_json]: lists
    of objects with the keys [sha] and [message], as [_collect_commits]
    builds them. *)
Module json.

Definition QUOTE : ascii := ascii_of_nat 34.
Definition BACKSLASH : ascii := ascii_of_nat 92.

Definition hex_char (v : nat) : ascii :=
  nth v ["0"; "1"; "2"; "3"; "4"; "5"; "6"; "7"; "8"; "9";
         "a"; "b"; "c"; "d"; "e"; "f"]%char "0"%char.

(** One character under [ensure_ascii=True]: the short escapes of
    [ESCAPE_DCT], the printable ASCII characters as they are, and
    [\u00XX] for the rest. *)
Definition escape_char (c : ascii) : string :=
  let n := nat_of_ascii c in
  if Ascii.eqb c QUOTE then String BACKSLASH (String QUOTE "")
  else if Ascii.eqb c BACKSLASH then String BACKSLASH (String BACKSLASH "")
  else if (n =? 10)%nat then String BACKSLASH "n"
  else if (n =? 13)%nat then String BACKSLASH "r"
  else if (n =? 9)%nat then String BACKSLASH "t"
  else if (n =? 8)%nat then String BACKSLASH "b"
  else if (n =? 12)%nat then String BACKSLASH "f"
  else if (32 <=? n)%nat && (n <=? 126)%nat then String c ""
  else String BACKSLASH
         ("u00" +:+ String (hex_char (n / 16)) (String (hex_char (n mod 16)) "")).

Fixpoint escape (s : string) : string :=
  match s with
  | EmptyString => ""
  | String c s' => escape_char c +:+ escape s'
  end.

(** [py_encode_basestring_ascii] *)
Definition encode_basestring (s : string) : string :=
  String QUOTE (escape s +:+ String QUOTE "").

Definition dumps_commit (c : commit) : string :=
  "{" +:+ encode_basestring "sha" +:+ ": " +:+ encode_basestring (fst c)
  +:+ ", " +:+ encode_basestring "message" +:+ ": "
  +:+ encode_basestring (snd c) +:+ "}".

Fixpoint dumps_more (commits : list commit) : string :=
  match commits with
  | [] => ""
  | c :: rest => ", " +:+ dumps_commit c +:+ dumps_more rest
  end.

(** [json.dumps(commits)] with the default separators. *)
Definition dumps (commits : list commit) : string :=
  match commits with
  | [] => "[]"
  | c :: rest => "[" +:+ dumps_commit c +:+ dumps_more rest +:+ "]"
  end.

Definition hex_value (c : ascii) : option nat :=
  let n := nat_of_ascii c in
  if (48 <=? n)%nat && (n <=? 57)%nat then Some (n - 48)%nat
  else if (97 <=? n)%nat && (n <=? 102)%nat then Some (n - 87)%nat
  else if (65 <=? n)%nat && (n <=? 70)%nat then Some (n - 55)%nat
  else None.

(** The character a short escape stands for. *)
Definition unescape (c : ascii) : option ascii :=
  if Ascii.eqb c QUOTE then Some QUOTE
  else if Ascii.eqb c BACKSLASH then Some BACKSLASH
  else if Ascii.eqb c "/" then Some "/"%char
  else if Ascii.eqb c "b" then Some (ascii_of_nat 8)
  else if Ascii.eqb c "f" then Some (ascii_of_nat 12)
  else if Ascii.eqb c "n" then Some (ascii_of_nat 10)
  else if Ascii.eqb c "r" then Some (ascii_of_nat 13)
  else if Ascii.eqb c "t" then Some (ascii_of_nat 9)
  else None.

Definition cons_char (c : ascii) (r : option (string * string))
  : option (string * string) :=
  match r with
  | Some (s, rest) => Some (String c s, rest)
  | None => None
  end.

(** [scanstring] after the opening quote: the decoded string and the
    text after the closing quote. A raw control character is refused
    (strict mode); a [\uXXXX] beyond the characters of this model has no
    reading here. *)
Fixpoint scanstring (s : string) : option (string * string) :=
  match s with
  | EmptyString => None
  | String c s1 =>
      if Ascii.eqb c QUOTE then Some ("", s1)
      else if Ascii.eqb c BACKSLASH then
        match s1 with
        | String e s2 =>
            if Ascii.eqb e "u" then
              match s2 with
              | String h3 (String h2 (String h1 (String h0 s3))) =>
                  match hex_value h3, hex_value h2, hex_value h1, hex_value h0 with
                  | Some v3, Some v2, Some v1, Some v0 =>
                      let code := (((v3 * 16 + v2) * 16 + v1) * 16 + v0)%nat in
                      if (code <? 256)%nat
                      then cons_char (ascii_of_nat code) (scanstring s3)
                      else None
                  | _, _, _, _ => None
                  end
              | _ => None
              end
            else
              match unescape e with
              | Some ch => cons_char ch (scanstring s2)
              | None => None
              end
        | EmptyString => None
        end
      else if (nat_of_ascii c <? 32)%nat then None
      else cons_char c (scanstring s1)
  end.

Fixpoint strip_prefix (p s : string) : option string :=
  match p with
  | EmptyString => Some s
  | String a p' =>
      match s with
      | String b s' => if Ascii.eqb a b then strip_prefix p' s' else None
      | EmptyString => None
      end
  end.

(** One object of the list and the text after it. *)
Definition loads_commit (s : string) : option (commit * string) :=
  match strip_prefix ("{" +:+ encode_basestring "sha" +:+ ": " +:+ String QUOTE "") s with
  | Some s1 =>
      match scanstring s1 with
      | Some (sha, s2) =>
          match strip_prefix (", " +:+ encode_basestring "message" +:+ ": "
                              +:+ String QUOTE "") s2 with
          | Some s3 =>
              match scanstring s3 with
              | Some (message, s4) =>
                  match strip_prefix "}" s4 with
                  | Some s5 => Some ((sha, message), s5)
                  | None => None
                  end
              | None => None
              end
          | None => None
          end
      | None => None
      end
  | None => None
  end.

(** The objects after the first, up to the closing bracket; [fuel]
    bounds their number. *)
Fixpoint loads_more (fuel : nat) (s : string) : option (list commit) :=
  match fuel with
  | O => None
  | S fuel' =>
      match s with
      | String c EmptyString => if Ascii.eqb c "]" then Some [] else None
      | _ =>
          match strip_prefix ", " s with
          | Some s1 =>
              match loads_commit s1 with
              | Some (c, s2) =>
                  match loads_more fuel' s2 with
                  | Some rest => Some (c :: rest)
                  | None => None
                  end
              | None => None
              end
          | None => None
          end
      end
  end.

(** [json.loads] on the texts [dumps] writes; any other text is a
    [JSONDecodeError], which is a [ValueError]. *)
Definition loads (s : string) : result (list commit) :=
  let bad := Raise (ValueError "Expecting value") in
  match strip_prefix "[" s with
  | Some s1 =>
      match s1 with
      | String c EmptyString => if Ascii.eqb c "]" then Ok [] else bad
      | _ =>
          match loads_commit s1 with
          | Some (c, s2) =>
              match loads_more (String.length s2) s2 with
              | Some rest => Ok (c :: rest)
              | None => bad
              end
          | None => bad
          end
      end
  | None => bad
  end.

End json.

Module Stored.

(** A row as the connection hands it back: the timestamp columns as
    cells, NULL or text when no converter is registered, and
    [commits_json] as NULL or its text. *)
Record Row : Type := mk {
  task_id : string;
  user_id : Z;
  project_path : string;
  prompt : string;
  status : string;
  session_id : option string;
  provider : string;
  created_at : cell;
  finished_at : cell;
  total_cost : Q;
  total_turns : Z;
  last_output : option string;
  last_activity_at : cell;
  result_summary : option string;
  error_message : option string;
  commits_json : option string;
  chat_id : option Z;
  message_thread_id : option Z
}.

(** [commits_raw = data.pop("commits_json", "[]")] and
    [json.loads(commits_raw) if commits_raw else []]. *)
Definition commits_of (commits_raw : option string) : result (list commit) :=
  match commits_raw with
  | None | Some EmptyString => Ok []
  | Some raw => json.loads raw
  end.

(** [BackgroundTask.from_row] from its first line on: the commits are
    decoded, then the timestamps parsed and the model validated. *)
Definition from_row (row : Row) : result BackgroundTask.t :=
  match commits_of (commits_json row) with
  | Raise e => Raise e
  | Ok commits =>
      BackgroundTask.from_row
        (Row.mk (task_id row) (user_id row) (project_path row) (prompt row)
           (status row) (session_id row) (provider row) (created_at row)
           (finished_at row) (total_cost row) (total_turns row)
           (last_output row) (last_activity_at row) (result_summary row)
           (error_message row) commits (chat_id row) (message_thread_id row))
  end.

(** What SQLite keeps of a bound timestamp and hands back when no
    converter is registered: for a [datetime] the text of the default
    adapter; a text or NULL as it is. *)
Definition as_stored (c : cell) : cell :=
  match c with
  | CDatetime d => CText (sqlite3.adapt_datetime d)
  | _ => c
  end.

(** What SQLite keeps of the values bound for a row. *)
Definition of_bound (r : Row.t) : Row :=
  mk (Row.task_id r) (Row.user_id r) (Row.project_path r) (Row.prompt r)
    (Row.status r) (Row.session_id r) (Row.provider r)
    (as_stored (Row.created_at r)) (as_stored (Row.finished_at r))
    (Row.total_cost r) (Row.total_turns r) (Row.last_output r)
    (as_stored (Row.last_activity_at r))
    (Row.result_summary r) (Row.error_message r)
    (Some (json.dumps (Row.commits_json r)))
    (Row.chat_id r) (Row.message_thread_id r).

Definition has_id (id : string) (r : Row) : bool := String.eqb (task_id r) id.

(** [get] on the stored rows: [SELECT * ... WHERE task_id = ?] and
    [from_row] of the first row, if any. *)
Definition get (id : string) (rows : list Row) : result (option BackgroundTask.t) :=
  match List.find (has_id id) rows with
  | Some r =>
      match from_row r with
      | Ok t => Ok (Some t)
      | Raise e => Raise e
      end
  | None => Ok None
  end.

(** The timestamps of a stored row are read as aware datetimes. *)
Definition row_aware (r : Row) : bool :=
  aware_cell (created_at r) && aware_cell (last_activity_at r)
  && match finished_at r with
     | CNull => true
     | c => aware_cell c
     end.

End Stored.

(** The table as SQLite keeps it. *)
Definition on_disk (db : TaskRepository.table) : list Stored.Row :=
  map Stored.of_bound db.

(** Every timestamp SQLite keeps of the table is read as an aware
    datetime. *)
Definition stored_aware (db : TaskRepository.table) : bool :=
  forallb Stored.row_aware (on_disk db).

(** A cell whose [datetime], if it is one, is a value Python can hold. *)
Definition valid_cell (c : cell) : bool :=
  match c with
  | CDatetime d => datetime.valid d
  | _ => true
  end.

Definition row_valid (r : Row.t) : bool :=
  valid_cell (Row.created_at r) && valid_cell (Row.finished_at r)
  && valid_cell (Row.last_activity_at r).

(** A record whose timestamps are values Python can hold. *)
Definition task_valid (task : BackgroundTask.t) : bool :=
  datetime.valid (BackgroundTask.created_at task)
  && match BackgroundTask.finished_at task with
     | Some d => datetime.valid d
     | None => true
     end
  && datetime.valid (BackgroundTask.last_activity_at task).

(** A clock whose readings are instants of the years 1 to 9999. *)
Definition in_range (clock : nat -> Z) : Prop :=
  forall n : nat, 0 <= clock n < datetime.MAX_US.

(** What an execution unit does to the table, with the clock readings
    it stamps its updates with. *)
Inductive stamps (clock : nat -> Z) (task_id : string)
  : TaskRepository.table -> TaskRepository.table -> Prop :=
| stamps_none (db : TaskRepository.table) : stamps clock task_id db db
| stamps_progress (db db' : TaskRepository.table) (n : nat) (cost : Q)
    (out : option string) :
    stamps clock task_id db db' ->
    stamps clock task_id db
      (TaskRepository.update_progress (datetime.mk (clock n) datetime.utc)
         task_id cost out db')
| stamps_finish (db db' : TaskRepository.table) (n : nat) (status : string)
    (kw : TaskRepository.kwargs) :
    stamps clock task_id db db' ->
    TaskRepository.is_finishing status = true ->
    stamps clock task_id db
      (TaskRepository.update_status (datetime.mk (clock n) datetime.utc)
         task_id status kw db').

(** What an execution unit may do to the table: progress updates and
    [completed]/[failed] updates of its own id, stamped with aware
    clock readings. *)
Inductive writes (task_id : string)
  : TaskRepository.table -> TaskRepository.table -> Prop :=
| writes_none (db : TaskRepository.table) : writes task_id db db
| writes_progress (db db' : TaskRepository.table) (us : Z) (cost : Q)
    (out : option string) :
    writes task_id db db' ->
    writes task_id db
      (TaskRepository.update_progress (datetime.mk us datetime.utc) task_id
         cost out db')
| writes_finish (db db' : TaskRepository.table) (us : Z) (status : string)
    (kw : TaskRepository.kwargs) :
    writes task_id db db' ->
    TaskRepository.is_finishing status = true ->
    writes task_id db
      (TaskRepository.update_status (datetime.mk us datetime.utc) task_id
         status kw db').

(** How a run of the execution unit ended. *)
Inductive ending : Type :=
| Completed (response : LLMResponse.t)
| Failed (error_msg : string)
| Cancelled.

(** The world a run ends in, from the world [w1] its last provider call
    left, with the counter at [acc]. *)
Definition ending_world (clock : nat -> Z)
  (git_log : string -> datetime.t -> list commit) (task : BackgroundTask.t)
  (start_time : datetime.t) (e : ending) (acc : Q) (w1 : World) : World :=
  match e with
  | Completed response =>
      completed_world clock git_log task start_time response acc w1
  | Failed error_msg => failed_world clock task start_time error_msg acc w1
  | Cancelled => w1
  end.

Definition ending_result (e : ending) : result unit :=
  match e with
  | Cancelled => Raise CancelledError
  | _ => Ok tt
  end.

(** The table after progress updates of one id only, whose cost deltas
    add up to [spent]. *)
Inductive feeds (task_id : string)
  : Q -> TaskRepository.table -> TaskRepository.table -> Prop :=
| feeds_none (db : TaskRepository.table) : feeds task_id 0%Q db db
| feeds_step (spent : Q) (db db' : TaskRepository.table) (us : Z) (cost : Q)
    (out : option string) :
    feeds task_id spent db db' ->
    feeds task_id (spent + cost)%Q db
      (TaskRepository.update_progress (datetime.mk us datetime.utc) task_id
         cost out db').

(** What the provider calls of a run left behind, seen from the world [w]
    the run started in: one call or two, the retry delay slept before the
    second, progress updates on the table and nothing else. *)
Definition after_calls (task_id : string) (w w1 : World) (acc : Q) : Prop :=
  published w1 = published w
  /\ running_tasks w1 = running_tasks w
  /\ heartbeat_tasks w1 = heartbeat_tasks w
  /\ feeds task_id acc (background_tasks w) (background_tasks w1)
  /\ (provider_calls w1 = S (provider_calls w) /\ sleeps w1 = sleeps w
      \/ provider_calls w1 = S (S (provider_calls w))
         /\ sleeps w1 = (sleeps w ++ [RETRY_DELAY_SECONDS])%list).

(** Events of the supervisor of one task. *)
Definition is_progress_of (task_id : string) (e : Event) : bool :=
  match e with
  | TaskProgressEvent id _ _ _ _ _ => String.eqb id task_id
  | _ => false
  end.

Definition is_timeout_of (task_id : string) (e : Event) : bool :=
  match e with
  | TaskTimeoutEvent id _ _ _ _ _ => String.eqb id task_id
  | _ => false
  end.

(** Nothing but the event log, the sleeps and the clock moved. *)
Definition observes (w w' : World) : Prop :=
  background_tasks w' = background_tasks w
  /\ provider_calls w' = provider_calls w
  /\ running_tasks w' = running_tasks w
  /\ heartbeat_tasks w' = heartbeat_tasks w.

(** A text with its ASCII letters folded to lower case. *)
Fixpoint fold_case (s : string) : string :=
  match s with
  | EmptyString => EmptyString
  | String c s' => String (lower c) (fold_case s')
  end.

(** * The callers of the task core

    The git log read after a successful call, the Telegram notifications
    of [src/notifications/task_notifications.py], the inline-keyboard
    callbacks of [src/bot/orchestrator.py] and [taskstop_command] of
    [src/bot/handlers/task_handlers.py]. *)

(** ** Text helpers *)

Definition LF : string := String (ascii_of_nat 10) EmptyString.

(** [s.split(sep, 1)] for a one-character separator: the text before the
    first separator and the text after it; nothing when [s] holds no
    separator, where Python returns the one-element list [[s]]. *)
Fixpoint split_once (sep : ascii) (s : string) : option (string * string) :=
  match s with
  | EmptyString => None
  | String c rest =>
      if Ascii.eqb c sep then Some (EmptyString, rest)
      else match split_once sep rest with
           | Some (before, after) => Some (String c before, after)
           | None => None
           end
  end.

(** ** [_collect_commits] *)

(** What [git log --oneline --since=... --no-merges] did in the project
    directory: the subprocess could not be started ([OSError]), or it
    exited with a return code and an output, given by its lines
    [stdout.decode().strip().splitlines()] (none for an empty output). *)
Inductive GitLog : Type :=
| GitNotStarted
| GitExited (returncode : Z) (lines : list string).

(** The loop over the lines: [parts = line.split(" ", 1)], kept when
    [len(parts) == 2]. *)
Fixpoint parse_oneline (lines : list string) : list commit :=
  match lines with
  | [] => []
  | line :: rest =>
      match split_once " " line with
      | Some (sha, message) => (sha, message) :: parse_oneline rest
      | None => parse_oneline rest
      end
  end.

Definition _collect_commits (git : GitLog) : list commit :=
  match git with
  | GitNotStarted => []
  | GitExited returncode lines =>
      if negb (returncode =? 0) || (length lines =? 0)%nat then []
      else parse_oneline lines
  end.

(** ** TaskNotificationHandler *)

(** The class of an event, as [isinstance] tells it. *)
Inductive EventType : Type :=
| TaskStarted
| TaskProgress
| TaskCompleted
| TaskFailed
| TaskTimeout.

Definition type_of (e : Event) : EventType :=
  match e with
  | TaskStartedEvent _ _ _ _ _ _ => TaskStarted
  | TaskProgressEvent _ _ _ _ _ _ => TaskProgress
  | TaskCompletedEvent _ _ _ _ _ _ _ => TaskCompleted
  | TaskFailedEvent _ _ _ _ _ _ _ => TaskFailed
  | TaskTimeoutEvent _ _ _ _ _ _ => TaskTimeout
  end.

(** An inline button: its label and its [callback_data]. *)
Definition Button : Type := (string * string)%type.

Definition InlineKeyboardMarkup : Type := list (list Button).

(** The arguments of one [bot.send_message] call. *)
Module Message.

Record t : Type := mk {
  chat_id : Z;
  text : string;
  parse_mode : string;
  message_thread_id : option Z;
  reply_markup : option InlineKeyboardMarkup
}.

End Message.

(** What [bot.send_message] did with a message. *)
Inductive SendResult : Type :=
| Delivered
| TelegramError (msg : string)
| SendRaised (e : exn).

(** The chat side: the messages delivered so far and the number of
    [send_message] calls made. *)
Record Telegram : Type := mkTelegram {
  delivered : list Message.t;
  send_calls : nat
}.

Section Notifications.

(** The answer of [bot.send_message] to its n-th call. *)
Variable bot : nat -> Message.t -> SendResult.
Variable format_2f : Q -> string.

Definition _send (chat_id : Z) (text : string) (message_thread_id : option Z)
  (reply_markup : option InlineKeyboardMarkup) : M Telegram unit :=
  if chat_id =? 0 then ret tt
  else
    fun tg =>
      let message :=
        Message.mk chat_id text "HTML" message_thread_id reply_markup in
      let calls := S (send_calls tg) in
      match bot (send_calls tg) message with
      | Delivered => (Ok tt, mkTelegram (delivered tg ++ [message])%list calls)
      | TelegramError _ => (Ok tt, mkTelegram (delivered tg) calls)
      | SendRaised e => (Raise e, mkTelegram (delivered tg) calls)
      end.

(** [f"{minutes}m {seconds}s"] after [divmod(total, 60)]. *)
Definition minutes_seconds (total : Z) : string :=
  str_int (total / 60) +:+ "m " +:+ str_int (total mod 60) +:+ "s".

Definition handle_progress (event : Event) : M Telegram unit :=
  match event with
  | TaskProgressEvent task_id elapsed_seconds cost stage chat_id
      message_thread_id =>
      let text :=
        "🔄 <code>" +:+ task_id +:+ "</code> | "
        +:+ "⏱ " +:+ minutes_seconds elapsed_seconds +:+ " | "
        +:+ "💰 $" +:+ format_2f cost +:+ LF
        +:+ "📍 " +:+ stage in
      _send chat_id text message_thread_id None
  | _ => ret tt
  end.

(** One line per commit of [event.commits[:5]]; a commit is the pair of
    the values under the keys [sha] and [message], which are the keys
    [_collect_commits] writes. *)
Definition commit_line (c : commit) : string :=
  "   • <code>" +:+ fst c +:+ "</code> " +:+ snd c.

Definition handle_completed (event : Event) : M Telegram unit :=
  match event with
  | TaskCompletedEvent task_id duration_seconds cost commits result_summary
      chat_id message_thread_id =>
      let lines :=
        ["✅ <b>Задача <code>" +:+ task_id +:+ "</code> завершена!</b>" +:+ LF;
         "⏱ Время: " +:+ minutes_seconds duration_seconds;
         "💰 Стоимость: $" +:+ format_2f cost] in
      let lines :=
        match commits with
        | [] => lines
        | _ =>
            (lines
             ++ ["📝 Коммитов: " +:+ str_int (Z.of_nat (length commits))]
             ++ map commit_line (firstn 5 commits))%list
        end in
      let lines :=
        match result_summary with
        | EmptyString => lines
        | _ => (lines ++ [LF +:+ "📋 " +:+ substring 0 300 result_summary])%list
        end in
      _send chat_id (String.concat LF lines) message_thread_id None
  | _ => ret tt
  end.

Definition handle_failed (event : Event) : M Telegram unit :=
  match event with
  | TaskFailedEvent task_id duration_seconds cost error_message last_output
      chat_id message_thread_id =>
      let text :=
        "❌ <b>Задача <code>" +:+ task_id
        +:+ "</code> завершилась с ошибкой</b>" +:+ LF +:+ LF
        +:+ "⏱ Время: " +:+ minutes_seconds duration_seconds +:+ LF
        +:+ "💰 Стоимость: $" +:+ format_2f cost +:+ LF
        +:+ "📋 Ошибка: " +:+ substring 0 200 error_message in
      let keyboard :=
        [[("📋 Лог", "tasklog:" +:+ task_id);
          ("🔄 Повторить", "taskretry:" +:+ task_id)]] in
      _send chat_id text message_thread_id (Some keyboard)
  | _ => ret tt
  end.

Definition handle_timeout (event : Event) : M Telegram unit :=
  match event with
  | TaskTimeoutEvent task_id duration_seconds cost idle_seconds chat_id
      message_thread_id =>
      let text :=
        "⚠️ <b>Задача <code>" +:+ task_id +:+ "</code> не отвечает</b>"
        +:+ LF +:+ LF
        +:+ "Нет активности уже " +:+ minutes_seconds idle_seconds in
      let keyboard :=
        [[("🔄 Перезапустить", "taskretry:" +:+ task_id);
          ("⏹ Остановить", "taskstop:" +:+ task_id)]] in
      _send chat_id text message_thread_id (Some keyboard)
  | _ => ret tt
  end.

(** [register]: the subscriptions made on the event bus, each an event
    class with the handler called for events of that class. *)
Definition register : list (EventType * (Event -> M Telegram unit)) :=
  [(TaskProgress, handle_progress);
   (TaskCompleted, handle_completed);
   (TaskFailed, handle_failed);
   (TaskTimeout, handle_timeout)].

End Notifications.

(** ** Callbacks and commands of the bot *)

(** What a handler shows: the text, the [parse_mode] and the keyboard it
    passes to [reply_text] or [edit_message_text]. The calls on the update
    itself ([query.answer], the reply) are taken to go through; a handler
    returns the reply it ends with. *)
Module Reply.

Record t : Type := mk {
  text : string;
  parse_mode : option string;
  reply_markup : option InlineKeyboardMarkup
}.

End Reply.

Definition html (text : string) : Reply.t := Reply.mk text (Some "HTML") None.

Definition plain (text : string) : Reply.t := Reply.mk text None None.

Definition not_configured : Reply.t := plain "Фоновые задачи не настроены.".

(** [_, task_id = data.split(":", 1)] *)
Definition callback_task_id (data : string) : result string :=
  match split_once ":" data with
  | Some (_, task_id) => Ok task_id
  | None => Raise (ValueError "not enough values to unpack (expected 2, got 1)")
  end.

(** [task.chat_id or query.message.chat_id] *)
Definition chat_or (chat_id : option Z) (fallback : Z) : Z :=
  match chat_id with
  | Some c => if c =? 0 then fallback else c
  | None => fallback
  end.

(** [not task or task.status != "running"] *)
Definition not_running (task : option BackgroundTask.t) : bool :=
  match task with
  | None => true
  | Some t => negb (String.eqb (BackgroundTask.status t) "running")
  end.

Section Handlers.

Variable clock : nat -> Z.
Variable format_2f : Q -> string.
(** [escape_html] of [src/bot/utils/html_format.py] and [Path.name]. *)
Variable escape_html : string -> string.
Variable path_name : string -> string.

(** [try: await task_manager.stop_task(task_id)] with its handler
    [except Exception as e], which builds the reply shown instead;
    [CancelledError] is no [Exception] and passes. *)
Definition try_stop (task_id : string) (on_error : string -> Reply.t)
  : M World (option Reply.t) :=
  try_except
    (do* stop_task clock task_id in ret None)
    (fun e =>
       match e with
       | CancelledError => raise e
       | _ => ret (Some (on_error (substring 0 200 (str_exn format_2f e))))
       end).

Definition stop_error (parse_mode : option string) (message : string)
  : Reply.t :=
  Reply.mk ("Ошибка при остановке задачи: " +:+ escape_html message)
    parse_mode None.

Definition not_found_or_finished (task_id : string) : Reply.t :=
  html ("Задача <code>" +:+ escape_html task_id
        +:+ "</code> не найдена или уже завершена.").

Definition not_found (task_id : string) : Reply.t :=
  html ("Задача <code>" +:+ escape_html task_id +:+ "</code> не найдена.").

Definition stopped_reply (shown_id : string) : Reply.t :=
  html ("⏹ Задача <code>" +:+ shown_id +:+ "</code> остановлена.").

(** [task_manager] tells whether [context.bot_data] holds a task manager. *)
Definition _taskstop_callback (task_manager : bool) (data : string)
  : M World Reply.t :=
  let* task_id := of_result (callback_task_id data) in
  if negb task_manager then ret not_configured
  else
    let* task := repo_get task_id in
    if not_running task then ret (not_found_or_finished task_id)
    else
      let* failure := try_stop task_id (stop_error (Some "HTML")) in
      match failure with
      | Some reply => ret reply
      | None => ret (stopped_reply (escape_html task_id))
      end.

Definition _tasklog_callback (task_manager : bool) (data : string)
  : M World Reply.t :=
  let* task_id := of_result (callback_task_id data) in
  if negb task_manager then ret not_configured
  else
    let* task := repo_get task_id in
    match task with
    | None => ret (not_found task_id)
    | Some t =>
        let output :=
          match truthy (BackgroundTask.last_output t) with
          | Some o => o
          | None => "(нет вывода)"
          end in
        let safe_output := escape_html (substring 0 3000 output) in
        ret (html ("📋 Задача <code>" +:+ task_id +:+ "</code>:" +:+ LF +:+ LF
                   +:+ "<pre>" +:+ safe_output +:+ "</pre>"))
    end.

(** [uuid8] is the id [start_task] draws, [query_chat_id] is
    [query.message.chat_id]. [except ValueError] also catches pydantic's
    [ValidationError], which is a [ValueError]. *)
Definition _taskretry_callback (settings : Settings) (uuid8 : string)
  (query_chat_id : Z) (task_manager : bool) (data : string)
  : M World Reply.t :=
  let* task_id := of_result (callback_task_id data) in
  if negb task_manager then ret not_configured
  else
    let* task := repo_get task_id in
    match task with
    | None => ret (not_found task_id)
    | Some t =>
        do* (if String.eqb (BackgroundTask.status t) "running" then
               try_except (stop_task clock task_id)
                 (fun e =>
                    match e with
                    | CancelledError => raise e
                    | _ => ret tt
                    end)
             else ret tt) in
        try_except
          (let* new_task_id :=
             start_task clock settings uuid8 (BackgroundTask.prompt t)
               (BackgroundTask.project_path t) (BackgroundTask.user_id t)
               (chat_or (BackgroundTask.chat_id t) query_chat_id)
               (BackgroundTask.message_thread_id t)
               (BackgroundTask.session_id t) in
           ret (html ("🔄 Задача перезапущена" +:+ LF
                      +:+ "Новый ID: <code>" +:+ new_task_id +:+ "</code>")))
          (fun e =>
             match e with
             | ValueError _ | ValidationError _ =>
                 ret (plain ("❌ " +:+ escape_html (str_exn format_2f e)))
             | _ => raise e
             end)
    end.

(** One button per running task, each on a row of its own. *)
Definition stop_choice (tasks : list BackgroundTask.t) : InlineKeyboardMarkup :=
  map (fun t =>
         [(path_name (BackgroundTask.project_path t) +:+ ": "
           +:+ BackgroundTask.task_id t,
           "taskstop:" +:+ BackgroundTask.task_id t)])
      tasks.

(** [taskstop_command]; [args] is [context.args] and [project_path] what
    [_get_project_path(context)] returns. *)
Definition taskstop_command (task_manager : bool) (args : list string)
  (project_path : option string) : M World Reply.t :=
  if negb task_manager then ret not_configured
  else
    match args with
    | task_id :: _ =>
        let* task := repo_get task_id in
        if not_running task then ret (not_found_or_finished task_id)
        else
          let* failure := try_stop task_id (stop_error None) in
          match failure with
          | Some reply => ret reply
          | None => ret (stopped_reply (escape_html task_id))
          end
    | [] =>
        let* task :=
          match project_path with
          | Some p => repo_get_running_for_project p
          | None => ret None
          end in
        let* choice :=
          match task with
          | Some t => ret (inr t)
          | None =>
              let* tasks := repo_get_all_running in
              match tasks with
              | [] => ret (inl (plain "Нет активных задач для остановки."))
              | [t] => ret (inr t)
              | _ =>
                  ret (inl (Reply.mk "Какую задачу остановить?" None
                              (Some (stop_choice tasks))))
              end
          end in
        match choice with
        | inl reply => ret reply
        | inr t =>
            let* failure :=
              try_stop (BackgroundTask.task_id t) (stop_error None) in
            match failure with
            | Some reply => ret reply
            | None => ret (stopped_reply (BackgroundTask.task_id t))
            end
        end
    end.

End Handlers.

(** ** Vocabulary of the statements on the callers *)

Fixpoint has_char (c : ascii) (s : string) : bool :=
  match s with
  | EmptyString => false
  | String x rest => Ascii.eqb x c || has_char c rest
  end.

(** The line [git log --oneline] prints for a commit. *)
Definition oneline (c : commit) : string := fst c +:+ " " +:+ snd c.

Definition event_task_id (e : Event) : string :=
  match e with
  | TaskStartedEvent task_id _ _ _ _ _
  | TaskProgressEvent task_id _ _ _ _ _
  | TaskCompletedEvent task_id _ _ _ _ _ _
  | TaskFailedEvent task_id _ _ _ _ _ _
  | TaskTimeoutEvent task_id _ _ _ _ _ => task_id
  end.

Definition event_chat_id (e : Event) : Z :=
  match e with
  | TaskStartedEvent _ _ _ _ chat_id _
  | TaskProgressEvent _ _ _ _ chat_id _
  | TaskCompletedEvent _ _ _ _ _ chat_id _
  | TaskFailedEvent _ _ _ _ _ chat_id _
  | TaskTimeoutEvent _ _ _ _ chat_id _ => chat_id
  end.

Definition event_thread (e : Event) : option Z :=
  match e with
  | TaskStartedEvent _ _ _ _ _ thread
  | TaskProgressEvent _ _ _ _ _ thread
  | TaskCompletedEvent _ _ _ _ _ _ thread
  | TaskFailedEvent _ _ _ _ _ _ thread
  | TaskTimeoutEvent _ _ _ _ _ thread => thread
  end.

(** The three callback prefixes the orchestrator registers patterns for. *)
Definition task_actions : list string := ["taskstop"; "tasklog"; "taskretry"].

(** A handler handed message [m] to the bot: one more call is counted,
    and the message is delivered, dropped on a [TelegramError], or the
    bot's other exception is raised. *)
Definition sent_as (bot : nat -> Message.t -> SendResult) (m : Message.t)
  (tg : Telegram) (after : result unit * Telegram) : Prop :=
  send_calls (snd after) = S (send_calls tg)
  /\ match bot (send_calls tg) m with
     | Delivered =>
         fst after = Ok tt
         /\ delivered (snd after) = (delivered tg ++ [m])%list
     | TelegramError _ =>
         fst after = Ok tt /\ delivered (snd after) = delivered tg
     | SendRaised e =>
         fst after = Raise e /\ delivered (snd after) = delivered tg
     end.

(** What a subscribed handler does with an event. *)
Definition delivers (bot : nat -> Message.t -> SendResult)
  (entry : EventType * (Event -> M Telegram unit)) : Prop :=
  forall (event : Event) (tg : Telegram),
    (type_of event <> fst entry \/ event_chat_id event = 0 ->
     snd entry event tg = (Ok tt, tg))
    /\ (type_of event = fst entry ->
        event_chat_id event <> 0 ->
        exists m : Message.t,
          Message.chat_id m = event_chat_id event
          /\ Message.message_thread_id m = event_thread event
          /\ Message.parse_mode m = "HTML"
          /\ sent_as bot m tg (snd entry event tg)).

(** A button that leads back to [task_id]: its data is one of the three
    registered prefixes, a colon and the id, and the callbacks read that
    id from it. *)
Definition leads_to (task_id : string) (b : Button) : Prop :=
  exists action : string,
    In action task_actions
    /\ snd b = action +:+ ":" +:+ task_id
    /\ callback_task_id (snd b) = Ok task_id.

(** The buttons of a message, row after row. *)
Definition buttons (m : Message.t) : list Button :=
  match Message.reply_markup m with
  | Some keyboard => concat keyboard
  | None => []
  end.

(** Task ids are unique in the table (the PRIMARY KEY of the column). *)
Definition unique_ids (db : TaskRepository.table) : Prop :=
  List.NoDup (map Row.task_id db).

(** [db'] is [db] after the stop of the running record [task_id]. *)
Definition stopped_one (task_id : string) (db db' : TaskRepository.table)
  : Prop :=
  exists (us : Z) (r0 : Row.t),
    In r0 db
    /\ TaskRepository.is_running r0 = true
    /\ Row.task_id r0 = task_id
    /\ db' = TaskRepository.update_status (datetime.mk us datetime.utc)
               task_id "stopped" TaskRepository.no_kwargs db.

(** The table after a handler: as it was, or with one running record
    stopped. *)
Definition untouched_or_stopped (w w' : World) : Prop :=
  background_tasks w' = background_tasks w
  \/ exists task_id : string,
       stopped_one task_id (background_tasks w) (background_tasks w').

(** [db'] is [db], possibly with one new row at its end. *)
Definition grown_by_one (db db' : TaskRepository.table) : Prop :=
  db' = db \/ exists row : Row.t, db' = (db ++ [row])%list.

(** Every record is still in the table as it was, except the one stored
    under [task_id] if that one was running. *)
Definition keeps_all_but (task_id : string) (db db' : TaskRepository.table)
  : Prop :=
  forall r : Row.t,
    In r db ->
    TaskRepository.is_running r = false \/ Row.task_id r <> task_id ->
    In r db'.

(** A bot that delivers every message, and a chat with nothing sent yet. *)
Definition reliable_bot (n : nat) (m : Message.t) : SendResult := Delivered.

Definition quiet_chat : Telegram := mkTelegram [] 0.

(** A row and its later version under the one-way rule of statuses: the
    same id, and the status as it was unless the row was running and is
    now in a terminal status. *)
Definition one_way (r r' : Row.t) : Prop :=
  Row.task_id r' = Row.task_id r
  /\ (Row.status r' = Row.status r
      \/ (Row.status r = "running" /\ is_terminal (Row.status r') = true)).

(** The response a completed run ended with is the one provider call [n]
    returned, and it carries no error flag. *)
Definition returned_by (provider : nat -> ProviderCall) (n : nat) (e : ending)
  : Prop :=
  match e with
  | Completed response =>
      outcome (provider n) = Ok response
      /\ LLMResponse.is_error response = false
  | _ => True
  end.

(** * The cost column on binary64 values

    [total_cost] is a REAL column and the [cost] bound to the UPDATE of
    [update_progress] a Python [float]: both are binary64 values, and
    [total_cost + ?] is their sum rounded once. The table above keeps
    amounts as exact rationals; [REAL] is the same table and the same
    UPDATE with the column as SQLite holds it, for the statements that
    depend on the rounding. *)
Module REAL.

Record Row : Type := mkRow {
  task_id : string;
  user_id : Z;
  project_path : string;
  prompt : string;
  status : string;
  session_id : option string;
  provider : string;
  created_at : cell;
  finished_at : cell;
  total_cost : float;
  total_turns : Z;
  last_output : option string;
  last_activity_at : cell;
  result_summary : option string;
  error_message : option string;
  commits_json : list commit;
  chat_id : option Z;
  message_thread_id : option Z
}.

Definition table : Type := list Row.

Definition has_id (id : string) (r : Row) : bool := String.eqb (task_id r) id.

Definition set_progress (now : datetime.t) (cost : float)
  (last_output : option string) (r : Row) : Row :=
  mkRow (task_id r) (user_id r) (project_path r) (prompt r) (status r)
    (session_id r) (provider r) (created_at r) (finished_at r)
    (PrimFloat.add (total_cost r) cost) (total_turns r + 1)
    last_output
    (CDatetime now)
    (result_summary r) (error_message r) (commits_json r) (chat_id r)
    (message_thread_id r).

Definition update_progress (now : datetime.t) (id : string) (cost : float)
  (last_output : option string) (db : table) : table :=
  map (fun r => if has_id id r then set_progress now cost last_output r else r)
    db.

(** The record stored under an id. *)
Definition stored (id : string) (db : table) : option Row :=
  List.find (has_id id) db.

(** The amounts 0.1, 0.2, 0.3 and 0.5 as Python reads them. *)
Definition tenth : float := 0x1.999999999999ap-4%float.
Definition fifth : float := 0x1.999999999999ap-3%float.
Definition three_tenths : float := 0x1.3333333333333p-2%float.
Definition half : float := 0x1p-1%float.

(** A running record with cost 0.1 and the snippet of its last step. *)
Definition sample : Row :=
  mkRow "abcd1234" 42 "/p/app" "Fix the bug" "running" None "anthropic"
    (CDatetime sample_time) CNull tenth 1 (Some "Step 1 done")
    (CDatetime sample_time) None None [] (Some 100) None.

End REAL.

(** * ClaudeProvider ([src/llm/claude_provider.py])

    The one implementation of the provider protocol among the sources,
    and what [create_llm_provider] builds. *)

(** The attributes [execute] reads of what [run_command] returns. *)
Module ClaudeResponse.

Record t : Type := mk {
  content : string;
  session_id : option string;
  cost : Q;
  duration_ms : Z;
  num_turns : Z;
  is_error : bool
}.

End ClaudeResponse.

(** A call that passes keyword arguments to a function without
    [**kwargs]: the first keyword that names no parameter raises
    [TypeError] before the body runs. *)
Definition bind_keywords (qualname : string) (parameters keywords : list string)
  : result unit :=
  match List.find (fun k => negb (existsb (String.eqb k) parameters)) keywords with
  | Some k =>
      Raise (TypeError (qualname +:+ "() got an unexpected keyword argument '"
                        +:+ k +:+ "'"))
  | None => Ok tt
  end.


Module ClaudeProvider.

(** The parameters of [execute] after [self]. *)
Definition parameters : list string :=
  ["prompt"; "working_dir"; "user_id"; "session_id"; "stream_callback";
   "force_new"].

Section Execute.

Variable format_2f : Q -> string.
(** [self._claude_integration.run_command], which is not among the
    sources: any coroutine, handed the callback as [on_stream]. *)
Variable run_command
  : (StreamEvent.t -> M Frame unit) -> M Frame ClaudeResponse.t.

(** [execute], called with [keywords]: the [try] maps the response, and
    [except Exception] turns every exception, [CancelledError] apart,
    into an error response carrying [str(exc)]. *)
Definition execute (keywords : list string)
  (stream_callback : StreamEvent.t -> M Frame unit) : M Frame LLMResponse.t :=
  do* of_result (bind_keywords "ClaudeProvider.execute" parameters keywords) in
  try_except
    (let* response := run_command stream_callback in
     ret (LLMResponse.mk (ClaudeResponse.content response)
            (ClaudeResponse.session_id response)
            (ClaudeResponse.cost response)
            (ClaudeResponse.duration_ms response)
            (ClaudeResponse.num_turns response)
            (ClaudeResponse.is_error response) None))
    (fun exc =>
       match exc with
       | CancelledError => raise exc
       | _ =>
           ret (LLMResponse.mk "" None 0%Q 0 0 true
                  (Some (str_exn format_2f exc)))
       end).

End Execute.

End ClaudeProvider.






(** The first task of the scenarios with its timestamps as the texts
    SQLite hands back: ISO 8601 with the UTC offset. *)
Definition text_row : Row.t :=
  Row.mk "abcd1234" 42 "/p/app" "Fix the bug" "running" None "anthropic"
    (CText "2026-02-18 10:00:00+00:00") CNull 0%Q 0 None
    (CText "2026-02-18 10:00:00.250000+00:00") None None [] (Some 100) None.

Definition text_world : World := mkWorld [text_row] [] 0 [] 0 ∅ ∅.

(** A clock that ticks one second per reading through the day of the
    scenarios and then stands still. *)
Definition day_clock (n : nat) : Z :=
  63907005600000000 + Z.min (Z.of_nat n) 50000 * 1000000.

(** A record that ran and was stopped, with two commits, one of them
    with a quoted word, a backslash, a tab and a letter beyond ASCII in
    its message. *)
Definition busy_task : BackgroundTask.t :=
  BackgroundTask.mk "abcd1234" 42 "/p/app" "Fix the bug" "stopped"
    (Some "sess-1") "anthropic"
    (datetime.mk 63907005600000000 datetime.utc)
    (Some (datetime.mk 63907005660000000 datetime.utc))
    (6 # 10)%Q 2 (Some "Step 2 done")
    (datetime.mk 63907005630250000 datetime.utc) None None
    [("a1b2c3d", "[claude] Fix bug");
     ("e4f5a6b",
      "[claude] Say " +:+ String json.QUOTE ("hi" +:+ String json.QUOTE "")
      +:+ " in C:\tmp" +:+ String (ascii_of_nat 9) ""
      +:+ String (ascii_of_nat 233) "")]
    (Some 100) None.

(** * Timestamps as texts: [isoformat] and [fromisoformat] *)

Example isoformat_aware :
  datetime.isoformat " " (datetime.mk 63907005600250000 (Some 0))
  = "2026-02-18 10:00:00.250000+00:00".
Proof. vm_compute. reflexivity. Qed.

Example isoformat_whole_second :
  datetime.isoformat "T" (datetime.mk 63907005600000000 None)
  = "2026-02-18T10:00:00".
Proof. vm_compute. reflexivity. Qed.

Example isoformat_last_day :
  datetime.isoformat " " (datetime.mk (datetime.MAX_US - 1) (Some (-19800000000)))
  = "9999-12-31 23:59:59.999999-05:30".
Proof. vm_compute. reflexivity. Qed.

(** ** The date of an ordinal *)

Lemma all_from_spec (f : Z -> bool) (k : nat) :
  forall start : Z,
    datetime.all_from f start k = true ->
    forall r : Z, start <= r < start + Z.of_nat k -> f r = true.
Proof.
  induction k as [|k IH]; intros start H r Hr; [lia|].
  simpl in H. apply andb_true_iff in H as [H0 H1].
  destruct (Z.eq_dec r start) as [->|Hne]; [exact H0|].
  apply (IH (start + 1) H1). lia.
Qed.

(** The years of a 400-year cycle and the days of a year, by
    evaluation. *)
Lemma year_slots (n100 n4 n1 : Z) :
  0 <= n100 < 4 -> 0 <= n4 < 25 -> 0 <= n1 < 4 ->
  let y := 1 + n100 * 100 + n4 * 4 + n1 in
  datetime.days_before_year y = n100 * 36524 + n4 * 1461 + n1 * 365
  /\ datetime.is_leap y = (n1 =? 3) && (negb (n4 =? 24) || (n100 =? 3)).
Proof.
  intros H100 H4 H1.
  assert (datetime.year_slots_ok = true) as Hall by (vm_compute; reflexivity).
  unfold datetime.year_slots_ok in Hall.
  pose proof (all_from_spec _ 4 0 Hall n100 ltac:(simpl; lia)) as Ha.
  cbv beta in Ha.
  pose proof (all_from_spec _ 25 0 Ha n4 ltac:(simpl; lia)) as Hb.
  cbv beta in Hb.
  pose proof (all_from_spec _ 4 0 Hb n1 ltac:(simpl; lia)) as Hc.
  unfold datetime.year_slot_ok in Hc. cbv zeta in Hc. cbv zeta.
  apply andb_true_iff in Hc as [Hdays Hleap].
  split; [apply Z.eqb_eq, Hdays | apply eqb_prop, Hleap].
Qed.

Lemma year_days (leapyear : bool) (n : Z) :
  0 <= n < 365 ->
  exists m d : Z,
    datetime._month_day n leapyear = (m, d)
    /\ 1 <= m <= 12
    /\ 1 <= d <= datetime.days_in_month (if leapyear then 4 else 1) m
    /\ datetime.days_before_month (if leapyear then 4 else 1) m + d = n + 1.
Proof.
  intros Hn.
  assert (datetime.year_days_ok = true) as Hall by (vm_compute; reflexivity).
  unfold datetime.year_days_ok in Hall.
  apply andb_true_iff in Hall as [Hleap Hcommon].
  assert (datetime.year_day_ok leapyear n = true) as Hok.
  { destruct leapyear;
      [apply (all_from_spec _ 365 0 Hleap) | apply (all_from_spec _ 365 0 Hcommon)];
      simpl; lia. }
  unfold datetime.year_day_ok in Hok. cbv zeta in Hok.
  destruct (datetime._month_day n leapyear) as [m d].
  repeat (apply andb_true_iff in Hok as [Hok ?]).
  exists m, d. split; [reflexivity|]. lia.
Qed.

(** Months depend on the year through [is_leap] only. *)
Lemma days_in_month_leap (y y' m : Z) :
  datetime.is_leap y = datetime.is_leap y' ->
  datetime.days_in_month y m = datetime.days_in_month y' m.
Proof. intros H. unfold datetime.days_in_month. rewrite H. reflexivity. Qed.

Lemma days_before_month_leap (y y' m : Z) :
  datetime.is_leap y = datetime.is_leap y' ->
  datetime.days_before_month y m = datetime.days_before_month y' m.
Proof.
  intros H. unfold datetime.days_before_month.
  induction (Z.to_nat (m - 1)) as [|j IH]; [reflexivity|].
  cbn [datetime.days_before_month_aux].
  rewrite IH, (days_in_month_leap y y' _ H). reflexivity.
Qed.

(** Day [r] of a 400-year cycle, counted from 0, gets a date of the
    years 1 to 400 that [ymd2ord] takes back to it, and a date before
    year 400 when it lies before the last year of the cycle. *)
Lemma cycle_days (r : Z) :
  0 <= r < 146097 ->
  exists y m d : Z,
    datetime._ord2ymd (r + 1) = (y, m, d)
    /\ 1 <= y <= 400 /\ 1 <= m <= 12
    /\ 1 <= d <= datetime.days_in_month y m
    /\ datetime.ymd2ord y m d = r + 1
    /\ (r <= 145730 -> y <= 399).
Proof.
  intros Hr. unfold datetime._ord2ymd. cbv zeta.
  change datetime._DI400Y with 146097. change datetime._DI100Y with 36524.
  change datetime._DI4Y with 1461.
  replace (r + 1 - 1) with r by ring.
  rewrite (Z.div_small r 146097), (Z.mod_small r 146097) by lia.
  pose proof (Z.div_mod r 36524 ltac:(lia)) as E100.
  pose proof (Z.mod_pos_bound r 36524 ltac:(lia)) as B100.
  set (n100 := r / 36524) in *. set (r1 := r mod 36524) in *.
  pose proof (Z.div_mod r1 1461 ltac:(lia)) as E4.
  pose proof (Z.mod_pos_bound r1 1461 ltac:(lia)) as B4.
  set (n4 := r1 / 1461) in *. set (r2 := r1 mod 1461) in *.
  pose proof (Z.div_mod r2 365 ltac:(lia)) as E1.
  pose proof (Z.mod_pos_bound r2 365 ltac:(lia)) as B1.
  set (n1 := r2 / 365) in *. set (n := r2 mod 365) in *.
  assert (0 <= n100 <= 4) as H100 by lia.
  assert (0 <= n4 <= 24) as H4 by lia.
  assert (0 <= n1 <= 4) as H1 by lia.
  destruct (Z.eq_dec n100 4) as [E|N100].
  - (* the last day of the cycle *)
    assert (r = 146096) as -> by lia.
    subst n100 r1 n4 r2 n1 n.
    exists 400, 12, 31. vm_compute. repeat split; congruence.
  - destruct (Z.eq_dec n1 4) as [E|N1].
    + (* the last day of a leap year *)
      assert (n = 0) as Hn by lia. assert (n4 <= 23) as H4' by lia.
      rewrite E. cbn [Z.eqb Pos.eqb orb].
      destruct (year_slots n100 n4 3 ltac:(lia) ltac:(lia) ltac:(lia))
        as [Hdays Hleap].
      cbv zeta in Hdays, Hleap.
      set (y := 1 + n100 * 100 + n4 * 4 + 3) in *.
      assert (datetime.is_leap y = datetime.is_leap 4) as Hsame.
      { rewrite Hleap.
        replace (n4 =? 24) with false by (symmetry; apply Z.eqb_neq; lia).
        reflexivity. }
      exists y, 12, 31.
      split; [f_equal; f_equal; subst y; ring|].
      split; [subst y; lia|]. split; [lia|].
      rewrite (days_in_month_leap y 4 12 Hsame).
      split; [vm_compute; split; congruence|].
      split; [|subst y; lia].
      unfold datetime.ymd2ord.
      rewrite (days_before_month_leap y 4 12 Hsame), Hdays.
      change (datetime.days_before_month 4 12) with 335. lia.
    + (* any other day *)
      replace ((n1 =? 4) || (n100 =? 4)) with false
        by (symmetry; apply orb_false_iff; split; apply Z.eqb_neq; assumption).
      destruct (year_slots n100 n4 n1 ltac:(lia) ltac:(lia) ltac:(lia))
        as [Hdays Hleap].
      cbv zeta in Hdays, Hleap.
      set (leapyear := (n1 =? 3) && (negb (n4 =? 24) || (n100 =? 3))) in *.
      destruct (year_days leapyear n B1) as (m & d & -> & Hm & Hd & Hback).
      set (y := 1 + n100 * 100 + n4 * 4 + n1) in *.
      assert (datetime.is_leap y
              = datetime.is_leap (if leapyear then 4 else 1)) as Hsame
          by (rewrite Hleap; destruct leapyear; reflexivity).
      exists y, m, d.
      split; [f_equal; f_equal; subst y; ring|].
      split; [subst y; lia|]. split; [exact Hm|].
      rewrite (days_in_month_leap _ _ m Hsame).
      split; [exact Hd|].
      split; [|subst y; lia].
      unfold datetime.ymd2ord.
      rewrite (days_before_month_leap _ _ m Hsame), Hdays. lia.
Qed.

(** The calendar repeats every 400 years, 146097 days. *)
Lemma is_leap_cycle (y k : Z) :
  datetime.is_leap (y + 400 * k) = datetime.is_leap y.
Proof.
  unfold datetime.is_leap.
  replace ((y + 400 * k) mod 4) with (y mod 4)
    by (replace (y + 400 * k) with (y + (100 * k) * 4) by ring;
        symmetry; apply Z_mod_plus_full).
  replace ((y + 400 * k) mod 100) with (y mod 100)
    by (replace (y + 400 * k) with (y + (4 * k) * 100) by ring;
        symmetry; apply Z_mod_plus_full).
  replace ((y + 400 * k) mod 400) with (y mod 400)
    by (replace (y + 400 * k) with (y + k * 400) by ring;
        symmetry; apply Z_mod_plus_full).
  reflexivity.
Qed.

Lemma days_in_month_cycle (y k m : Z) :
  datetime.days_in_month (y + 400 * k) m = datetime.days_in_month y m.
Proof. unfold datetime.days_in_month. rewrite is_leap_cycle. reflexivity. Qed.

Lemma days_before_month_cycle (y k m : Z) :
  datetime.days_before_month (y + 400 * k) m = datetime.days_before_month y m.
Proof.
  unfold datetime.days_before_month.
  induction (Z.to_nat (m - 1)) as [|j IH]; [reflexivity|].
  cbn [datetime.days_before_month_aux].
  rewrite IH, days_in_month_cycle. reflexivity.
Qed.

Lemma days_before_year_cycle (y k : Z) :
  datetime.days_before_year (y + 400 * k)
  = datetime.days_before_year y + 146097 * k.
Proof.
  unfold datetime.days_before_year. cbv zeta.
  replace ((y + 400 * k - 1) / 4) with ((y - 1) / 4 + 100 * k)
    by (replace (y + 400 * k - 1) with (y - 1 + (100 * k) * 4) by ring;
        rewrite Z.div_add by lia; reflexivity).
  replace ((y + 400 * k - 1) / 100) with ((y - 1) / 100 + 4 * k)
    by (replace (y + 400 * k - 1) with (y - 1 + (4 * k) * 100) by ring;
        rewrite Z.div_add by lia; reflexivity).
  replace ((y + 400 * k - 1) / 400) with ((y - 1) / 400 + k)
    by (replace (y + 400 * k - 1) with (y - 1 + k * 400) by ring;
        rewrite Z.div_add by lia; reflexivity).
  ring.
Qed.

Lemma ymd2ord_cycle (y k m d : Z) :
  datetime.ymd2ord (y + 400 * k) m d = datetime.ymd2ord y m d + 146097 * k.
Proof.
  unfold datetime.ymd2ord.
  rewrite days_before_year_cycle, days_before_month_cycle. ring.
Qed.

(** [_ord2ymd] works on the day of the cycle and adds the cycles back
    to the year. *)
Lemma _ord2ymd_cycle (n : Z) :
  datetime._ord2ymd n
  = let '(y, m, d) := datetime._ord2ymd ((n - 1) mod 146097 + 1) in
    (y + 400 * ((n - 1) / 146097), m, d).
Proof.
  unfold datetime._ord2ymd. cbv zeta.
  change datetime._DI400Y with 146097.
  replace ((n - 1) mod 146097 + 1 - 1) with ((n - 1) mod 146097) by ring.
  rewrite Z.mod_mod by lia.
  rewrite (Z.div_small ((n - 1) mod 146097) 146097)
    by (apply Z.mod_pos_bound; lia).
  set (r := (n - 1) mod 146097). set (k := (n - 1) / 146097).
  destruct ((r mod datetime._DI100Y mod datetime._DI4Y / 365 =? 4)
            || (r / datetime._DI100Y =? 4)).
  - f_equal. f_equal. ring.
  - destruct (datetime._month_day _ _) as [m d]. f_equal. f_equal. ring.
Qed.

(** What [_ord2ymd] returns for the ordinals of the years 1 to 9999. *)
Lemma _ord2ymd_spec (n : Z) :
  1 <= n <= datetime._MAXORDINAL ->
  exists y m d : Z,
    datetime._ord2ymd n = (y, m, d)
    /\ 1 <= y <= 9999 /\ 1 <= m <= 12
    /\ 1 <= d <= datetime.days_in_month y m
    /\ datetime.ymd2ord y m d = n.
Proof.
  unfold datetime._MAXORDINAL. intros Hn.
  rewrite _ord2ymd_cycle.
  pose proof (Z.div_mod (n - 1) 146097 ltac:(lia)) as Hdm.
  pose proof (Z.mod_pos_bound (n - 1) 146097 ltac:(lia)) as Hr.
  set (r := (n - 1) mod 146097) in *. set (k := (n - 1) / 146097) in *.
  assert (0 <= k <= 24) as Hk by lia.
  destruct (cycle_days r Hr) as (y & m & d & -> & Hy & Hm & Hd & Hback & Hlast).
  exists (y + 400 * k), m, d. split; [reflexivity|].
  rewrite days_in_month_cycle, ymd2ord_cycle.
  assert (k = 24 -> y <= 399) as Hlast' by (intros ->; apply Hlast; lia).
  lia.
Qed.

(** ** Digits written and read *)

Lemma digit_digit_char (v : Z) :
  0 <= v < 10 -> datetime.digit (datetime.digit_char v) = Some v.
Proof.
  intros Hv.
  assert (v = 0 \/ v = 1 \/ v = 2 \/ v = 3 \/ v = 4 \/ v = 5 \/ v = 6
          \/ v = 7 \/ v = 8 \/ v = 9) as Hcases by lia.
  repeat (destruct Hcases as [->|Hcases]; [reflexivity|]).
  subst v. reflexivity.
Qed.

Lemma digits_last (k : nat) :
  forall (acc : Z) (s : string),
    datetime.digits (S k) acc s
    = match datetime.digits k acc s with
      | Some (a, String c s') =>
          match datetime.digit c with
          | Some v => Some (a * 10 + v, s')
          | None => None
          end
      | _ => None
      end.
Proof.
  induction k as [|k IH]; intros acc s.
  - destruct s as [|c s']; [reflexivity|]. simpl.
    destruct (datetime.digit c); reflexivity.
  - change (datetime.digits (S (S k)) acc s)
      with (match s with
            | String c s' =>
                match datetime.digit c with
                | Some v => datetime.digits (S k) (acc * 10 + v) s'
                | None => None
                end
            | EmptyString => None
            end).
    destruct s as [|c s']; [reflexivity|].
    destruct (datetime.digit c) as [v|] eqn:Hc.
    + rewrite IH. cbn [datetime.digits]. rewrite Hc. reflexivity.
    + cbn [datetime.digits]. rewrite Hc. reflexivity.
Qed.

Lemma digits_pad_onto (k : nat) :
  forall (v acc : Z) (rest : string),
    0 <= v < 10 ^ Z.of_nat k ->
    datetime.digits k acc (datetime.pad_onto k v rest)
    = Some (acc * 10 ^ Z.of_nat k + v, rest).
Proof.
  induction k as [|k IH]; intros v acc rest Hv.
  - simpl in *. f_equal. f_equal. lia.
  - rewrite Nat2Z.inj_succ, Z.pow_succ_r in * by lia.
    rewrite digits_last. cbn [datetime.pad_onto].
    rewrite IH by (split; [apply Z.div_pos; lia
                          | apply Z.div_lt_upper_bound; lia]).
    rewrite digit_digit_char by (apply Z.mod_pos_bound; lia).
    f_equal. f_equal.
    pose proof (Z.div_mod v 10 ltac:(lia)). lia.
Qed.

Lemma pad_onto_app (k : nat) :
  forall (v : Z) (a rest : string),
    datetime.pad_onto k v a +:+ rest = datetime.pad_onto k v (a +:+ rest).
Proof.
  induction k as [|k IH]; intros v a rest; [reflexivity|].
  cbn [datetime.pad_onto]. rewrite IH. reflexivity.
Qed.

Lemma digits_pad (k : nat) (v : Z) (rest : string) :
  0 <= v < 10 ^ Z.of_nat k ->
  datetime.digits k 0 (datetime.pad k v +:+ rest) = Some (v, rest).
Proof.
  intros Hv. unfold datetime.pad. rewrite pad_onto_app.
  rewrite digits_pad_onto by exact Hv. reflexivity.
Qed.

(** A padded number starts with a digit, not with a sign or a dot. *)
Lemma pad_onto_cons (k : nat) :
  forall (v : Z) (rest : string),
    exists (u : Z) (tail : string),
      datetime.pad_onto (S k) v rest = String (datetime.digit_char (u mod 10)) tail.
Proof.
  induction k as [|k IH]; intros v rest.
  - cbn [datetime.pad_onto]. eauto.
  - change (datetime.pad_onto (S (S k)) v rest)
      with (datetime.pad_onto (S k) (v / 10)
              (String (datetime.digit_char (v mod 10)) rest)).
    apply IH.
Qed.

(** ** The parts of an ISO text *)

Lemma parse_date_pad (y m d : Z) (rest : string) :
  0 <= y < 10000 -> 0 <= m < 100 -> 0 <= d < 100 ->
  datetime.parse_date
    (datetime.pad 4 y +:+ "-" +:+ datetime.pad 2 m +:+ "-"
     +:+ datetime.pad 2 d +:+ rest)
  = if (1 <=? y) && (1 <=? m) && (m <=? 12) && (1 <=? d)
       && (d <=? datetime.days_in_month y m)
    then Some (y, m, d, rest) else None.
Proof.
  intros Hy Hm Hd. unfold datetime.parse_date.
  rewrite digits_pad by (simpl; lia).
  change ("-" +:+ datetime.pad 2 m +:+ "-" +:+ datetime.pad 2 d +:+ rest)
    with (String "-" (datetime.pad 2 m +:+ "-" +:+ datetime.pad 2 d +:+ rest)).
  cbn [datetime.expect]. rewrite Ascii.eqb_refl.
  rewrite digits_pad by (simpl; lia).
  change ("-" +:+ datetime.pad 2 d +:+ rest)
    with (String "-" (datetime.pad 2 d +:+ rest)).
  cbn [datetime.expect]. rewrite Ascii.eqb_refl.
  rewrite digits_pad by (simpl; lia).
  reflexivity.
Qed.

Lemma parse_hms_pad (h mi sec : Z) (rest : string) :
  0 <= h < 24 -> 0 <= mi < 60 -> 0 <= sec < 60 ->
  datetime.parse_hms
    (datetime.pad 2 h +:+ ":" +:+ datetime.pad 2 mi +:+ ":"
     +:+ datetime.pad 2 sec +:+ rest)
  = Some (h, mi, sec, rest).
Proof.
  intros Hh Hmi Hsec. unfold datetime.parse_hms.
  rewrite digits_pad by (simpl; lia).
  change (":" +:+ datetime.pad 2 mi +:+ ":" +:+ datetime.pad 2 sec +:+ rest)
    with (String ":" (datetime.pad 2 mi +:+ ":" +:+ datetime.pad 2 sec +:+ rest)).
  cbn [datetime.expect]. rewrite Ascii.eqb_refl.
  rewrite digits_pad by (simpl; lia).
  change (":" +:+ datetime.pad 2 sec +:+ rest)
    with (String ":" (datetime.pad 2 sec +:+ rest)).
  cbn [datetime.expect]. rewrite Ascii.eqb_refl.
  rewrite digits_pad by (simpl; lia).
  replace ((h <? 24) && (mi <? 60) && (sec <? 60)) with true; [reflexivity|].
  symmetry. repeat (apply andb_true_iff; split); apply Z.ltb_lt; lia.
Qed.

Lemma parse_fraction_pad (us : Z) (rest : string) :
  0 <= us < 1000000 ->
  datetime.parse_fraction ("." +:+ datetime.pad 6 us +:+ rest) = (us, rest).
Proof.
  intros Hus. unfold datetime.parse_fraction.
  change ("." +:+ datetime.pad 6 us +:+ rest)
    with (String "." (datetime.pad 6 us +:+ rest)).
  cbn [datetime.expect]. rewrite Ascii.eqb_refl.
  rewrite digits_pad by (simpl; lia). reflexivity.
Qed.

Lemma parse_fraction_offset (tz : option Z) :
  datetime.parse_fraction (datetime._format_offset tz)
  = (0, datetime._format_offset tz).
Proof.
  destruct tz as [off|]; [|reflexivity].
  unfold datetime._format_offset. cbv zeta.
  destruct (off <? 0); reflexivity.
Qed.

Lemma _format_offset_whole_minutes (off : Z) :
  off mod 60000000 = 0 ->
  datetime._format_offset (Some off)
  = (if off <? 0 then "-" else "+")
    +:+ datetime.pad 2 (Z.abs off / 3600000000) +:+ ":"
    +:+ datetime.pad 2 (Z.abs off mod 3600000000 / 60000000) +:+ "".
Proof.
  intros Hmin. unfold datetime._format_offset. cbv zeta.
  assert (Z.abs off mod 60000000 = 0) as Ha.
  { destruct (Z.abs_eq_or_opp off) as [->| ->]; [exact Hmin|].
    apply Z.mod_opp_l_z; lia. }
  assert (Z.abs off mod 1000000 = 0) as Hus.
  { pose proof (Z.div_mod (Z.abs off) 60000000 ltac:(lia)) as H.
    rewrite Ha, Z.add_0_r in H. rewrite H.
    replace (60000000 * (Z.abs off / 60000000))
      with (0 + (60 * (Z.abs off / 60000000)) * 1000000) by ring.
    rewrite Z_mod_plus_full. reflexivity. }
  rewrite Ha, Hus. reflexivity.
Qed.

Lemma parse_offset_format (tz : option Z) :
  match tz with
  | None => True
  | Some off => off mod 60000000 = 0 /\ Z.abs off < datetime.US_PER_DAY
  end ->
  datetime.parse_offset (datetime._format_offset tz) = Some tz.
Proof.
  destruct tz as [off|]; [|reflexivity].
  unfold datetime.US_PER_DAY. intros [Hmin Hday].
  rewrite (_format_offset_whole_minutes off Hmin).
  set (hh := Z.abs off / 3600000000).
  set (mm := Z.abs off mod 3600000000 / 60000000).
  assert (Z.abs off = (hh * 60 + mm) * 60000000) as Habs.
  { subst hh mm.
    assert (Z.abs off mod 60000000 = 0) as Ha.
    { destruct (Z.abs_eq_or_opp off) as [->| ->]; [exact Hmin|].
      apply Z.mod_opp_l_z; lia. }
    pose proof (Z.div_mod (Z.abs off) 3600000000 ltac:(lia)) as H1.
    pose proof (Z.div_mod (Z.abs off mod 3600000000) 60000000 ltac:(lia)) as H2.
    assert ((Z.abs off mod 3600000000) mod 60000000 = 0) as H3.
    { rewrite <- Ha.
      replace 3600000000 with (60000000 * 60) by reflexivity.
      rewrite Z.rem_mul_r by lia.
      rewrite (Z.mul_comm 60000000), Z_mod_plus_full.
      apply Z.mod_mod. lia. }
    lia. }
  assert (0 <= hh < 24) as Hhh
      by (subst hh; split; [apply Z.div_pos; lia
                           | apply Z.div_lt_upper_bound; lia]).
  assert (0 <= mm < 60) as Hmm.
  { subst mm.
    pose proof (Z.mod_pos_bound (Z.abs off) 3600000000 ltac:(lia)).
    split; [apply Z.div_pos; lia | apply Z.div_lt_upper_bound; lia]. }
  assert (forall (sign : ascii) (sg : Z),
             Ascii.eqb sign "Z" = false ->
             (if Ascii.eqb sign "+" then Some 1
              else if Ascii.eqb sign "-" then Some (-1) else None) = Some sg ->
             datetime.parse_offset
               (String sign
                  (datetime.pad 2 hh +:+ ":" +:+ datetime.pad 2 mm +:+ ""))
             = Some (Some (sg * (hh * 60 + mm) * 60 * 1000000))) as Hparse.
  { intros sign sg HZ Hsg. cbn [datetime.parse_offset]. rewrite HZ, Hsg.
    rewrite digits_pad by (simpl; lia).
    change (":" +:+ datetime.pad 2 mm +:+ "")
      with (String ":" (datetime.pad 2 mm +:+ "")).
    cbn [datetime.expect]. rewrite Ascii.eqb_refl.
    rewrite digits_pad by (simpl; lia).
    replace ((hh <? 24) && (mm <? 60)) with true; [reflexivity|].
    symmetry. apply andb_true_iff. split; apply Z.ltb_lt; lia. }
  destruct (off <? 0) eqn:Hneg.
  - change ("-" +:+ datetime.pad 2 hh +:+ ":" +:+ datetime.pad 2 mm +:+ "")
      with (String "-" (datetime.pad 2 hh +:+ ":" +:+ datetime.pad 2 mm +:+ "")).
    rewrite (Hparse "-"%char (-1)) by reflexivity.
    f_equal. f_equal. apply Z.ltb_lt in Hneg. lia.
  - change ("+" +:+ datetime.pad 2 hh +:+ ":" +:+ datetime.pad 2 mm +:+ "")
      with (String "+" (datetime.pad 2 hh +:+ ":" +:+ datetime.pad 2 mm +:+ "")).
    rewrite (Hparse "+"%char 1) by reflexivity.
    f_equal. f_equal. apply Z.ltb_ge in Hneg. lia.
Qed.

(** ** The round trip *)

Lemma of_fields_of_reading (wall y m d : Z) (tz : option Z) :
  0 <= wall ->
  datetime.ymd2ord y m d = wall / datetime.US_PER_DAY + 1 ->
  let rest := wall mod datetime.US_PER_DAY in
  let seconds := rest / 1000000 in
  datetime.of_fields y m d (seconds / 3600) (seconds / 60 mod 60)
    (seconds mod 60) (rest mod 1000000) tz
  = datetime.mk wall tz.
Proof.
  unfold datetime.US_PER_DAY. intros Hwall Hord. cbv zeta.
  unfold datetime.of_fields. rewrite Hord. f_equal.
  pose proof (Z.div_mod wall 86400000000 ltac:(lia)) as H1.
  pose proof (Z.mod_pos_bound wall 86400000000 ltac:(lia)) as B1.
  set (r := wall mod 86400000000) in *.
  pose proof (Z.div_mod r 1000000 ltac:(lia)) as H2.
  set (s := r / 1000000) in *.
  pose proof (Z.div_mod s 60 ltac:(lia)) as H3.
  pose proof (Z.div_mod (s / 60) 60 ltac:(lia)) as H4.
  assert (s / 3600 = s / 60 / 60) as ->
      by (rewrite Z.div_div by lia; reflexivity).
  lia.
Qed.

(** What [isoformat] writes, [fromisoformat] reads back as the same
    value. *)
Lemma fromisoformat_isoformat (sep : ascii) (d : datetime.t) :
  Ascii.eqb sep "T" || Ascii.eqb sep " " = true ->
  datetime.valid d = true ->
  datetime.fromisoformat (datetime.isoformat sep d) = Ok d.
Proof.
  destruct d as [wall tz]. unfold datetime.valid.
  cbn [datetime.wall_us datetime.tzinfo]. intros Hsep Hvalid.
  apply andb_true_iff in Hvalid as [Hrange Htz].
  apply andb_true_iff in Hrange as [Hlo Hhi].
  apply Z.leb_le in Hlo. apply Z.ltb_lt in Hhi.
  assert (match tz with
          | None => True
          | Some off => off mod 60000000 = 0 /\ Z.abs off < datetime.US_PER_DAY
          end) as Hoff.
  { destruct tz as [off|]; [|exact I].
    apply andb_true_iff in Htz as [H1 H2].
    split; [apply Z.eqb_eq, H1 | apply Z.ltb_lt, H2]. }
  unfold datetime.MAX_US, datetime._MAXORDINAL in Hhi.
  assert (1 <= wall / datetime.US_PER_DAY + 1 <= datetime._MAXORDINAL) as Hord.
  { unfold datetime.US_PER_DAY, datetime._MAXORDINAL in *.
    pose proof (Z.div_pos wall 86400000000 Hlo ltac:(lia)).
    assert (wall / 86400000000 < 3652059)
      by (apply Z.div_lt_upper_bound; lia).
    lia. }
  destruct (_ord2ymd_spec _ Hord) as (y & m & dd & Hymd & Hy & Hm & Hdd & Hback).
  unfold datetime.isoformat. cbn [datetime.wall_us datetime.tzinfo].
  rewrite Hymd.
  pose proof (Z.mod_pos_bound wall datetime.US_PER_DAY
                ltac:(unfold datetime.US_PER_DAY; lia)) as Hrest.
  set (rest := wall mod datetime.US_PER_DAY) in *.
  unfold datetime.US_PER_DAY in Hrest.
  assert (0 <= rest / 1000000 < 86400) as Hsecs
      by (split; [apply Z.div_pos; lia | apply Z.div_lt_upper_bound; lia]).
  set (seconds := rest / 1000000) in *.
  pose proof (Z.mod_pos_bound rest 1000000 ltac:(lia)) as Hus.
  set (us := rest mod 1000000) in *.
  assert (datetime.days_in_month y m <= 31) as Hdim.
  { unfold datetime.days_in_month.
    destruct (m =? 2); [destruct (datetime.is_leap y); lia|].
    destruct ((m =? 4) || (m =? 6) || (m =? 9) || (m =? 11)); lia. }
  unfold datetime.fromisoformat. cbv zeta.
  rewrite parse_date_pad by lia.
  replace ((1 <=? y) && (1 <=? m) && (m <=? 12) && (1 <=? dd)
           && (dd <=? datetime.days_in_month y m)) with true
    by (symmetry; repeat (apply andb_true_iff; split); apply Z.leb_le; lia).
  rewrite Hsep.
  rewrite parse_hms_pad;
    [| split; [apply Z.div_pos; lia | apply Z.div_lt_upper_bound; lia]
     | apply Z.mod_pos_bound; lia
     | apply Z.mod_pos_bound; lia].
  assert (datetime.parse_fraction
            ((if us =? 0 then "" else "." +:+ datetime.pad 6 us)
             +:+ datetime._format_offset tz)
          = (us, datetime._format_offset tz)) as ->.
  { destruct (us =? 0) eqn:Hzero.
    - apply Z.eqb_eq in Hzero. rewrite Hzero. apply parse_fraction_offset.
    - change (("." +:+ datetime.pad 6 us) +:+ datetime._format_offset tz)
        with ("." +:+ datetime.pad 6 us +:+ datetime._format_offset tz).
      apply parse_fraction_pad. exact Hus. }
  rewrite (parse_offset_format tz Hoff).
  f_equal. apply of_fields_of_reading; assumption.
Qed.

Lemma isoformat_not_empty (sep : ascii) (d : datetime.t) :
  datetime.isoformat sep d <> "".
Proof.
  unfold datetime.isoformat.
  destruct (datetime._ord2ymd _) as [[y m] dd].
  unfold datetime.pad at 1.
  destruct (pad_onto_cons 3 y "") as (u & tail & ->). discriminate.
Qed.

(** * Commits as JSON text: [json.dumps] and [json.loads] *)

Lemma append_cons (x : ascii) (a b : string) :
  String x a +:+ b = String x (a +:+ b).
Proof. reflexivity. Qed.

Lemma append_nil (b : string) : "" +:+ b = b.
Proof. reflexivity. Qed.

Lemma append_assoc (a b c : string) : (a +:+ b) +:+ c = a +:+ (b +:+ c).
Proof.
  induction a as [|x a IH]; [reflexivity|].
  rewrite !append_cons, IH. reflexivity.
Qed.

Lemma length_append_ge (a b : string) :
  (String.length b <= String.length (a +:+ b))%nat.
Proof.
  induction a as [|x a IH]; [rewrite append_nil; lia|].
  rewrite append_cons. simpl. lia.
Qed.

Lemma strip_prefix_app (p rest : string) :
  json.strip_prefix p (p +:+ rest) = Some rest.
Proof.
  induction p as [|a p IH]; [reflexivity|].
  rewrite append_cons. cbn [json.strip_prefix].
  rewrite Ascii.eqb_refl. exact IH.
Qed.

(** Reading one escaped character gives the character back. *)
Lemma scanstring_escape_char (c : ascii) (tail : string) :
  json.scanstring (json.escape_char c +:+ tail)
  = json.cons_char c (json.scanstring tail).
Proof.
  destruct c as [[] [] [] [] [] [] [] []]; reflexivity.
Qed.

Lemma scanstring_escape (s rest : string) :
  json.scanstring (json.escape s +:+ String json.QUOTE rest) = Some (s, rest).
Proof.
  induction s as [|c s IH].
  - reflexivity.
  - cbn [json.escape]. rewrite append_assoc, scanstring_escape_char, IH.
    reflexivity.
Qed.

Lemma loads_commit_dumps (c : commit) (rest : string) :
  json.loads_commit (json.dumps_commit c +:+ rest) = Some (c, rest).
Proof.
  destruct c as [sha message].
  unfold json.dumps_commit, json.encode_basestring. cbn [fst snd].
  set (p1 := "{" +:+ String json.QUOTE (json.escape "sha" +:+ String json.QUOTE "")
             +:+ ": " +:+ String json.QUOTE "").
  set (p2 := ", " +:+ String json.QUOTE
                        (json.escape "message" +:+ String json.QUOTE "")
             +:+ ": " +:+ String json.QUOTE "").
  assert (("{" +:+ String json.QUOTE (json.escape "sha" +:+ String json.QUOTE "")
           +:+ ": " +:+ String json.QUOTE (json.escape sha +:+ String json.QUOTE "")
           +:+ ", " +:+ String json.QUOTE
                          (json.escape "message" +:+ String json.QUOTE "")
           +:+ ": " +:+ String json.QUOTE
                          (json.escape message +:+ String json.QUOTE "")
           +:+ "}") +:+ rest
          = p1 +:+ (json.escape sha +:+ String json.QUOTE
                      (p2 +:+ (json.escape message +:+ String json.QUOTE
                                 ("}" +:+ rest))))) as ->.
  { subst p1 p2.
    change (json.escape "sha") with "sha".
    change (json.escape "message") with "message".
    repeat (rewrite append_cons || rewrite append_nil || rewrite append_assoc).
    reflexivity. }
  unfold json.loads_commit. fold p1. fold p2.
  rewrite strip_prefix_app, scanstring_escape, strip_prefix_app,
    scanstring_escape, strip_prefix_app.
  reflexivity.
Qed.

Lemma loads_more_dumps (commits : list commit) :
  forall fuel : nat,
    (length commits < fuel)%nat ->
    json.loads_more fuel (json.dumps_more commits +:+ "]") = Some commits.
Proof.
  induction commits as [|c commits IH]; intros fuel Hfuel.
  - destruct fuel as [|fuel]; [simpl in Hfuel; lia | reflexivity].
  - destruct fuel as [|fuel]; [simpl in Hfuel; lia|].
    cbn [json.dumps_more].
    replace ((", " +:+ json.dumps_commit c +:+ json.dumps_more commits) +:+ "]")
      with (String "," (String " " (json.dumps_commit c
                                    +:+ (json.dumps_more commits +:+ "]"))))
      by (rewrite !append_assoc; reflexivity).
    cbn [json.loads_more json.strip_prefix]. rewrite !Ascii.eqb_refl.
    rewrite loads_commit_dumps, IH by (simpl in Hfuel; lia).
    reflexivity.
Qed.

Lemma length_dumps_more (commits : list commit) (rest : string) :
  (length commits <= String.length (json.dumps_more commits +:+ rest))%nat.
Proof.
  induction commits as [|c commits IH]; [simpl; lia|].
  cbn [json.dumps_more].
  replace ((", " +:+ json.dumps_commit c +:+ json.dumps_more commits) +:+ rest)
    with (String "," (String " " (json.dumps_commit c
                                  +:+ (json.dumps_more commits +:+ rest))))
    by (rewrite !append_assoc; reflexivity).
  pose proof (length_append_ge (json.dumps_commit c)
                (json.dumps_more commits +:+ rest)).
  set (text := json.dumps_commit c +:+ json.dumps_more commits +:+ rest) in *.
  cbn [String.length length]. lia.
Qed.

Lemma length_dumps_more_lt (commits : list commit) :
  (length commits < String.length (json.dumps_more commits +:+ "]"))%nat.
Proof.
  destruct commits as [|c commits]; [simpl; lia|].
  cbn [json.dumps_more].
  replace ((", " +:+ json.dumps_commit c +:+ json.dumps_more commits) +:+ "]")
    with (String "," (String " " (json.dumps_commit c
                                  +:+ (json.dumps_more commits +:+ "]"))))
    by (rewrite !append_assoc; reflexivity).
  pose proof (length_append_ge (json.dumps_commit c)
                (json.dumps_more commits +:+ "]")).
  pose proof (length_dumps_more commits "]").
  set (text := json.dumps_commit c +:+ json.dumps_more commits +:+ "]") in *.
  cbn [String.length length]. lia.
Qed.

(** What [json.dumps] writes of a list of commits, [json.loads] reads
    back as that list. *)
Lemma loads_dumps (commits : list commit) :
  json.loads (json.dumps commits) = Ok commits.
Proof.
  destruct commits as [|c commits]; [reflexivity|].
  unfold json.dumps, json.loads. cbv zeta.
  rewrite strip_prefix_app.
  assert (exists tail : string,
             json.dumps_commit c +:+ json.dumps_more commits +:+ "]"
             = String "{" (String json.QUOTE tail)) as (tail & Hshape)
      by (unfold json.dumps_commit, json.encode_basestring;
          rewrite !append_cons; eauto).
  rewrite Hshape at 1.
  rewrite loads_commit_dumps.
  rewrite loads_more_dumps by apply length_dumps_more_lt.
  reflexivity.
Qed.

(** * Reading what SQLite keeps *)

Lemma valid_stamp (clock : nat -> Z) (n : nat) :
  in_range clock ->
  datetime.valid (datetime.mk (clock n) datetime.utc) = true.
Proof.
  intros Hclock. specialize (Hclock n). unfold datetime.valid.
  cbn [datetime.wall_us datetime.tzinfo datetime.utc].
  repeat (apply andb_true_iff; split);
    [apply Z.leb_le; lia | apply Z.ltb_lt; lia | reflexivity | reflexivity].
Qed.

Lemma parse_field_as_stored (c : cell) :
  valid_cell c = true ->
  BackgroundTask.parse_field (Stored.as_stored c) = BackgroundTask.parse_field c.
Proof.
  destruct c as [|s|d]; [reflexivity | reflexivity |].
  cbn [valid_cell Stored.as_stored]. intros Hvalid.
  unfold sqlite3.adapt_datetime.
  pose proof (fromisoformat_isoformat " " d eq_refl Hvalid) as Hread.
  pose proof (isoformat_not_empty " " d) as Hne.
  destruct (datetime.isoformat " " d) as [|a s]; [contradiction|].
  cbn [BackgroundTask.parse_field]. rewrite Hread. reflexivity.
Qed.

Lemma aware_cell_as_stored (c : cell) :
  valid_cell c = true -> aware_cell (Stored.as_stored c) = aware_cell c.
Proof.
  destruct c as [|s|d]; [reflexivity | reflexivity |].
  cbn [valid_cell Stored.as_stored aware_cell]. intros Hvalid.
  unfold sqlite3.adapt_datetime.
  rewrite (fromisoformat_isoformat " " d eq_refl Hvalid). reflexivity.
Qed.

Lemma commits_of_dumps (commits : list commit) :
  Stored.commits_of (Some (json.dumps commits)) = Ok commits.
Proof.
  destruct commits as [|c commits]; [reflexivity|].
  unfold Stored.commits_of.
  rewrite <- (loads_dumps (c :: commits)).
  unfold json.dumps. rewrite append_cons. reflexivity.
Qed.

(** Reading the row SQLite keeps is reading the values that were bound. *)
Lemma from_row_of_bound (r : Row.t) :
  row_valid r = true ->
  Stored.from_row (Stored.of_bound r) = BackgroundTask.from_row r.
Proof.
  destruct r as [? ? ? ? ? ? ? created finished ? ? ? activity ? ? commits ? ?].
  unfold row_valid. cbn [Row.created_at Row.finished_at Row.last_activity_at].
  intros H. apply andb_true_iff in H as [H Ha].
  apply andb_true_iff in H as [Hc Hf].
  unfold Stored.from_row, Stored.of_bound.
  cbn [Stored.commits_json Row.commits_json]. rewrite commits_of_dumps.
  unfold BackgroundTask.from_row.
  cbn [Row.created_at Row.finished_at Row.last_activity_at Row.task_id
       Row.user_id Row.project_path Row.prompt Row.status Row.session_id
       Row.provider Row.total_cost Row.total_turns Row.last_output
       Row.result_summary Row.error_message Row.commits_json Row.chat_id
       Row.message_thread_id
       Stored.created_at Stored.finished_at Stored.last_activity_at
       Stored.task_id Stored.user_id Stored.project_path Stored.prompt
       Stored.status Stored.session_id Stored.provider Stored.total_cost
       Stored.total_turns Stored.last_output Stored.result_summary
       Stored.error_message Stored.chat_id Stored.message_thread_id].
  rewrite (parse_field_as_stored created Hc),
    (parse_field_as_stored activity Ha), (parse_field_as_stored finished Hf).
  reflexivity.
Qed.

Lemma find_on_disk (id : string) (db : TaskRepository.table) :
  List.find (Stored.has_id id) (on_disk db)
  = option_map Stored.of_bound (List.find (TaskRepository.has_id id) db).
Proof.
  induction db as [|r db IH]; [reflexivity|].
  cbn [on_disk map List.find].
  change (Stored.has_id id (Stored.of_bound r))
    with (TaskRepository.has_id id r).
  destruct (TaskRepository.has_id id r); [reflexivity | exact IH].
Qed.

Lemma get_on_disk (id : string) (db : TaskRepository.table) :
  forallb row_valid db = true ->
  Stored.get id (on_disk db) = TaskRepository.get id db.
Proof.
  intros Hvalid. unfold Stored.get, TaskRepository.get.
  rewrite find_on_disk.
  destruct (List.find (TaskRepository.has_id id) db) as [r|] eqn:Hfind;
    [|reflexivity].
  cbn [option_map TaskRepository.fetch].
  rewrite from_row_of_bound; [reflexivity|].
  apply find_some in Hfind as [Hin _].
  rewrite forallb_forall in Hvalid. exact (Hvalid r Hin).
Qed.

(** * Properties *)

(** ** Sanity checks against the unit tests *)

Example fromisoformat_naive :
  datetime.fromisoformat "2026-02-18T10:00:00"
  = Ok (datetime.mk 63907005600000000 None).
Proof. vm_compute. reflexivity. Qed.

Example fromisoformat_aware :
  datetime.fromisoformat "2026-02-18 10:00:00.250000+00:00"
  = Ok (datetime.mk 63907005600250000 (Some 0)).
Proof. vm_compute. reflexivity. Qed.

Example str_int_3 : str_int 3 = "3".
Proof. reflexivity. Qed.

Example parse_stage_grep :
  parse_stage (Some "Grep for errors") = "исследует код".
Proof. vm_compute. reflexivity. Qed.

Example parse_stage_npm_install :
  parse_stage (Some "npm install lodash") = "устанавливает зависимости".
Proof. vm_compute. reflexivity. Qed.

Example parse_stage_make_test :
  parse_stage (Some "make test") = "запускает тесты".
Proof. vm_compute. reflexivity. Qed.

Example parse_stage_unknown :
  parse_stage (Some "doing something unusual") = "работает".
Proof. vm_compute. reflexivity. Qed.

(** ** Repository statements *)

Section Updates.

Variable task_id : string.
Variable f : Row.t -> Row.t.
Hypothesis f_keeps_id : forall r, Row.task_id (f r) = Row.task_id r.

Let update (db : TaskRepository.table) : TaskRepository.table :=
  map (fun r => if TaskRepository.has_id task_id r then f r else r) db.

Lemma stored_update (db : TaskRepository.table) (r : Row.t) :
  stored task_id db = Some r -> stored task_id (update db) = Some (f r).
Proof.
  unfold stored, update.
  induction db as [|x db IH]; simpl; intros H; [discriminate|].
  destruct (TaskRepository.has_id task_id x) eqn:Hx.
  - injection H as <-.
    unfold TaskRepository.has_id in *. rewrite f_keeps_id, Hx. reflexivity.
  - rewrite Hx. auto.
Qed.

Lemma stored_update_none (db : TaskRepository.table) :
  stored task_id db = None -> update db = db.
Proof.
  unfold stored, update.
  induction db as [|x db IH]; simpl; intros H; [reflexivity|].
  destruct (TaskRepository.has_id task_id x) eqn:Hx; [discriminate|].
  f_equal. auto.
Qed.

Lemma stored_update_other (other : string) (db : TaskRepository.table) :
  other <> task_id -> stored other (update db) = stored other db.
Proof.
  intros Hne. unfold stored, update.
  induction db as [|x db IH]; simpl; [reflexivity|].
  destruct (TaskRepository.has_id task_id x) eqn:Hx.
  - assert (TaskRepository.has_id other x = false) as Hox.
    { unfold TaskRepository.has_id in *. apply String.eqb_eq in Hx.
      apply String.eqb_neq. congruence. }
    assert (TaskRepository.has_id other (f x) = false) as Hof.
    { unfold TaskRepository.has_id in *. rewrite f_keeps_id. exact Hox. }
    rewrite Hox, Hof. exact IH.
  - destruct (TaskRepository.has_id other x); [reflexivity | exact IH].
Qed.

End Updates.

Lemma set_progress_keeps_id now cost out r :
  Row.task_id (TaskRepository.set_progress now cost out r) = Row.task_id r.
Proof. reflexivity. Qed.

Lemma set_status_keeps_id now status kw r :
  Row.task_id (TaskRepository.set_status now status kw r) = Row.task_id r.
Proof. reflexivity. Qed.

Lemma stored_update_progress now task_id cost out db r :
  stored task_id db = Some r ->
  stored task_id (TaskRepository.update_progress now task_id cost out db)
  = Some (TaskRepository.set_progress now cost out r).
Proof.
  apply (stored_update task_id (TaskRepository.set_progress now cost out)).
  intros; reflexivity.
Qed.

Lemma stored_update_status now task_id status kw db r :
  stored task_id db = Some r ->
  stored task_id (TaskRepository.update_status now task_id status kw db)
  = Some (TaskRepository.set_status now status kw r).
Proof.
  apply (stored_update task_id (TaskRepository.set_status now status kw)).
  intros; reflexivity.
Qed.

Lemma REAL_stored_update_progress now task_id cost out db r :
  REAL.stored task_id db = Some r ->
  REAL.stored task_id (REAL.update_progress now task_id cost out db)
  = Some (REAL.set_progress now cost out r).
Proof.
  unfold REAL.stored, REAL.update_progress.
  induction db as [|x db IH]; simpl; intros H; [discriminate|].
  destruct (REAL.has_id task_id x) eqn:Hx.
  - injection H as <-. simpl. unfold REAL.has_id in *. simpl. rewrite Hx.
    reflexivity.
  - rewrite Hx. auto.
Qed.

(** C6, as stated, at a concrete input: on a record with cost 0.1 and
    last-output ["Step 1 done"], a call of update-progress without an
    output does not leave last-output unchanged, it replaces the stored
    snippet by NULL; and the two calls with deltas 0.2 and 0.3 do not
    store what adding the sum of the deltas, 0.5, stores: the column
    holds 0.6000000000000001 after the two calls and 0.6 after the one,
    each UPDATE rounding its binary64 sum. *)
Lemma update_progress_erases_and_rounds :
  let db := [REAL.sample] in
  (option_map REAL.last_output (REAL.stored "abcd1234" db)
   = Some (Some "Step 1 done")
   /\ option_map REAL.last_output
        (REAL.stored "abcd1234"
           (REAL.update_progress later_time "abcd1234" REAL.fifth None db))
      = Some None)
  /\ (option_map REAL.total_cost
        (REAL.stored "abcd1234"
           (REAL.update_progress later_time "abcd1234" REAL.three_tenths None
              (REAL.update_progress later_time "abcd1234" REAL.fifth None db)))
      = Some 0x1.3333333333334p-1%float
      /\ option_map REAL.total_cost
           (REAL.stored "abcd1234"
              (REAL.update_progress later_time "abcd1234"
                 (REAL.fifth + REAL.three_tenths)%float None db))
         = Some 0x1.3333333333333p-1%float
      /\ PrimFloat.eqb 0x1.3333333333334p-1 0x1.3333333333333p-1 = false
      /\ (REAL.fifth + REAL.three_tenths)%float = REAL.half).
Proof. repeat split; reflexivity. Qed.

(** C6, amended: on an existing record, update-progress(id, c, out) with
    c >= 0 replaces the accumulated cost by the binary64 sum of its
    previous value and [c], increments the turn counter by one,
    refreshes last-activity and overwrites last-output with [out], also
    when [out] is absent (the column becomes NULL); two successive calls
    leave the cost [(cost + c) + c2], rounded at each step, and the turn
    counter two higher. *)
Theorem update_progress_accumulates
  (now : datetime.t) (task_id : string) (c : float) (out : option string)
  (db : REAL.table) (r : REAL.Row) :
  PrimFloat.leb 0 c = true ->
  REAL.stored task_id db = Some r ->
  exists r' : REAL.Row,
    REAL.stored task_id (REAL.update_progress now task_id c out db) = Some r'
    /\ REAL.total_cost r' = (REAL.total_cost r + c)%float
    /\ REAL.total_turns r' = REAL.total_turns r + 1
    /\ REAL.last_output r' = out
    /\ REAL.last_activity_at r' = CDatetime now
    /\ REAL.status r' = REAL.status r
    /\ forall (now2 : datetime.t) (c2 : float) (out2 : option string),
        PrimFloat.leb 0 c2 = true ->
        exists r'' : REAL.Row,
          REAL.stored task_id
            (REAL.update_progress now2 task_id c2 out2
               (REAL.update_progress now task_id c out db)) = Some r''
          /\ REAL.total_cost r'' = ((REAL.total_cost r + c) + c2)%float
          /\ REAL.total_turns r'' = REAL.total_turns r + 2
          /\ REAL.last_output r'' = out2
          /\ REAL.last_activity_at r'' = CDatetime now2.
Proof.
  intros _ Hr.
  pose proof (REAL_stored_update_progress now task_id c out db r Hr) as H1.
  eexists; split; [exact H1|].
  repeat split.
  intros now2 c2 out2 _.
  eexists; split; [apply REAL_stored_update_progress; exact H1|].
  simpl. repeat split. lia.
Qed.

Lemma update_progress_accumulates_witness :
  exists r' : REAL.Row,
    REAL.stored "abcd1234"
      (REAL.update_progress later_time "abcd1234" REAL.fifth
         (Some "Step 2 done") [REAL.sample]) = Some r'
    /\ REAL.total_cost r' = 0x1.3333333333334p-2%float.
Proof.
  destruct (update_progress_accumulates later_time "abcd1234" REAL.fifth
              (Some "Step 2 done") [REAL.sample] REAL.sample eq_refl eq_refl)
    as (r' & H1 & H2 & _).
  exists r'. split; [exact H1 | exact H2].
Defined.

(** ** Admission *)

Section Manager.

Variable clock : nat -> Z.

Lemma start_task_unfold settings uuid8 prompt project_path user_id chat_id
  message_thread_id session_id (w : World) :
  start_task clock settings uuid8 prompt project_path user_id chat_id
    message_thread_id session_id w
  = match TaskRepository.get_running_for_project project_path
            (background_tasks w) with
    | Raise e => (Raise e, w)
    | Ok (Some e) =>
        (Raise (project_busy project_path (BackgroundTask.task_id e)), w)
    | Ok None =>
        if max_concurrent_tasks settings
           <=? TaskRepository.count_running (background_tasks w)
        then (Raise (capacity_exceeded (max_concurrent_tasks settings)), w)
        else
          let task := new_task clock w uuid8 prompt project_path user_id chat_id
                        message_thread_id session_id in
          if existsb (TaskRepository.has_id uuid8) (background_tasks w)
          then (Raise (IntegrityError
                         "UNIQUE constraint failed: background_tasks.task_id"),
                with_clock_read (with_clock_read w))
          else
            (Ok uuid8,
             mkWorld
               (background_tasks w ++ [TaskRepository.row_of_task task])%list
               (published w
                ++ [TaskStartedEvent uuid8 project_path prompt user_id chat_id
                      message_thread_id])%list
               (provider_calls w) (sleeps w) (S (S (clock_reads w)))
               (<[ uuid8 := task ]> (running_tasks w))
               (heartbeat_tasks w ∪ {[ uuid8 ]}))
    end.
Proof.
  unfold start_task, bind, repo_get_running_for_project, repo_count_running,
    gets, raise.
  destruct (TaskRepository.get_running_for_project project_path
              (background_tasks w)) as [[e|]|e]; try reflexivity.
  destruct (max_concurrent_tasks settings
            <=? TaskRepository.count_running (background_tasks w));
    [reflexivity|].
  unfold utcnow, repo_create, TaskRepository.create, new_task; simpl.
  destruct (existsb (TaskRepository.has_id uuid8) (background_tasks w));
    reflexivity.
Qed.

End Manager.

Lemma stored_none_existsb task_id db :
  stored task_id db = None -> existsb (TaskRepository.has_id task_id) db = false.
Proof.
  unfold stored. induction db as [|x db IH]; simpl; [reflexivity|].
  destruct (TaskRepository.has_id task_id x); [discriminate | auto].
Qed.

Section Admission.

Variable clock : nat -> Z.
Variable settings : Settings.
Variables uuid8 prompt project_path : string.
Variables user_id chat_id : Z.
Variable message_thread_id : option Z.
Variable session_id : option string.
Variable w : World.

Let admission : result string * World :=
  start_task clock settings uuid8 prompt project_path user_id chat_id
    message_thread_id session_id w.

(** C3: [start_task] fails with the ProjectBusy error when the repository
    returns a running record for the working directory and, without such a
    record, with the CapacityExceeded error when the running count is at
    least [max_concurrent_tasks]; in both cases the world is left as it
    was: no record persisted, no event published, no unit spawned. At
    count [max_concurrent_tasks - 1] without a project conflict (and with
    an unused id) it succeeds, persisting the running record and
    publishing [Started]. *)
Theorem start_task_admission :
  (forall existing : BackgroundTask.t,
      TaskRepository.get_running_for_project project_path (background_tasks w)
      = Ok (Some existing) ->
      admission = (Raise (project_busy project_path (BackgroundTask.task_id existing)), w))
  /\ (TaskRepository.get_running_for_project project_path (background_tasks w)
      = Ok None ->
      max_concurrent_tasks settings
      <= TaskRepository.count_running (background_tasks w) ->
      admission = (Raise (capacity_exceeded (max_concurrent_tasks settings)), w))
  /\ (TaskRepository.get_running_for_project project_path (background_tasks w)
      = Ok None ->
      TaskRepository.count_running (background_tasks w)
      = max_concurrent_tasks settings - 1 ->
      stored uuid8 (background_tasks w) = None ->
      exists w' : World,
        admission = (Ok uuid8, w')
        /\ background_tasks w'
           = (background_tasks w
              ++ [TaskRepository.row_of_task
                    (new_task clock w uuid8 prompt project_path user_id chat_id
                       message_thread_id session_id)])%list
        /\ published w'
           = (published w
              ++ [TaskStartedEvent uuid8 project_path prompt user_id chat_id
                    message_thread_id])%list
        /\ running_tasks w' !! uuid8
           = Some (new_task clock w uuid8 prompt project_path user_id chat_id
                     message_thread_id session_id)
        /\ uuid8 ∈ heartbeat_tasks w').
Proof.
  unfold admission. rewrite start_task_unfold.
  split; [|split].
  - intros existing ->. reflexivity.
  - intros -> Hmax.
    apply Z.leb_le in Hmax. rewrite Hmax. reflexivity.
  - intros -> Hcount Hfresh.
    assert ((max_concurrent_tasks settings
             <=? TaskRepository.count_running (background_tasks w)) = false) as ->
      by (apply Z.leb_gt; lia).
    cbv zeta. rewrite (stored_none_existsb _ _ Hfresh).
    eexists; split; [reflexivity|]. simpl.
    repeat split.
    + apply lookup_insert_eq.
    + set_solver.
Qed.

End Admission.

Lemma start_task_admission_witness :
  start_task sample_clock sample_settings "beef0002" "Another task" "/p/app"
    42 100 None None started_world
  = (Raise (project_busy "/p/app" "abcd1234"), started_world)
  /\ start_task sample_clock
       {| max_concurrent_tasks := 1; task_max_cost := 10%Q;
          model_background := None |}
       "beef0002" "One more task" "/p/other" 42 100 None None started_world
     = (Raise (capacity_exceeded 1), started_world)
  /\ exists w' : World,
       start_task sample_clock
         {| max_concurrent_tasks := 2; task_max_cost := 10%Q;
            model_background := None |}
         "beef0002" "One more task" "/p/other" 42 100 None None started_world
       = (Ok "beef0002", w')
       /\ length (background_tasks w') = 2%nat
       /\ length (published w') = 2%nat.
Proof.
  split; [|split].
  - exact (proj1 (start_task_admission sample_clock sample_settings "beef0002"
                    "Another task" "/p/app" 42 100 None None started_world)
             (new_task sample_clock empty_world "abcd1234" "Fix the bug"
                "/p/app" 42 100 None None) eq_refl).
  - exact (proj1 (proj2 (start_task_admission sample_clock
                           {| max_concurrent_tasks := 1; task_max_cost := 10%Q;
                              model_background := None |}
                           "beef0002" "One more task" "/p/other" 42 100 None
                           None started_world))
             eq_refl ltac:(vm_compute; discriminate)).
  - destruct (proj2 (proj2 (start_task_admission sample_clock
                           {| max_concurrent_tasks := 2; task_max_cost := 10%Q;
                              model_background := None |}
                           "beef0002" "One more task" "/p/other" 42 100 None
                           None started_world))
                eq_refl eq_refl eq_refl) as (w' & H & Hdb & Hpub & _).
    exists w'. split; [exact H|]. rewrite Hdb, Hpub. split; reflexivity.
Defined.

(** ** Stopping and finish timestamps *)

Lemma stop_task_unfold (clock : nat -> Z) (task_id : string) (w : World) :
  stop_task clock task_id w
  = (Ok tt,
     mkWorld
       (TaskRepository.update_status
          (datetime.mk (clock (clock_reads w)) datetime.utc) task_id "stopped"
          TaskRepository.no_kwargs (background_tasks w))
       (published w) (provider_calls w) (sleeps w) (S (clock_reads w))
       (delete task_id (running_tasks w))
       (heartbeat_tasks w ∖ {[ task_id ]})).
Proof. reflexivity. Qed.

Lemma stored_app_fresh task_id db r :
  existsb (TaskRepository.has_id task_id) db = false ->
  stored task_id (db ++ [r])%list
  = if TaskRepository.has_id task_id r then Some r else None.
Proof.
  unfold stored. induction db as [|x db IH]; simpl; [reflexivity|].
  destruct (TaskRepository.has_id task_id x); [discriminate | auto].
Qed.

(** C5 fails on the code: [update_status] documents that it sets
    [finished_at] for terminal statuses but does so for [completed] and
    [failed] only. Stopping the task [start_task] just launched leaves a
    record in the terminal status [stopped] whose finish timestamp is
    NULL. *)
Theorem stopped_without_finish_timestamp :
  exists r : Row.t,
    stored "abcd1234"
      (background_tasks (snd (stop_task sample_clock "abcd1234" started_world)))
    = Some r
    /\ Row.status r = "stopped"
    /\ is_terminal (Row.status r) = true
    /\ Row.finished_at r = CNull.
Proof. eexists. repeat split. Qed.

(** The finish timestamp by status: an update-status to [completed] or
    [failed] sets it to the instant of that update, the same instant it
    writes to last-activity; an update-status to any other status leaves
    it as it was. So [stop_task], which writes [stopped], keeps the finish
    timestamp of the record (none for a running one), and the record
    [start_task] creates is running without a finish timestamp. *)
Lemma finish_timestamp_by_status
  (clock : nat -> Z) (task_id : string) (w : World) (r : Row.t) :
  stored task_id (background_tasks w) = Some r ->
  (forall (now : datetime.t) (status : string) (kw : TaskRepository.kwargs),
      exists r' : Row.t,
        stored task_id
          (TaskRepository.update_status now task_id status kw (background_tasks w))
        = Some r'
        /\ Row.status r' = status
        /\ Row.last_activity_at r' = CDatetime now
        /\ (status = "completed" \/ status = "failed" ->
            Row.finished_at r' = CDatetime now)
        /\ (status <> "completed" -> status <> "failed" ->
            Row.finished_at r' = Row.finished_at r))
  /\ (exists (w' : World) (r' : Row.t),
        stop_task clock task_id w = (Ok tt, w')
        /\ stored task_id (background_tasks w') = Some r'
        /\ Row.status r' = "stopped"
        /\ Row.finished_at r' = Row.finished_at r)
  /\ (forall settings uuid8 prompt project_path user_id chat_id
        message_thread_id session_id (w' : World),
        start_task clock settings uuid8 prompt project_path user_id chat_id
          message_thread_id session_id w = (Ok uuid8, w') ->
        exists r' : Row.t,
          stored uuid8 (background_tasks w') = Some r'
          /\ Row.status r' = "running"
          /\ Row.finished_at r' = CNull).
Proof.
  intros Hr. split; [|split].
  - intros now status kw.
    eexists; split; [apply stored_update_status; exact Hr|].
    simpl. repeat split.
    + intros [-> | ->]; reflexivity.
    + intros H1 H2. unfold TaskRepository.is_finishing.
      apply String.eqb_neq in H1, H2. rewrite H1, H2. reflexivity.
  - rewrite stop_task_unfold.
    eexists; eexists; split; [reflexivity|]. simpl.
    split; [apply stored_update_status; exact Hr|].
    split; reflexivity.
  - intros settings uuid8 prompt project_path user_id chat_id
      message_thread_id session_id w'.
    rewrite start_task_unfold.
    destruct (TaskRepository.get_running_for_project project_path
                (background_tasks w)) as [[e|]|e]; try discriminate.
    destruct (max_concurrent_tasks settings
              <=? TaskRepository.count_running (background_tasks w));
      [discriminate|].
    cbv zeta.
    destruct (existsb (TaskRepository.has_id uuid8) (background_tasks w))
      eqn:Hfresh; [discriminate|].
    intros [= <-]. simpl.
    eexists. split.
    { rewrite (stored_app_fresh _ _ _ Hfresh).
      unfold TaskRepository.has_id. simpl.
      rewrite String.eqb_refl. reflexivity. }
    split; reflexivity.
Qed.

Lemma finish_timestamp_on_stop :
  exists (w' : World) (r' : Row.t),
    stop_task sample_clock "abcd1234" started_world = (Ok tt, w')
    /\ stored "abcd1234" (background_tasks w') = Some r'
    /\ Row.status r' = "stopped"
    /\ Row.finished_at r' = CNull.
Proof.
  exact (proj1 (proj2 (finish_timestamp_by_status sample_clock "abcd1234"
                         started_world
                         (TaskRepository.row_of_task
                            (new_task sample_clock empty_world "abcd1234"
                               "Fix the bug" "/p/app" 42 100 None None))
                         eq_refl))).
Defined.

(** ** Tables over time *)

Lemma keeps_terminal_refl r : keeps_terminal r r.
Proof. split; auto. Qed.

Lemma keeps_terminal_trans a b c :
  keeps_terminal a b -> keeps_terminal b c -> keeps_terminal a c.
Proof. intros [H1 H2] [H3 H4]. split; [congruence | auto]. Qed.

Lemma Forall2_keeps_refl db : Forall2 keeps_terminal db db.
Proof. induction db; constructor; auto using keeps_terminal_refl. Qed.

Lemma Forall2_keeps_trans a b c :
  Forall2 keeps_terminal a b -> Forall2 keeps_terminal b c ->
  Forall2 keeps_terminal a c.
Proof.
  intros H. revert c. induction H; intros c Hc; inversion Hc; subst;
    constructor; eauto using keeps_terminal_trans.
Qed.

Lemma evolves_refl db : evolves db db.
Proof.
  exists db, []. split; [symmetry; apply app_nil_r | apply Forall2_keeps_refl].
Qed.

Lemma evolves_trans a b c : evolves a b -> evolves b c -> evolves a c.
Proof.
  intros (old1 & new1 & -> & H1) (old2 & new2 & -> & H2).
  apply Forall2_app_inv_l in H2 as (o2a & o2b & Ha & Hb & ->).
  exists o2a, (o2b ++ new2)%list. split.
  - symmetry. apply app_assoc.
  - eapply Forall2_keeps_trans; eauto.
Qed.

Lemma evolves_map (f : Row.t -> Row.t) db :
  (forall r, keeps_terminal r (f r)) -> evolves db (map f db).
Proof.
  intros Hf. exists (map f db), []. split; [symmetry; apply app_nil_r|].
  induction db; simpl; constructor; auto.
Qed.

Lemma evolves_app db inserted : evolves db (db ++ inserted)%list.
Proof. exists db, inserted. split; [reflexivity | apply Forall2_keeps_refl]. Qed.

Lemma evolves_update_progress now task_id cost out db :
  evolves db (TaskRepository.update_progress now task_id cost out db).
Proof.
  apply evolves_map. intros r.
  destruct (TaskRepository.has_id task_id r);
    [split; auto | apply keeps_terminal_refl].
Qed.

Lemma evolves_update_status now task_id status kw db :
  is_terminal status = true ->
  evolves db (TaskRepository.update_status now task_id status kw db).
Proof.
  intros Hs. apply evolves_map. intros r.
  destruct (TaskRepository.has_id task_id r);
    [split; auto | apply keeps_terminal_refl].
Qed.

Lemma evolves_stored task_id db db' r :
  evolves db db' -> stored task_id db = Some r ->
  exists r', stored task_id db' = Some r'
             /\ (is_terminal (Row.status r) = true ->
                 is_terminal (Row.status r') = true).
Proof.
  intros (old & inserted & -> & H). unfold stored.
  induction H as [|x y db old' Hxy H IH]; simpl; [discriminate|].
  destruct Hxy as [Hid Hterm].
  unfold TaskRepository.has_id at 1 3. rewrite Hid.
  fold (TaskRepository.has_id task_id x).
  destruct (TaskRepository.has_id task_id x).
  - intros [= <-]. eauto.
  - exact IH.
Qed.

Lemma quiet_refl w : quiet w w.
Proof. repeat split; auto using evolves_refl. Qed.

Lemma quiet_trans a b c : quiet a b -> quiet b c -> quiet a c.
Proof.
  intros (H1 & H2 & H3 & H4 & H5 & H6) (G1 & G2 & G3 & G4 & G5 & G6).
  repeat split; try congruence. eapply evolves_trans; eauto.
Qed.

(** ** Recovery *)

Lemma from_row_task_id row t :
  BackgroundTask.from_row row = Ok t ->
  BackgroundTask.task_id t = Row.task_id row.
Proof.
  unfold BackgroundTask.from_row.
  repeat match goal with
         | |- context [match ?x with Ok _ => _ | Raise _ => _ end] =>
             destruct x; try discriminate
         end.
  intros [= <-]. reflexivity.
Qed.

Lemma from_row_status row t :
  BackgroundTask.from_row row = Ok t ->
  BackgroundTask.status t = Row.status row.
Proof.
  unfold BackgroundTask.from_row.
  repeat match goal with
         | |- context [match ?x with Ok _ => _ | Raise _ => _ end] =>
             destruct x; try discriminate
         end.
  intros [= <-]. reflexivity.
Qed.

Lemma from_rows_ids rows ts :
  TaskRepository.from_rows rows = Ok ts ->
  map BackgroundTask.task_id ts = map Row.task_id rows.
Proof.
  revert ts. induction rows as [|r rows IH]; simpl; intros ts.
  - intros [= <-]. reflexivity.
  - destruct (BackgroundTask.from_row r) eqn:Hr; [|discriminate].
    destruct (TaskRepository.from_rows rows); [|discriminate].
    intros [= <-]. simpl. rewrite (from_row_task_id _ _ Hr).
    f_equal. auto.
Qed.

Lemma Forall2_map_l {A B : Type} (P : A -> B -> Prop) (f : A -> A) l k :
  Forall2 P (map f l) k -> Forall2 (fun x y => P (f x) y) l k.
Proof.
  revert k. induction l; simpl; intros k H; inversion H; subst;
    constructor; auto.
Qed.

Lemma recover_each_spec (clock : nat -> Z) (ts : list BackgroundTask.t) :
  forall w : World,
  exists w' : World,
    recover_each clock ts w = (Ok tt, w')
    /\ published w' = published w
    /\ provider_calls w' = provider_calls w
    /\ sleeps w' = sleeps w
    /\ running_tasks w' = running_tasks w
    /\ heartbeat_tasks w' = heartbeat_tasks w
    /\ Forall2 (recovered (map BackgroundTask.task_id ts))
         (background_tasks w) (background_tasks w').
Proof.
  induction ts as [|t ts IH]; intros w.
  - exists w. repeat split; try reflexivity.
    simpl. induction (background_tasks w); constructor; auto.
    split; [reflexivity|]. split; [intros []|reflexivity].
  - simpl recover_each.
    unfold bind at 1. unfold repo_update_status, bind, utcnow, modify. simpl.
    match goal with
    | |- context [recover_each clock ts ?w1] =>
        destruct (IH w1) as (w' & Hrun & Hp & Hc & Hs & Hr & Hh & Hdb)
    end.
    exists w'. rewrite Hrun. simpl in *.
    repeat split; try assumption.
    unfold TaskRepository.update_status in Hdb.
    apply Forall2_map_l in Hdb.
    eapply Forall2_impl; [exact Hdb|].
    intros r r' (Hid & Hin & Hout). simpl in *.
    destruct (TaskRepository.has_id (BackgroundTask.task_id t) r) eqn:Hhas.
    + simpl in *. split; [exact Hid|]. split.
      * intros _.
        destruct (in_dec string_dec (Row.task_id r)
                    (map BackgroundTask.task_id ts)) as [Hi|Hn].
        -- auto.
        -- rewrite (Hout Hn). simpl. auto.
      * intros Hn. exfalso. apply Hn. left.
        unfold TaskRepository.has_id in Hhas. apply String.eqb_eq in Hhas.
        auto.
    + split; [exact Hid|]. split.
      * intros [Heq | Hi]; [|auto].
        unfold TaskRepository.has_id in Hhas. apply String.eqb_neq in Hhas.
        congruence.
      * intros Hn. apply Hout. intros Hi. apply Hn. right. exact Hi.
Qed.

Lemma Forall2_In_l {A B : Type} (P : A -> B -> Prop) l k :
  Forall2 P l k -> Forall2 (fun x y => In x l /\ P x y) l k.
Proof.
  induction 1; constructor.
  - split; [left; reflexivity | assumption].
  - eapply Forall2_impl; [eassumption|].
    intros a b [Hin HP]. split; [right; exact Hin | exact HP].
Qed.

Lemma Forall2_right {A B : Type} (P : A -> B -> Prop) (Q : B -> Prop) l k :
  Forall2 P l k -> (forall x y, P x y -> Q y) -> Forall Q k.
Proof. induction 1; intros HQ; constructor; eauto. Qed.

Lemma recover_unfold (clock : nat -> Z) (w : World) :
  recover clock w
  = match TaskRepository.get_all_running (background_tasks w) with
    | Ok orphaned => recover_each clock orphaned w
    | Raise e => (Raise e, w)
    end.
Proof.
  unfold recover, bind, repo_get_all_running.
  destruct (TaskRepository.get_all_running (background_tasks w)); reflexivity.
Qed.

(** C9, as stated, at a concrete input: the record [recover] marks does
    not carry the message ["process restarted; task aborted"]. *)
Lemma recover_message_differs :
  option_map Row.error_message
    (stored "abcd1234"
       (background_tasks (snd (recover sample_clock started_world))))
  = Some (Some RECOVERY_MESSAGE)
  /\ RECOVERY_MESSAGE <> "process restarted; task aborted".
Proof. split; [reflexivity | discriminate]. Qed.

(** C9, amended: [recover] sets every record with status [running] to
    status [failed] with error_message
    ["Бот был перезапущен, задача прервана"] and publishes no events; after
    [recover] returns, no task record has status [running]. It returns
    whenever the running records can be read back. *)
Theorem recover_marks_orphans (clock : nat -> Z) (w : World) :
  (forall orphaned : list BackgroundTask.t,
      TaskRepository.get_all_running (background_tasks w) = Ok orphaned ->
      exists w' : World, recover clock w = (Ok tt, w'))
  /\ (forall w' : World,
        recover clock w = (Ok tt, w') ->
        published w' = published w
        /\ Forall (fun r => Row.status r <> "running") (background_tasks w')
        /\ Forall2
             (fun r r' =>
                Row.task_id r' = Row.task_id r
                /\ (Row.status r = "running" ->
                    Row.status r' = "failed"
                    /\ Row.error_message r' = Some RECOVERY_MESSAGE)
                /\ (Row.status r <> "running" ->
                    Row.status r' <> "running"))
             (background_tasks w) (background_tasks w')).
Proof.
  rewrite recover_unfold. split.
  - intros orphaned ->.
    destruct (recover_each_spec clock orphaned w) as (w' & H & _). eauto.
  - intros w'.
    destruct (TaskRepository.get_all_running (background_tasks w))
      as [orphaned|e] eqn:Hget; [|discriminate].
    destruct (recover_each_spec clock orphaned w)
      as (w1 & H & Hp & _ & _ & _ & _ & Hdb).
    rewrite H. intros [= <-].
    unfold TaskRepository.get_all_running in Hget.
    apply from_rows_ids in Hget. rewrite Hget in Hdb.
    assert (forall r, In r (background_tasks w) -> Row.status r = "running" ->
                      In (Row.task_id r)
                        (map Row.task_id
                           (List.filter TaskRepository.is_running
                              (background_tasks w)))) as Hrun.
    { intros r Hin Hst. apply in_map. apply filter_In. split; [exact Hin|].
      unfold TaskRepository.is_running. rewrite Hst. reflexivity. }
    apply Forall2_In_l in Hdb.
    assert (Forall2
              (fun r r' =>
                 Row.task_id r' = Row.task_id r
                 /\ (Row.status r = "running" ->
                     Row.status r' = "failed"
                     /\ Row.error_message r' = Some RECOVERY_MESSAGE)
                 /\ (Row.status r <> "running" -> Row.status r' <> "running"))
              (background_tasks w) (background_tasks w1)) as Hall.
    { eapply Forall2_impl; [exact Hdb|].
      intros r r' (Hin & Hid & Hyes & Hno). simpl.
      split; [exact Hid|]. split.
      - intros Hst. apply Hyes. apply Hrun; assumption.
      - intros Hst.
        destruct (in_dec string_dec (Row.task_id r)
                    (map Row.task_id
                       (List.filter TaskRepository.is_running
                          (background_tasks w)))) as [Hi|Hn].
        + destruct (Hyes Hi) as [-> _]. discriminate.
        + rewrite (Hno Hn). exact Hst. }
    split; [exact Hp|]. split; [|exact Hall].
    eapply Forall2_right; [exact Hall|].
    intros r r' (_ & Hyes & Hno). simpl.
    destruct (string_dec (Row.status r) "running") as [Hst|Hst].
    + destruct (Hyes Hst) as [-> _]. discriminate.
    + auto.
Qed.

Lemma recover_marks_orphans_witness :
  exists w' : World,
    recover sample_clock started_world = (Ok tt, w')
    /\ published w' = published started_world
    /\ Forall (fun r => Row.status r <> "running") (background_tasks w').
Proof.
  destruct (proj1 (recover_marks_orphans sample_clock started_world)
              [new_task sample_clock empty_world "abcd1234" "Fix the bug"
                 "/p/app" 42 100 None None] eq_refl) as (w' & H).
  exists w'. split; [exact H|].
  destruct (proj2 (recover_marks_orphans sample_clock started_world) w' H)
    as (Hp & Hr & _).
  split; assumption.
Defined.

(** ** Heartbeat *)

Lemma first_stage_find table text :
  first_stage table text
  = match List.find (fun entry => search (fst entry) text) table with
    | Some (_, stage) => stage
    | None => DEFAULT_STAGE
    end.
Proof.
  induction table as [|[pattern stage] table IH]; simpl; [reflexivity|].
  destruct (search pattern text); [reflexivity | exact IH].
Qed.

Lemma parse_stage_label last_output :
  parse_stage last_output = stage_label last_output.
Proof.
  destruct last_output as [[|c text]|]; [reflexivity| |reflexivity].
  unfold parse_stage, stage_label, first_match. simpl truthy. cbv iota.
  rewrite first_stage_find.
  destruct (List.find _ STAGE_PATTERNS) as [[? ?]|]; reflexivity.
Qed.

Lemma _loop_body_unfold (clock : nat -> Z) (hb : HeartbeatService)
  (task_id : string) (w : World) :
  _loop_body clock hb task_id w
  = let w1 := with_sleep (interval hb) w in
    match TaskRepository.get task_id (background_tasks w) with
    | Raise e => (Raise e, w1)
    | Ok None => (Ok false, w1)
    | Ok (Some task) =>
        if negb (String.eqb (BackgroundTask.status task) "running")
        then (Ok false, w1)
        else
          let now := datetime.mk (clock (clock_reads w)) datetime.utc in
          let w2 := with_clock_read w1 in
          match datetime.sub now (BackgroundTask.created_at task) with
          | Raise e => (Raise e, w2)
          | Ok since_created =>
              match datetime.sub now (BackgroundTask.last_activity_at task) with
              | Raise e => (Raise e, w2)
              | Ok since_activity =>
                  let elapsed := datetime.total_seconds since_created in
                  let idle := datetime.total_seconds since_activity in
                  if negb (Qle_bool idle (timeout hb)) then
                    (Ok false,
                     with_event
                       (TaskTimeoutEvent task_id (py_int elapsed)
                          (BackgroundTask.total_cost task) (py_int idle)
                          (or_zero (BackgroundTask.chat_id task))
                          (BackgroundTask.message_thread_id task)) w2)
                  else
                    (Ok true,
                     with_event
                       (TaskProgressEvent task_id (py_int elapsed)
                          (BackgroundTask.total_cost task)
                          (parse_stage (BackgroundTask.last_output task))
                          (or_zero (BackgroundTask.chat_id task))
                          (BackgroundTask.message_thread_id task)) w2)
              end
          end
    end.
Proof.
  unfold _loop_body, bind, sleep, modify, repo_get, utcnow, of_result, publish,
    ret.
  simpl.
  destruct (TaskRepository.get task_id (background_tasks w)) as [[task|]|e];
    try reflexivity.
  destruct (negb (String.eqb (BackgroundTask.status task) "running"));
    [reflexivity|].
  simpl.
  destruct (datetime.sub _ (BackgroundTask.created_at task)); [|reflexivity].
  destruct (datetime.sub _ (BackgroundTask.last_activity_at task));
    [|reflexivity].
  destruct (negb (Qle_bool _ (timeout hb))); reflexivity.
Qed.




(** C10 fails on the code: [from_row] parses the stored text of a legacy
    record into naive datetimes and leaves them naive; the next heartbeat
    tick subtracts them from an aware [now], which raises [TypeError], so
    the supervisor of that running task ends without publishing
    anything. *)
Theorem legacy_timestamps_stay_naive :
  (exists task : BackgroundTask.t,
      BackgroundTask.from_row legacy_row = Ok task
      /\ datetime.aware (BackgroundTask.created_at task) = false
      /\ datetime.aware (BackgroundTask.last_activity_at task) = false)
  /\ fst (_loop_body sample_clock sample_heartbeat "abcd1234" legacy_world)
     = Raise (TypeError "can't subtract offset-naive and offset-aware datetimes")
  /\ (exists w' : World,
        _loop sample_clock sample_heartbeat "abcd1234" 1 legacy_world
        = (Ok true, w')
        /\ published w' = []
        /\ option_map Row.status (stored "abcd1234" (background_tasks w'))
           = Some "running").
Proof.
  split; [|split].
  - eexists. split; [vm_compute; reflexivity|]. split; reflexivity.
  - vm_compute. reflexivity.
  - eexists. split; [vm_compute; reflexivity|]. split; reflexivity.
Qed.

(** ** The stream callback and the provider call *)

Section Callback.

Variable clock : nat -> Z.
Variable task_id : string.
Variable limit : Q.

Lemma stream_callback_unfold (event : StreamEvent.t) (f : Frame) :
  stream_callback clock task_id limit event f
  = let acc := (accumulated_cost f + cost_delta_of event)%Q in
    (if negb (Qle_bool acc limit)
     then Raise (CostLimitExceeded task_id acc limit)
     else Ok tt,
     mkFrame (progress_step clock task_id (world f) event) acc (last_error f)).
Proof.
  unfold stream_callback, bind, add_cost, modify, in_world, gets, raise, ret,
    progress_step.
  simpl.
  destruct (negb (Qle_bool (accumulated_cost f + cost_delta_of event) limit));
    reflexivity.
Qed.

Lemma progress_step_quiet (w : World) (event : StreamEvent.t) :
  quiet w (progress_step clock task_id w event).
Proof.
  unfold progress_step, repo_update_progress, bind, utcnow, modify. simpl.
  repeat split. apply evolves_update_progress.
Qed.

Lemma progress_step_clock (w : World) (event : StreamEvent.t) :
  clock_reads (progress_step clock task_id w event) = S (clock_reads w).
Proof. reflexivity. Qed.

Lemma fed_quiet (events : list StreamEvent.t) :
  forall w : World, quiet w (fed clock task_id w events).
Proof.
  induction events as [|e events IH]; intros w; simpl.
  - apply quiet_refl.
  - eapply quiet_trans; [apply progress_step_quiet | apply IH].
Qed.

Lemma fed_clock (events : list StreamEvent.t) :
  forall w : World,
    clock_reads (fed clock task_id w events)
    = (clock_reads w + length events)%nat.
Proof.
  induction events as [|e events IH]; intros w; simpl.
  - lia.
  - rewrite IH, progress_step_clock. lia.
Qed.

Lemma fed_app (pre post : list StreamEvent.t) (w : World) :
  fed clock task_id w (pre ++ post)
  = fed clock task_id (fed clock task_id w pre) post.
Proof. apply fold_left_app. Qed.

Lemma total_app (acc : Q) (pre post : list StreamEvent.t) :
  total acc (pre ++ post) = total (total acc pre) post.
Proof. apply fold_left_app. Qed.

Lemma within_limit_cons (acc : Q) (e : StreamEvent.t)
  (events : list StreamEvent.t) :
  within_limit limit acc (e :: events) ->
  (acc + cost_delta_of e <= limit)%Q
  /\ within_limit limit (acc + cost_delta_of e)%Q events.
Proof.
  intros H. split.
  - apply (H 1%nat). simpl. lia.
  - intros n Hn. apply (H (S n)). simpl. lia.
Qed.

(** Within the limit, the callback takes every event and returns. *)
Lemma feed_within (events : list StreamEvent.t) :
  forall f : Frame,
    within_limit limit (accumulated_cost f) events ->
    feed (stream_callback clock task_id limit) events f
    = (Ok tt,
       mkFrame (fed clock task_id (world f) events)
         (total (accumulated_cost f) events) (last_error f)).
Proof.
  induction events as [|e events IH]; intros f H.
  - destruct f; reflexivity.
  - apply within_limit_cons in H as [Hle Hrest].
    simpl feed. unfold bind. rewrite stream_callback_unfold. cbv zeta.
    apply Qle_bool_iff in Hle. rewrite Hle. simpl negb. cbv iota.
    rewrite IH; [reflexivity | exact Hrest].
Qed.

(** The callback raises at the first event that carries the counter over
    the limit; the events after it are not taken. *)
Lemma feed_overrun (pre post : list StreamEvent.t) (e : StreamEvent.t) :
  forall f : Frame,
    within_limit limit (accumulated_cost f) pre ->
    (limit < total (accumulated_cost f) (pre ++ [e]))%Q ->
    feed (stream_callback clock task_id limit) (pre ++ e :: post) f
    = (Raise (CostLimitExceeded task_id
                (total (accumulated_cost f) (pre ++ [e])) limit),
       mkFrame (fed clock task_id (world f) (pre ++ [e]))
         (total (accumulated_cost f) (pre ++ [e])) (last_error f)).
Proof.
  induction pre as [|x pre IH]; intros f Hpre Hover.
  - simpl in *. unfold bind. rewrite stream_callback_unfold. cbv zeta.
    assert (Qle_bool (accumulated_cost f + cost_delta_of e) limit = false)
      as ->.
    { destruct (Qle_bool _ limit) eqn:E; [|reflexivity].
      apply Qle_bool_iff in E. exfalso. exact (Qlt_not_le _ _ Hover E). }
    reflexivity.
  - apply within_limit_cons in Hpre as [Hle Hrest].
    simpl app. simpl feed. unfold bind. rewrite stream_callback_unfold.
    cbv zeta. apply Qle_bool_iff in Hle. rewrite Hle. simpl negb. cbv iota.
    rewrite IH; [reflexivity | exact Hrest | exact Hover].
Qed.

(** Whatever the stream, the callback leaves events, provider calls,
    sleeps and the two maps alone and never records an error; it ends
    either normally or with [CostLimitExceeded] carrying the counter. *)
Lemma feed_any (events : list StreamEvent.t) :
  forall f : Frame,
  exists (r : result unit) (f' : Frame),
    feed (stream_callback clock task_id limit) events f = (r, f')
    /\ quiet (world f) (world f')
    /\ last_error f' = last_error f
    /\ (r = Ok tt
        \/ r = Raise (CostLimitExceeded task_id (accumulated_cost f') limit)).
Proof.
  induction events as [|e events IH]; intros f.
  - exists (Ok tt), f. repeat split; auto using quiet_refl.
    apply evolves_refl.
  - simpl feed. unfold bind. rewrite stream_callback_unfold. cbv zeta.
    destruct (negb (Qle_bool (accumulated_cost f + cost_delta_of e) limit)).
    + eexists; eexists; split; [reflexivity|]. simpl.
      split; [apply progress_step_quiet|]. auto.
    + match goal with
      | |- context [feed _ events ?f1] =>
          destruct (IH f1) as (r & f' & Hrun & Hq & Herr & Hr)
      end.
      exists r, f'. rewrite Hrun. simpl in *.
      split; [reflexivity|]. split; [|auto].
      eapply quiet_trans; [apply progress_step_quiet | exact Hq].
Qed.

End Callback.

(** ** One attempt *)

Section Attempt.

Variable clock : nat -> Z.
Variable provider : nat -> ProviderCall.
Variable format_2f : Q -> string.
Variable git_log : string -> datetime.t -> list commit.
Variable settings : Settings.
Variable task : BackgroundTask.t.
Variable start_us : Z.

Let start_time : datetime.t := datetime.mk start_us datetime.utc.
Let task_id : string := BackgroundTask.task_id task.
Let limit : Q := task_max_cost settings.

Lemma duration_since_unfold (w : World) :
  duration_since clock start_time w
  = (Ok (duration_at clock (clock_reads w) start_time), with_clock_read w).
Proof. reflexivity. Qed.

Lemma fail_task_unfold (error_msg : string) (f : Frame) :
  fail_task clock task start_time error_msg f
  = (Ok tt,
     mkFrame
       (failed_world clock task start_time error_msg (accumulated_cost f)
          (world f))
       (accumulated_cost f) (last_error f)).
Proof. reflexivity. Qed.

Lemma complete_unfold (response : LLMResponse.t) (f : Frame) :
  complete clock git_log task start_time response f
  = (Ok true,
     mkFrame
       (completed_world clock git_log task start_time response
          (accumulated_cost f) (world f))
       (accumulated_cost f) (last_error f)).
Proof. reflexivity. Qed.

Lemma attempt_try_unfold (attempt : Z) (f : Frame) :
  attempt_try clock provider git_log settings task start_time attempt f
  = match feed (stream_callback clock task_id limit)
            (stream (provider (provider_calls (world f))))
            (mkFrame (calling_world attempt (world f)) (accumulated_cost f)
               (last_error f)) with
    | (Raise e, f1) => (Raise e, f1)
    | (Ok _, f1) =>
        match outcome (provider (provider_calls (world f))) with
        | Raise e => (Raise e, f1)
        | Ok response =>
            if LLMResponse.is_error response
            then (Raise (transient_error (Ok response)), f1)
            else complete clock git_log task start_time response f1
        end
    end.
Proof.
  unfold attempt_try, execute, bind, gets, in_world, modify, of_result, sleep,
    raise, calling_world, ret.
  destruct (0 <? attempt); simpl;
    destruct (feed _ _ _) as [[[]|e] f1]; try reflexivity;
    destruct (outcome _) as [response|e]; try reflexivity;
    destruct (LLMResponse.is_error response); reflexivity.
Qed.

Lemma run_attempt_unfold (attempt : Z) (f : Frame) :
  run_attempt clock provider format_2f git_log settings task start_time attempt f
  = match attempt_try clock provider git_log settings task start_time attempt f
    with
    | (Ok returned, f1) => (Ok returned, f1)
    | (Raise e, f1) => attempt_except clock format_2f task start_time e f1
    end.
Proof. reflexivity. Qed.


(** A call within the limit that fails for another reason than
    cancellation or the cost limit: the error is kept for later and the
    loop goes on. *)
Lemma run_attempt_transient (attempt : Z) (f : Frame) :
  let call := provider (provider_calls (world f)) in
  within_limit limit (accumulated_cost f) (stream call) ->
  is_transient (outcome call) = true ->
  run_attempt clock provider format_2f git_log settings task start_time attempt f
  = (Ok false,
     mkFrame
       (fed clock task_id (calling_world attempt (world f)) (stream call))
       (total (accumulated_cost f) (stream call))
       (Some (transient_error (outcome call)))).
Proof.
  intros call Hin Htr.
  rewrite run_attempt_unfold, attempt_try_unfold.
  rewrite (feed_within clock task_id limit (stream call)); [|exact Hin].
  fold call.
  destruct (outcome call) as [response|e]; simpl in Htr.
  - rewrite Htr. reflexivity.
  - destruct e; try discriminate; reflexivity.
Qed.

(** A call whose stream carries the counter over the limit. *)
Lemma run_attempt_overrun (attempt : Z) (f : Frame)
  (pre post : list StreamEvent.t) (e : StreamEvent.t) :
  stream (provider (provider_calls (world f))) = (pre ++ e :: post)%list ->
  within_limit limit (accumulated_cost f) pre ->
  (limit < total (accumulated_cost f) (pre ++ [e]))%Q ->
  let c := total (accumulated_cost f) (pre ++ [e]) in
  run_attempt clock provider format_2f git_log settings task start_time attempt f
  = (Ok true,
     mkFrame
       (failed_world clock task start_time
          (str_exn format_2f (CostLimitExceeded task_id c limit)) c
          (fed clock task_id (calling_world attempt (world f)) (pre ++ [e])))
       c (last_error f)).
Proof.
  intros Hstream Hpre Hover c.
  rewrite run_attempt_unfold, attempt_try_unfold, Hstream.
  rewrite (feed_overrun clock task_id limit pre post e); [|exact Hpre|exact Hover].
  reflexivity.
Qed.

Lemma calling_world_quiet (attempt : Z) (w : World) :
  published (calling_world attempt w) = published w
  /\ provider_calls (calling_world attempt w) = S (provider_calls w)
  /\ sleeps (calling_world attempt w) = (sleeps w ++ retry_sleep attempt)%list
  /\ running_tasks (calling_world attempt w) = running_tasks w
  /\ heartbeat_tasks (calling_world attempt w) = heartbeat_tasks w
  /\ background_tasks (calling_world attempt w) = background_tasks w.
Proof.
  unfold calling_world, retry_sleep. destruct (0 <? attempt); simpl;
    repeat split; auto using app_nil_r.
Qed.

(** Whatever the provider does, one pass makes one call, sleeps only
    before a retry, and keeps the table's rows. *)
Lemma run_attempt_any (attempt : Z) (f : Frame) :
  exists (r : result bool) (f' : Frame),
    run_attempt clock provider format_2f git_log settings task start_time
      attempt f = (r, f')
    /\ provider_calls (world f') = S (provider_calls (world f))
    /\ sleeps (world f') = (sleeps (world f) ++ retry_sleep attempt)%list
    /\ running_tasks (world f') = running_tasks (world f)
    /\ heartbeat_tasks (world f') = heartbeat_tasks (world f)
    /\ evolves (background_tasks (world f)) (background_tasks (world f')).
Proof.
  rewrite run_attempt_unfold, attempt_try_unfold.
  destruct (calling_world_quiet attempt (world f))
    as (_ & Hc & Hs & Hr & Hh & Hdb).
  match goal with
  | |- context [feed ?cb ?events ?f1] =>
      destruct (feed_any clock task_id limit events f1)
        as (r0 & f1' & Hrun & (_ & Qc & Qs & Qr & Qh & Qdb) & _ & _)
  end.
  rewrite Hrun. cbn [world] in Qc, Qs, Qr, Qh, Qdb.
  rewrite Hc in Qc. rewrite Hs in Qs. rewrite Hr in Qr. rewrite Hh in Qh.
  rewrite Hdb in Qdb.
  assert (forall msg acc,
             evolves (background_tasks (world f))
               (background_tasks
                  (failed_world clock task start_time msg acc (world f1'))))
    as Hfail.
  { intros. eapply evolves_trans; [exact Qdb|].
    apply evolves_update_status. reflexivity. }
  assert (forall e,
             exists r f',
               attempt_except clock format_2f task start_time e f1' = (r, f')
               /\ provider_calls (world f') = S (provider_calls (world f))
               /\ sleeps (world f') = (sleeps (world f) ++ retry_sleep attempt)%list
               /\ running_tasks (world f') = running_tasks (world f)
               /\ heartbeat_tasks (world f') = heartbeat_tasks (world f)
               /\ evolves (background_tasks (world f))
                    (background_tasks (world f'))) as Hexc.
  { intros e. destruct e;
      (eexists; eexists; split; [reflexivity|]; simpl;
       repeat split; try congruence; auto;
       apply (evolves_trans _ _ _ Qdb);
       apply evolves_update_status; reflexivity). }
  destruct r0 as [[]|e].
  - destruct (outcome _) as [response|e]; [|apply Hexc].
    destruct (LLMResponse.is_error response); [apply Hexc|].
    rewrite complete_unfold.
    eexists; eexists; split; [reflexivity|]. simpl.
    repeat split; try congruence.
    eapply evolves_trans; [exact Qdb|].
    apply evolves_update_status. reflexivity.
  - apply Hexc.
Qed.

End Attempt.

Example sample_format_2f_12 : sample_format_2f (12 # 10)%Q = "1.20".
Proof. reflexivity. Qed.

Example sample_format_2f_limit : sample_format_2f 1%Q = "1.00".
Proof. reflexivity. Qed.

(** ** The execution unit *)

Section RunTask.

Variable clock : nat -> Z.
Variable provider : nat -> ProviderCall.
Variable format_2f : Q -> string.
Variable git_log : string -> datetime.t -> list commit.
Variable settings : Settings.
Variable task : BackgroundTask.t.

Let task_id : string := BackgroundTask.task_id task.
Let limit : Q := task_max_cost settings.

Lemma _run_task_unfold (w : World) :
  _run_task clock provider format_2f git_log settings task w
  = let start_time := datetime.mk (clock (clock_reads w)) datetime.utc in
    let run := run_attempt clock provider format_2f git_log settings task
                 start_time in
    match run 0 (mkFrame (with_clock_read w) 0%Q None) with
    | (Raise e, f1) => (Raise e, world f1)
    | (Ok true, f1) => (Ok tt, world f1)
    | (Ok false, f1) =>
        match run 1 f1 with
        | (Raise e, f2) => (Raise e, world f2)
        | (Ok true, f2) => (Ok tt, world f2)
        | (Ok false, f2) =>
            match last_error f2 with
            | Some e =>
                (Ok tt,
                 failed_world clock task start_time (str_exn format_2f e)
                   (accumulated_cost f2) (world f2))
            | None => (Ok tt, world f2)
            end
        end
    end.
Proof.
  unfold _run_task, _run_task_frame, bind, in_world, utcnow. simpl.
  unfold bind.
  destruct (run_attempt _ _ _ _ _ _ _ 0 _) as [[[|]|e] f1]; try reflexivity.
  destruct (run_attempt _ _ _ _ _ _ _ 1 _) as [[[|]|e] f2]; try reflexivity.
  unfold ret, exhausted, bind, gets.
  destruct (last_error f2); [|reflexivity].
  rewrite fail_task_unfold. reflexivity.
Qed.

Lemma fed_calling_facts (attempt : Z) (events : list StreamEvent.t)
  (w0 : World) :
  let w1 := fed clock task_id (calling_world attempt w0) events in
  published w1 = published w0
  /\ provider_calls w1 = S (provider_calls w0)
  /\ sleeps w1 = (sleeps w0 ++ retry_sleep attempt)%list
  /\ running_tasks w1 = running_tasks w0
  /\ heartbeat_tasks w1 = heartbeat_tasks w0
  /\ evolves (background_tasks w0) (background_tasks w1).
Proof.
  intros w1.
  destruct (fed_quiet clock task_id events (calling_world attempt w0))
    as (Hp & Hc & Hs & Hr & Hh & Hdb).
  destruct (calling_world_quiet attempt w0) as (Gp & Gc & Gs & Gr & Gh & Gdb).
  fold w1 in Hp, Hc, Hs, Hr, Hh, Hdb. rewrite Gdb in Hdb.
  repeat split; congruence || exact Hdb.
Qed.

Lemma failed_world_stored (start_time : datetime.t) (msg : string) (acc : Q)
  (w0 w1 : World) (r : Row.t) :
  evolves (background_tasks w0) (background_tasks w1) ->
  stored task_id (background_tasks w0) = Some r ->
  exists r' : Row.t,
    stored task_id
      (background_tasks (failed_world clock task start_time msg acc w1))
    = Some r'
    /\ Row.status r' = "failed"
    /\ Row.error_message r' = Some msg
    /\ Row.finished_at r'
       = CDatetime (datetime.mk (clock (S (clock_reads w1))) datetime.utc).
Proof.
  intros Hev Hr.
  destruct (evolves_stored _ _ _ _ Hev Hr) as (r1 & Hr1 & _).
  eexists. split; [apply stored_update_status; exact Hr1|].
  repeat split.
Qed.


(** The cost limit on the manager's side, for a provider that lets an
    exception of the callback leave the call, as the stubs of
    [tests/unit/test_tasks/test_manager.py] do; amounts are exact
    rationals here. The stream callback adds the event's cost to the
    accumulated-cost counter, persists the delta through
    [update_progress], and raises [CostLimitExceeded] as soon as the
    counter exceeds [task_max_cost]; with such a provider the record is
    then set to [failed] and one [Failed] event carrying the accumulated
    cost is published, the provider is not called again and no retry
    delay is slept, also when the limit is crossed during the retry that
    follows a transient failure. What [ClaudeProvider.execute] does with
    the callback's exception is stated with the model of that provider. *)
Theorem cost_limit_aborts_without_retry (w : World) :
  (forall (event : StreamEvent.t) (f : Frame),
      let acc := (accumulated_cost f + cost_delta_of event)%Q in
      exists r : result unit,
        stream_callback clock task_id limit event f
        = (r,
           mkFrame
             (snd (repo_update_progress clock task_id (cost_delta_of event)
                     (output_of event) (world f)))
             acc (last_error f))
        /\ ((limit < acc)%Q -> r = Raise (CostLimitExceeded task_id acc limit))
        /\ ((acc <= limit)%Q -> r = Ok tt))
  /\ (forall (pre post : list StreamEvent.t) (e : StreamEvent.t),
        stream (provider (provider_calls w)) = (pre ++ e :: post)%list ->
        within_limit limit 0%Q pre ->
        (limit < total 0%Q (pre ++ [e]))%Q ->
        let c := total 0%Q (pre ++ [e]) in
        let msg := str_exn format_2f (CostLimitExceeded task_id c limit) in
        exists (w' : World) (duration : Z),
          _run_task clock provider format_2f git_log settings task w
          = (Ok tt, w')
          /\ provider_calls w' = S (provider_calls w)
          /\ sleeps w' = sleeps w
          /\ published w'
             = (published w
                ++ [TaskFailedEvent task_id duration c msg
                      (or_empty (BackgroundTask.last_output task))
                      (or_zero (BackgroundTask.chat_id task))
                      (BackgroundTask.message_thread_id task)])%list
          /\ (forall r : Row.t,
                stored task_id (background_tasks w) = Some r ->
                exists r' : Row.t,
                  stored task_id (background_tasks w') = Some r'
                  /\ Row.status r' = "failed"
                  /\ Row.error_message r' = Some msg))
  /\ (forall (pre post : list StreamEvent.t) (e : StreamEvent.t),
        let first := provider (provider_calls w) in
        let spent := total 0%Q (stream first) in
        within_limit limit 0%Q (stream first) ->
        is_transient (outcome first) = true ->
        stream (provider (S (provider_calls w))) = (pre ++ e :: post)%list ->
        within_limit limit spent pre ->
        (limit < total spent (pre ++ [e]))%Q ->
        let c := total spent (pre ++ [e]) in
        let msg := str_exn format_2f (CostLimitExceeded task_id c limit) in
        exists (w' : World) (duration : Z),
          _run_task clock provider format_2f git_log settings task w
          = (Ok tt, w')
          /\ provider_calls w' = S (S (provider_calls w))
          /\ sleeps w' = (sleeps w ++ [RETRY_DELAY_SECONDS])%list
          /\ published w'
             = (published w
                ++ [TaskFailedEvent task_id duration c msg
                      (or_empty (BackgroundTask.last_output task))
                      (or_zero (BackgroundTask.chat_id task))
                      (BackgroundTask.message_thread_id task)])%list
          /\ (forall r : Row.t,
                stored task_id (background_tasks w) = Some r ->
                exists r' : Row.t,
                  stored task_id (background_tasks w') = Some r'
                  /\ Row.status r' = "failed"
                  /\ Row.error_message r' = Some msg)).
Proof.
  split; [|split].
  - intros event f acc.
    rewrite stream_callback_unfold. cbv zeta. fold acc.
    eexists; split; [reflexivity|]. split.
    + intros Hlt.
      destruct (Qle_bool acc limit) eqn:E; [|reflexivity].
      apply Qle_bool_iff in E. exfalso. exact (Qlt_not_le _ _ Hlt E).
    + intros Hle. apply Qle_bool_iff in Hle. rewrite Hle. reflexivity.
  - intros pre post e Hstream Hpre Hover c msg.
    rewrite _run_task_unfold. cbv zeta.
    rewrite (run_attempt_overrun clock provider format_2f git_log settings
               task (clock (clock_reads w)) 0
               (mkFrame (with_clock_read w) 0%Q None) pre post e Hstream Hpre
               Hover).
    cbn [world accumulated_cost].
    destruct (fed_calling_facts 0 (pre ++ [e]) (with_clock_read w))
      as (Hp & Hc & Hs & _ & _ & Hdb).
    change (published (with_clock_read w)) with (published w) in Hp.
    change (sleeps (with_clock_read w)) with (sleeps w) in Hs.
    eexists; eexists; split; [reflexivity|].
    split; [exact Hc|].
    split; [transitivity (sleeps w ++ retry_sleep 0)%list;
            [exact Hs | apply app_nil_r]|].
    split; [rewrite <- Hp; reflexivity|].
    intros r Hr.
    destruct (failed_world_stored
                (datetime.mk (clock (clock_reads w)) datetime.utc) msg c
                (with_clock_read w) _ r Hdb Hr) as (r' & H1 & H2 & H3 & _).
    eauto.
  - intros pre post e first spent Hin Htr Hstream Hpre Hover c msg.
    rewrite _run_task_unfold. cbv zeta.
    rewrite (run_attempt_transient clock provider format_2f git_log settings
               task (clock (clock_reads w)) 0
               (mkFrame (with_clock_read w) 0%Q None) Hin Htr).
    cbn [world accumulated_cost].
    change (provider_calls (with_clock_read w)) with (provider_calls w).
    fold first. fold spent.
    destruct (fed_calling_facts 0 (stream first) (with_clock_read w))
      as (Hp & Hc & Hs & _ & _ & Hdb).
    change (published (with_clock_read w)) with (published w) in Hp.
    change (sleeps (with_clock_read w)) with (sleeps w) in Hs.
    change (provider_calls (with_clock_read w)) with (provider_calls w) in Hc.
    set (w1 := fed clock _ (calling_world 0 (with_clock_read w))
                 (stream first)) in *.
    assert (stream (provider
                      (provider_calls
                         (world (mkFrame w1 spent
                                   (Some (transient_error (outcome first)))))))
            = (pre ++ e :: post)%list) as Hstream'.
    { cbn [world]. rewrite Hc. exact Hstream. }
    rewrite (run_attempt_overrun clock provider format_2f git_log settings
               task (clock (clock_reads w)) 1 _ pre post e Hstream' Hpre
               Hover).
    cbn [world accumulated_cost].
    destruct (fed_calling_facts 1 (pre ++ [e]) w1)
      as (Gp & Gc & Gs & _ & _ & Gdb).
    eexists; eexists; split; [reflexivity|].
    split; [transitivity (S (provider_calls w1)); [exact Gc | congruence]|].
    split; [transitivity (sleeps w1 ++ retry_sleep 1)%list; [exact Gs|];
            rewrite Hs; simpl; rewrite app_nil_r; reflexivity|].
    split; [rewrite <- Hp, <- Gp; reflexivity|].
    intros r Hr.
    destruct (failed_world_stored
                (datetime.mk (clock (clock_reads w)) datetime.utc) msg c
                (with_clock_read w) _ r (evolves_trans _ _ _ Hdb Gdb) Hr)
      as (r' & H1 & H2 & H3 & _).
    eauto.
Qed.


(** Whatever the provider does, the unit keeps every row of the table and
    turns no terminal status into a non-terminal one. *)
Lemma _run_task_evolves (w : World) :
  evolves (background_tasks w)
    (background_tasks
       (snd (_run_task clock provider format_2f git_log settings task w))).
Proof.
  rewrite _run_task_unfold. cbv zeta.
  destruct (run_attempt_any clock provider format_2f git_log settings task
              (clock (clock_reads w)) 0 (mkFrame (with_clock_read w) 0%Q None))
    as (r1 & f1 & Hrun1 & _ & _ & _ & _ & Hdb1).
  rewrite Hrun1. cbn [world] in Hdb1.
  change (background_tasks (with_clock_read w)) with (background_tasks w) in Hdb1.
  destruct r1 as [[|]|e1]; try exact Hdb1.
  destruct (run_attempt_any clock provider format_2f git_log settings task
              (clock (clock_reads w)) 1 f1)
    as (r2 & f2 & Hrun2 & _ & _ & _ & _ & Hdb2).
  rewrite Hrun2.
  pose proof (evolves_trans _ _ _ Hdb1 Hdb2) as Hdb.
  destruct r2 as [[|]|e2]; try exact Hdb.
  destruct (last_error f2); [|exact Hdb].
  simpl. eapply evolves_trans; [exact Hdb|].
  apply evolves_update_status. reflexivity.
Qed.

(** Both calls fail transiently: the record is set to [failed] with the
    message of the last error and one [Failed] event is published; its
    last-output is the one of [task], the record captured at launch. *)
Lemma _run_task_exhausted (w : World) :
  let first := provider (provider_calls w) in
  let second := provider (S (provider_calls w)) in
  let spent := total 0%Q (stream first) in
  within_limit limit 0%Q (stream first) ->
  is_transient (outcome first) = true ->
  within_limit limit spent (stream second) ->
  is_transient (outcome second) = true ->
  let msg := str_exn format_2f (transient_error (outcome second)) in
  exists (w' : World) (duration : Z),
    _run_task clock provider format_2f git_log settings task w = (Ok tt, w')
    /\ provider_calls w' = S (S (provider_calls w))
    /\ published w'
       = (published w
          ++ [TaskFailedEvent task_id duration (total spent (stream second)) msg
                (or_empty (BackgroundTask.last_output task))
                (or_zero (BackgroundTask.chat_id task))
                (BackgroundTask.message_thread_id task)])%list
    /\ (forall r : Row.t,
          stored task_id (background_tasks w) = Some r ->
          exists r' : Row.t,
            stored task_id (background_tasks w') = Some r'
            /\ Row.status r' = "failed"
            /\ Row.error_message r' = Some msg).
Proof.
  intros first second spent Hin Htr Hin2 Htr2 msg.
  pose proof (run_attempt_transient clock provider format_2f git_log settings
                task (clock (clock_reads w)) 0
                (mkFrame (with_clock_read w) 0%Q None) Hin Htr) as Hfirst.
  cbn [world accumulated_cost] in Hfirst.
  change (provider_calls (with_clock_read w)) with (provider_calls w) in Hfirst.
  fold first in Hfirst. fold spent in Hfirst.
  destruct (fed_calling_facts 0 (stream first) (with_clock_read w))
    as (Hp & Hc & _ & _ & _ & Hdb).
  change (published (with_clock_read w)) with (published w) in Hp.
  change (provider_calls (with_clock_read w)) with (provider_calls w) in Hc.
  change (background_tasks (with_clock_read w)) with (background_tasks w) in Hdb.
  set (w1 := fed clock _ (calling_world 0 (with_clock_read w)) (stream first))
    in *.
  rewrite _run_task_unfold. cbv zeta. rewrite Hfirst.
  assert (provider (provider_calls
                      (world (mkFrame w1 spent
                                (Some (transient_error (outcome first))))))
          = second) as Hsecond.
  { cbn [world]. rewrite Hc. reflexivity. }
  pose proof (run_attempt_transient clock provider format_2f git_log settings
                task (clock (clock_reads w)) 1
                (mkFrame w1 spent (Some (transient_error (outcome first)))))
    as Hrun.
  cbv zeta in Hrun. rewrite Hsecond in Hrun.
  rewrite (Hrun Hin2 Htr2).
  cbn [world accumulated_cost last_error].
  destruct (fed_calling_facts 1 (stream second) w1)
    as (Gp & Gc & _ & _ & _ & Gdb).
  eexists; eexists; split; [reflexivity|].
  split; [transitivity (S (provider_calls w1)); [exact Gc | congruence]|].
  split; [rewrite <- Hp, <- Gp; reflexivity|].
  intros r Hr.
  destruct (failed_world_stored
              (datetime.mk (clock (clock_reads w)) datetime.utc) msg
              (total spent (stream second)) w _ r
              (evolves_trans _ _ _ Hdb Gdb) Hr)
    as (r' & H1 & H2 & H3 & _).
  eauto.
Qed.

End RunTask.

(** ** Worked scenarios *)


Lemma within_limit_one (limit acc : Q) (e : StreamEvent.t) :
  (acc + cost_delta_of e <= limit)%Q -> within_limit limit acc [e].
Proof.
  intros H n [H1 H2]. simpl in H2.
  assert (n = 1%nat) as -> by lia. exact H.
Qed.

Lemma cost_limit_aborts_without_retry_witness :
  exists (w' : World) (duration : Z),
    _run_task sample_clock costly_provider sample_format_2f no_commits
      tight_settings sample_task started_world = (Ok tt, w')
    /\ provider_calls w' = 1%nat
    /\ sleeps w' = []
    /\ published w'
       = [TaskStartedEvent "abcd1234" "/p/app" "Fix the bug" 42 100 None;
          TaskFailedEvent "abcd1234" duration (120 # 100)%Q
            "Task abcd1234 exceeded cost limit: $1.20 > $1.00" "" 100 None].
Proof.
  destruct (proj1 (proj2 (cost_limit_aborts_without_retry sample_clock
                            costly_provider sample_format_2f no_commits
                            tight_settings sample_task started_world))
              [StreamEvent.mk (Some (6 # 10)%Q) (Some "Working...") None] []
              (StreamEvent.mk (Some (6 # 10)%Q) (Some "Still working") None)
              eq_refl
              (within_limit_one 1%Q 0%Q
                 (StreamEvent.mk (Some (6 # 10)%Q) (Some "Working...") None)
                 ltac:(vm_compute; discriminate))
              eq_refl)
    as (w' & duration & H & Hc & Hs & Hp & _).
  exists w', duration.
  split; [exact H|]. split; [exact Hc|]. split; [exact Hs|]. exact Hp.
Defined.


(** C7 fails on the code: a provider streams the snippet ["Step 1 done"]
    and then reports an error on both calls. The record ends [failed] with
    the last error message and holds ["Step 1 done"] as last-output, yet
    the [Failed] event carries an empty last-output: it is read from the
    record captured at launch, which the progress updates never touch. *)
Theorem failed_event_misses_last_output :
  exists (w' : World) (duration : Z),
    _run_task sample_clock failing_provider sample_format_2f no_commits
      sample_settings sample_task started_world = (Ok tt, w')
    /\ provider_calls w' = 2%nat
    /\ option_map Row.status (stored "abcd1234" (background_tasks w'))
       = Some "failed"
    /\ option_map Row.error_message (stored "abcd1234" (background_tasks w'))
       = Some (Some "network glitch")
    /\ option_map Row.last_output (stored "abcd1234" (background_tasks w'))
       = Some (Some "Step 1 done")
    /\ published w'
       = [TaskStartedEvent "abcd1234" "/p/app" "Fix the bug" 42 100 None;
          TaskFailedEvent "abcd1234" duration (20 # 100)%Q "network glitch" ""
            100 None].
Proof.
  eexists; eexists. split; [vm_compute; reflexivity|].
  split; [reflexivity|]. split; [reflexivity|]. split; [reflexivity|].
  split; [reflexivity|]. vm_compute. reflexivity.
Qed.

(** ** Terminal statuses *)

Lemma taskstop_unfold (clock : nat -> Z) (task_id : string) (w : World) :
  taskstop clock task_id w
  = match TaskRepository.get task_id (background_tasks w) with
    | Raise e => (Raise e, w)
    | Ok None => (Ok false, w)
    | Ok (Some t) =>
        if negb (String.eqb (BackgroundTask.status t) "running")
        then (Ok false, w)
        else (Ok true, snd (stop_task clock task_id w))
    end.
Proof.
  unfold taskstop, bind, repo_get.
  destruct (TaskRepository.get task_id (background_tasks w)) as [[t|]|e];
    try reflexivity.
  destruct (negb (String.eqb (BackgroundTask.status t) "running"));
    reflexivity.
Qed.

Lemma recover_evolves (clock : nat -> Z) (w : World) :
  evolves (background_tasks w) (background_tasks (snd (recover clock w))).
Proof.
  rewrite recover_unfold.
  destruct (TaskRepository.get_all_running (background_tasks w))
    as [orphaned|e]; [|apply evolves_refl].
  destruct (recover_each_spec clock orphaned w)
    as (w' & H & _ & _ & _ & _ & _ & Hdb).
  rewrite H. simpl.
  exists (background_tasks w'), []. split; [symmetry; apply app_nil_r|].
  eapply Forall2_impl; [exact Hdb|].
  intros r r' (Hid & Hin & Hout). split; [exact Hid|].
  destruct (in_dec string_dec (Row.task_id r)
              (map BackgroundTask.task_id orphaned)) as [Hi|Hn].
  - destruct (Hin Hi) as [-> _]. reflexivity.
  - rewrite (Hout Hn). auto.
Qed.

Lemma start_task_evolves (clock : nat -> Z) settings uuid8 prompt project_path
  user_id chat_id message_thread_id session_id (w : World) :
  evolves (background_tasks w)
    (background_tasks
       (snd (start_task clock settings uuid8 prompt project_path user_id
               chat_id message_thread_id session_id w))).
Proof.
  rewrite start_task_unfold.
  destruct (TaskRepository.get_running_for_project project_path
              (background_tasks w)) as [[e|]|e]; try apply evolves_refl.
  destruct (max_concurrent_tasks settings
            <=? TaskRepository.count_running (background_tasks w));
    [apply evolves_refl|].
  cbv zeta.
  destruct (existsb (TaskRepository.has_id uuid8) (background_tasks w));
    [apply evolves_refl | apply evolves_app].
Qed.

(** C4, as stated, at a concrete input: [stop_task] on the task that just
    completed does not leave its terminal status unchanged; [completed]
    becomes [stopped]. *)
Lemma stop_task_overwrites_completed :
  option_map Row.status (stored "abcd1234" (background_tasks finished_world))
  = Some "completed"
  /\ option_map Row.status
       (stored "abcd1234"
          (background_tasks
             (snd (stop_task sample_clock "abcd1234" finished_world))))
     = Some "stopped".
Proof. split; vm_compute; reflexivity. Qed.

(** * Further properties of the task core *)

(** ** Repository round trips and missing ids *)

Lemma from_row_of_task (task : BackgroundTask.t) :
  BackgroundTask.from_row (TaskRepository.row_of_task task) = Ok task.
Proof. destruct task as [? ? ? ? ? ? ? ? [d|] ? ? ? ? ? ? ? ? ?]; reflexivity. Qed.

(** X1: a record handed to [create] is read back unchanged by [get]
    from the table as SQLite keeps it. [create] binds the timestamps as
    [datetime] values, which SQLite keeps as the texts of sqlite3's
    default adapter, [isoformat(" ")], and the commits as the text
    [json.dumps] makes of them; [from_row] decodes the commits with
    [json.loads] and parses the timestamps with [fromisoformat], and
    gets the same commits and the same readings back, for every record
    whose timestamps are values Python's [datetime] can hold, naive or
    with an offset of whole minutes. The records stored under other ids
    are read as before. *)
Theorem create_then_get (task : BackgroundTask.t)
  (db db' : TaskRepository.table) :
  task_valid task = true ->
  TaskRepository.create task db = Ok db' ->
  Stored.get (BackgroundTask.task_id task) (on_disk db') = Ok (Some task)
  /\ (forall other : string,
        other <> BackgroundTask.task_id task ->
        Stored.get other (on_disk db') = Stored.get other (on_disk db)).
Proof.
  intros Hvalid. unfold TaskRepository.create.
  destruct (existsb (TaskRepository.has_id (BackgroundTask.task_id task)) db)
    eqn:Hfresh; [discriminate|].
  intros [= <-]. split.
  - unfold Stored.get. rewrite find_on_disk.
    change (List.find (TaskRepository.has_id (BackgroundTask.task_id task))
              (db ++ [TaskRepository.row_of_task task])%list)
      with (stored (BackgroundTask.task_id task)
              (db ++ [TaskRepository.row_of_task task])%list).
    rewrite (stored_app_fresh _ _ _ Hfresh).
    unfold TaskRepository.has_id at 1. simpl Row.task_id.
    rewrite String.eqb_refl. cbn [option_map].
    rewrite from_row_of_bound, from_row_of_task; [reflexivity|].
    unfold task_valid in Hvalid. unfold row_valid.
    destruct task as [? ? ? ? ? ? ? ? [d|] ? ? ? ? ? ? ? ? ?]; exact Hvalid.
  - intros other Hne. unfold Stored.get. rewrite !find_on_disk.
    replace (List.find (TaskRepository.has_id other)
               (db ++ [TaskRepository.row_of_task task])%list)
      with (List.find (TaskRepository.has_id other) db); [reflexivity|].
    clear Hfresh. induction db as [|x db IH]; simpl.
    + unfold TaskRepository.has_id. simpl.
      assert (String.eqb (BackgroundTask.task_id task) other = false) as ->
        by (apply String.eqb_neq; congruence).
      reflexivity.
    + destruct (TaskRepository.has_id other x); [reflexivity | exact IH].
Qed.

Lemma create_then_get_witness :
  Stored.get "abcd1234" (on_disk [TaskRepository.row_of_task busy_task])
  = Ok (Some busy_task).
Proof.
  exact (proj1 (create_then_get busy_task [] _ eq_refl eq_refl)).
Defined.

(** The texts SQLite keeps of that record. *)
Example stored_timestamps_of_busy_task :
  let row := Stored.of_bound (TaskRepository.row_of_task busy_task) in
  Stored.created_at row = CText "2026-02-18 10:00:00+00:00"
  /\ Stored.finished_at row = CText "2026-02-18 10:01:00+00:00"
  /\ Stored.last_activity_at row = CText "2026-02-18 10:00:30.250000+00:00".
Proof. vm_compute. repeat split. Qed.

(** X2: the two updates address rows by id and nothing else: on an id that
    is not stored, [update_status] and [update_progress] leave the table
    as it is, and so [stop_task] on an unknown id returns without error,
    without publishing and without touching any record. *)
Theorem unknown_id_is_a_no_op (clock : nat -> Z) (task_id : string) (w : World) :
  stored task_id (background_tasks w) = None ->
  (forall now status kw,
      TaskRepository.update_status now task_id status kw (background_tasks w)
      = background_tasks w)
  /\ (forall now cost out,
        TaskRepository.update_progress now task_id cost out (background_tasks w)
        = background_tasks w)
  /\ (exists w' : World,
        stop_task clock task_id w = (Ok tt, w')
        /\ background_tasks w' = background_tasks w
        /\ published w' = published w).
Proof.
  intros Hnone. split; [|split].
  - intros. apply (stored_update_none task_id
                     (TaskRepository.set_status now status kw) _ Hnone).
  - intros. apply (stored_update_none task_id
                     (TaskRepository.set_progress now cost out) _ Hnone).
  - rewrite stop_task_unfold. eexists; split; [reflexivity|]. simpl.
    split; [|reflexivity].
    apply (stored_update_none task_id
             (TaskRepository.set_status _ "stopped" TaskRepository.no_kwargs)
             _ Hnone).
Qed.

Lemma unknown_id_is_a_no_op_witness :
  exists w' : World,
    stop_task sample_clock "nonexistent" started_world = (Ok tt, w')
    /\ background_tasks w' = background_tasks started_world
    /\ published w' = published started_world.
Proof.
  exact (proj2 (proj2 (unknown_id_is_a_no_op sample_clock "nonexistent"
                         started_world eq_refl))).
Defined.

(** ** The running set *)

Lemma from_rows_length rows ts :
  TaskRepository.from_rows rows = Ok ts -> length ts = length rows.
Proof.
  intros H. apply from_rows_ids in H.
  rewrite <- (length_map BackgroundTask.task_id ts), H. apply length_map.
Qed.

Lemma from_rows_status rows ts :
  TaskRepository.from_rows rows = Ok ts ->
  map BackgroundTask.status ts = map Row.status rows.
Proof.
  revert ts. induction rows as [|r rows IH]; simpl; intros ts.
  - intros [= <-]. reflexivity.
  - destruct (BackgroundTask.from_row r) eqn:Hr; [|discriminate].
    destruct (TaskRepository.from_rows rows); [|discriminate].
    intros [= <-]. simpl. rewrite (from_row_status _ _ Hr).
    f_equal. auto.
Qed.

(** X3: when [get_all_running] returns, it returns the running rows of
    the table in table order, every one with status [running], and as
    many of them as [count_running] counts. *)
Theorem get_all_running_agrees_with_count
  (db : TaskRepository.table) (tasks : list BackgroundTask.t) :
  TaskRepository.get_all_running db = Ok tasks ->
  Z.of_nat (length tasks) = TaskRepository.count_running db
  /\ map BackgroundTask.task_id tasks
     = map Row.task_id (List.filter TaskRepository.is_running db)
  /\ Forall (fun t => BackgroundTask.status t = "running") tasks.
Proof.
  unfold TaskRepository.get_all_running, TaskRepository.count_running.
  intros H. split; [|split].
  - rewrite (from_rows_length _ _ H). reflexivity.
  - apply from_rows_ids. exact H.
  - apply from_rows_status in H.
    assert (Forall (fun s => s = "running")
              (map Row.status (List.filter TaskRepository.is_running db)))
      as Hall.
    { apply Forall_map. apply List.Forall_forall. intros r Hr.
      apply filter_In in Hr as [_ Hr]. apply String.eqb_eq. exact Hr. }
    rewrite <- H in Hall. apply Forall_map in Hall. exact Hall.
Qed.

Lemma get_all_running_agrees_with_count_witness :
  Z.of_nat (length [sample_task])
  = TaskRepository.count_running (background_tasks started_world).
Proof.
  exact (proj1 (get_all_running_agrees_with_count
                  (background_tasks started_world) [sample_task] eq_refl)).
Defined.

Lemma fetch_none (row : option Row.t) :
  TaskRepository.fetch row = Ok None -> row = None.
Proof.
  destruct row as [r|]; [|reflexivity]. simpl.
  destruct (BackgroundTask.from_row r); discriminate.
Qed.

Lemma find_none_filter {A : Type} (f : A -> bool) (l : list A) :
  List.find f l = None -> List.filter f l = [].
Proof.
  induction l as [|x l IH]; simpl; [reflexivity|].
  destruct (f x); [discriminate | exact IH].
Qed.

Lemma running_for_app project_path db1 db2 :
  running_for project_path (db1 ++ db2)%list
  = (running_for project_path db1 ++ running_for project_path db2)%list.
Proof. apply List.filter_app. Qed.

Lemma count_running_app db1 db2 :
  TaskRepository.count_running (db1 ++ db2)%list
  = TaskRepository.count_running db1 + TaskRepository.count_running db2.
Proof.
  unfold TaskRepository.count_running.
  rewrite List.filter_app, length_app. lia.
Qed.

(** X4: admission keeps both concurrency invariants. If no project has
    more than one running record and the running count does not exceed
    [max_concurrent_tasks], the same holds after [start_task], whether it
    succeeded or refused; on success the new record is the only running
    one of its project and the count grew by one. *)
Theorem start_task_keeps_limits (clock : nat -> Z) (settings : Settings)
  (uuid8 prompt project_path : string) (user_id chat_id : Z)
  (message_thread_id : option Z) (session_id : option string) (w : World) :
  exclusive (background_tasks w) ->
  TaskRepository.count_running (background_tasks w)
  <= max_concurrent_tasks settings ->
  let result := start_task clock settings uuid8 prompt project_path user_id
                  chat_id message_thread_id session_id w in
  exclusive (background_tasks (snd result))
  /\ TaskRepository.count_running (background_tasks (snd result))
     <= max_concurrent_tasks settings
  /\ (fst result = Ok uuid8 ->
      running_for project_path (background_tasks (snd result))
      = [TaskRepository.row_of_task
           (new_task clock w uuid8 prompt project_path user_id chat_id
              message_thread_id session_id)]
      /\ TaskRepository.count_running (background_tasks (snd result))
         = TaskRepository.count_running (background_tasks w) + 1).
Proof.
  intros Hex Hcap result. unfold result. rewrite start_task_unfold.
  destruct (TaskRepository.get_running_for_project project_path
              (background_tasks w)) as [[e|]|e] eqn:Hget;
    try (simpl; split; [exact Hex|]; split; [exact Hcap | discriminate]).
  destruct (max_concurrent_tasks settings
            <=? TaskRepository.count_running (background_tasks w)) eqn:Hmax;
    [simpl; split; [exact Hex|]; split; [exact Hcap | discriminate]|].
  cbv zeta.
  destruct (existsb (TaskRepository.has_id uuid8) (background_tasks w));
    [simpl; split; [exact Hex|]; split; [exact Hcap | discriminate]|].
  apply Z.leb_gt in Hmax.
  unfold TaskRepository.get_running_for_project in Hget.
  apply fetch_none in Hget. apply find_none_filter in Hget.
  fold (running_for project_path (background_tasks w)) in Hget.
  cbn [fst snd background_tasks].
  set (row := TaskRepository.row_of_task _).
  assert (running_for project_path [row] = [row]) as Hrow.
  { unfold running_for, row. simpl. rewrite String.eqb_refl. reflexivity. }
  assert (TaskRepository.count_running [row] = 1) as Hone by reflexivity.
  split; [|split].
  - intros p. rewrite running_for_app, length_app.
    destruct (string_dec p project_path) as [->|Hne].
    + rewrite Hget, Hrow. simpl. lia.
    + assert (running_for p [row] = []) as ->.
      { unfold running_for, row. simpl.
        assert (String.eqb project_path p = false) as ->
          by (apply String.eqb_neq; congruence).
        reflexivity. }
      specialize (Hex p). simpl. lia.
  - rewrite count_running_app, Hone. lia.
  - intros _. split.
    + rewrite running_for_app, Hget, Hrow. reflexivity.
    + rewrite count_running_app, Hone. reflexivity.
Qed.

Lemma start_task_keeps_limits_witness :
  exclusive (background_tasks started_world)
  /\ TaskRepository.count_running (background_tasks started_world) <= 3.
Proof.
  destruct (start_task_keeps_limits sample_clock sample_settings "abcd1234"
              "Fix the bug" "/p/app" 42 100 None None empty_world
              ltac:(intros p; simpl; lia) ltac:(vm_compute; discriminate))
    as (Hex & Hcap & _).
  split; [exact Hex | exact Hcap].
Defined.

(** ** The shape of a run *)

Section Shape.

Variable clock : nat -> Z.
Variable provider : nat -> ProviderCall.
Variable format_2f : Q -> string.
Variable git_log : string -> datetime.t -> list commit.
Variable settings : Settings.
Variable task : BackgroundTask.t.

Let task_id : string := BackgroundTask.task_id task.
Let limit : Q := task_max_cost settings.

(** The callback always stops after a prefix of the stream: the whole of
    it when it returns, up to the event that broke the limit when it
    raises. *)
Lemma feed_prefix (events : list StreamEvent.t) :
  forall f : Frame,
  exists (k : nat) (r : result unit),
    (k <= length events)%nat
    /\ feed (stream_callback clock task_id limit) events f
       = (r,
          mkFrame (fed clock task_id (world f) (firstn k events))
            (total (accumulated_cost f) (firstn k events)) (last_error f))
    /\ (r = Ok tt /\ k = length events
        \/ r = Raise (CostLimitExceeded task_id
                        (total (accumulated_cost f) (firstn k events)) limit)
           /\ (limit < total (accumulated_cost f) (firstn k events))%Q).
Proof.
  induction events as [|e events IH]; intros f.
  - exists 0%nat, (Ok tt). split; [simpl; lia|]. split; [|left; auto].
    destruct f; reflexivity.
  - simpl feed. unfold bind. rewrite stream_callback_unfold. cbv zeta.
    destruct (Qle_bool (accumulated_cost f + cost_delta_of e) limit) eqn:E.
    + simpl negb. cbv iota.
      match goal with
      | |- context [feed _ events ?f1] =>
          destruct (IH f1) as (k & r & Hk & Hrun & Hr)
      end.
      exists (S k), r. split; [simpl; lia|]. rewrite Hrun.
      split; [reflexivity|].
      destruct Hr as [[-> ->] | [-> Hover]]; [left; auto | right; auto].
    + simpl negb. cbv iota.
      exists 1%nat. eexists. split; [simpl; lia|]. split; [reflexivity|].
      right. split; [reflexivity|]. simpl.
      apply Qnot_le_lt. intros Hle. apply Qle_bool_iff in Hle. congruence.
Qed.

(** One pass of the retry loop ends in one of four ways. *)
Lemma run_attempt_cases (start_us : Z) (attempt : Z) (f : Frame) :
  let start_time := datetime.mk start_us datetime.utc in
  let call := provider (provider_calls (world f)) in
  exists k : nat,
    (k <= length (stream call))%nat /\
    let w1 := fed clock task_id (calling_world attempt (world f))
                (firstn k (stream call)) in
    let acc := total (accumulated_cost f) (firstn k (stream call)) in
    let run := run_attempt clock provider format_2f git_log settings task
                 start_time attempt f in
    (exists e : ending,
        run = (match e with Cancelled => Raise CancelledError | _ => Ok true end,
               mkFrame (ending_world clock git_log task start_time e acc w1)
                 acc (last_error f))
        /\ returned_by provider (provider_calls (world f)) e)
    \/ (exists e : exn, run = (Ok false, mkFrame w1 acc (Some e))).
Proof.
  intros start_time call.
  destruct (feed_prefix (stream call)
              (mkFrame (calling_world attempt (world f)) (accumulated_cost f)
                 (last_error f))) as (k & r & Hk & Hrun & Hr).
  cbn [world accumulated_cost last_error] in Hrun, Hr.
  exists k. split; [exact Hk|]. cbv zeta. subst start_time.
  rewrite run_attempt_unfold, attempt_try_unfold. fold call.
  fold task_id. fold limit. rewrite Hrun.
  destruct Hr as [[-> _] | [-> _]].
  - destruct (outcome call) as [response|e] eqn:Hout.
    + destruct (LLMResponse.is_error response) eqn:Herr.
      * right. eexists. reflexivity.
      * left. exists (Completed response). split; [reflexivity|].
        split; [exact Hout | exact Herr].
    + destruct e;
        try (right; eexists; reflexivity).
      * left. eexists (Failed _). split; [reflexivity | exact I].
      * left. exists Cancelled. split; [reflexivity | exact I].
  - left. eexists (Failed _). split; [reflexivity | exact I].
Qed.

Lemma fed_feeds (events : list StreamEvent.t) :
  forall (db : TaskRepository.table) (acc : Q) (w : World),
    feeds task_id acc db (background_tasks w) ->
    feeds task_id (total acc events) db
      (background_tasks (fed clock task_id w events)).
Proof.
  induction events as [|e events IH]; intros db acc w H; simpl.
  - exact H.
  - apply IH. unfold progress_step, repo_update_progress, bind, utcnow, modify.
    simpl. apply feeds_step. exact H.
Qed.

Lemma fed_stamps (events : list StreamEvent.t) :
  forall (db : TaskRepository.table) (w : World),
    stamps clock task_id db (background_tasks w) ->
    stamps clock task_id db (background_tasks (fed clock task_id w events)).
Proof.
  induction events as [|e events IH]; intros db w H; simpl.
  - exact H.
  - apply IH. unfold progress_step, repo_update_progress, bind, utcnow, modify.
    simpl. apply stamps_progress. exact H.
Qed.

(** Every run ends as [ending_result]/[ending_world] describe, from a
    world that differs from the initial one by the provider calls made
    and the progress updates of their callbacks. *)
Lemma _run_task_cases_stamps (w : World) :
  exists (e : ending) (acc : Q) (w1 : World) (n : nat),
    _run_task clock provider format_2f git_log settings task w
    = (ending_result e,
       ending_world clock git_log task
         (datetime.mk (clock (clock_reads w)) datetime.utc) e acc w1)
    /\ after_calls task_id w w1 acc
    /\ provider_calls w1 = S n
    /\ returned_by provider n e
    /\ stamps clock task_id (background_tasks w) (background_tasks w1).
Proof.
  rewrite _run_task_unfold. cbv zeta.
  destruct (run_attempt_cases (clock (clock_reads w)) 0
              (mkFrame (with_clock_read w) 0%Q None))
    as (k0 & _ & H0).
  cbv zeta in H0. cbn [world accumulated_cost last_error] in H0.
  set (s0 := firstn k0 _) in H0.
  destruct (fed_calling_facts clock task 0 s0 (with_clock_read w))
    as (Hp & Hc & Hs & Hr & Hh & _).
  change (published (with_clock_read w)) with (published w) in Hp.
  change (sleeps (with_clock_read w)) with (sleeps w) in Hs.
  change (provider_calls (with_clock_read w)) with (provider_calls w) in Hc.
  change (running_tasks (with_clock_read w)) with (running_tasks w) in Hr.
  change (heartbeat_tasks (with_clock_read w)) with (heartbeat_tasks w) in Hh.
  simpl retry_sleep in Hs. rewrite app_nil_r in Hs.
  pose proof (fed_feeds s0 (background_tasks w) 0%Q
                (calling_world 0 (with_clock_read w))
                (feeds_none task_id (background_tasks w))) as Hf.
  pose proof (fed_stamps s0 (background_tasks w)
                (calling_world 0 (with_clock_read w))
                (stamps_none clock task_id (background_tasks w))) as Hst.
  set (w1 := fed clock _ (calling_world 0 (with_clock_read w)) s0) in *.
  assert (after_calls task_id w w1 (total 0%Q s0)) as Hafter1.
  { repeat split; try assumption. left. split; assumption. }
  destruct H0 as [(e & -> & Hret) | (e1 & ->)].
  - exists e, (total 0%Q s0), w1, (provider_calls w).
    split; [destruct e; reflexivity|]. split; [exact Hafter1|].
    split; [exact Hc|]. split; [exact Hret | exact Hst].
  - destruct (run_attempt_cases (clock (clock_reads w)) 1
                (mkFrame w1 (total 0%Q s0) (Some e1)))
      as (k1 & _ & H1).
    cbv zeta in H1. cbn [world accumulated_cost last_error] in H1.
    set (s1 := firstn k1 _) in H1.
    destruct (fed_calling_facts clock task 1 s1 w1)
      as (Gp & Gc & Gs & Gr & Gh & _).
    pose proof (fed_feeds s1 (background_tasks w) (total 0%Q s0)
                  (calling_world 1 w1)) as Gf.
    pose proof (fed_stamps s1 (background_tasks w) (calling_world 1 w1))
      as Gst.
    set (w2 := fed clock _ (calling_world 1 w1) s1) in *.
    assert (background_tasks (calling_world 1 w1) = background_tasks w1)
      as Hsame
        by (destruct (calling_world_quiet 1 w1) as (_ & _ & _ & _ & _ & ->);
            reflexivity).
    assert (after_calls task_id w w2 (total (total 0%Q s0) s1)) as Hafter2.
    { split; [congruence|]. split; [congruence|]. split; [congruence|].
      split.
      - apply Gf. rewrite Hsame. exact Hf.
      - right. split; [congruence|]. rewrite Gs, Hs. reflexivity. }
    assert (stamps clock task_id (background_tasks w) (background_tasks w2))
      as Hst2 by (apply Gst; rewrite Hsame; exact Hst).
    destruct H1 as [(e & -> & Hret) | (e2 & ->)].
    + exists e, (total (total 0%Q s0) s1), w2, (provider_calls w1).
      split; [destruct e; reflexivity|]. split; [exact Hafter2|].
      split; [exact Gc|]. split; [exact Hret | exact Hst2].
    + exists (Failed (str_exn format_2f e2)), (total (total 0%Q s0) s1), w2,
        (provider_calls w1).
      split; [reflexivity|]. split; [exact Hafter2|].
      split; [exact Gc|]. split; [exact I | exact Hst2].
Qed.

Lemma _run_task_cases_response (w : World) :
  exists (e : ending) (acc : Q) (w1 : World) (n : nat),
    _run_task clock provider format_2f git_log settings task w
    = (ending_result e,
       ending_world clock git_log task
         (datetime.mk (clock (clock_reads w)) datetime.utc) e acc w1)
    /\ after_calls task_id w w1 acc
    /\ provider_calls w1 = S n
    /\ returned_by provider n e.
Proof.
  destruct (_run_task_cases_stamps w)
    as (e & acc & w1 & n & H & Hafter & Hn & Hret & _).
  exists e, acc, w1, n.
  split; [exact H|]. split; [exact Hafter|]. split; assumption.
Qed.

Lemma _run_task_cases (w : World) :
  exists (e : ending) (acc : Q) (w1 : World),
    _run_task clock provider format_2f git_log settings task w
    = (ending_result e,
       ending_world clock git_log task
         (datetime.mk (clock (clock_reads w)) datetime.utc) e acc w1)
    /\ after_calls task_id w w1 acc.
Proof.
  destruct (_run_task_cases_response w) as (e & acc & w1 & n & H & Hafter & _).
  exists e, acc, w1. split; assumption.
Qed.

End Shape.

(** ** What progress updates keep *)

Lemma feeds_writes task_id spent db db' :
  feeds task_id spent db db' -> writes task_id db db'.
Proof. induction 1; [apply writes_none | apply writes_progress; assumption]. Qed.

Lemma feeds_stored task_id spent db db' r :
  feeds task_id spent db db' ->
  stored task_id db = Some r ->
  exists r' : Row.t,
    stored task_id db' = Some r'
    /\ (Row.total_cost r' == Row.total_cost r + spent)%Q
    /\ Row.status r' = Row.status r
    /\ Row.finished_at r' = Row.finished_at r
    /\ Row.error_message r' = Row.error_message r
    /\ Row.result_summary r' = Row.result_summary r.
Proof.
  intros H Hr. induction H as [db|spent db db' us cost out H IH].
  - exists r. split; [exact Hr|]. split; [ring|]. repeat split.
  - destruct (IH Hr) as (r1 & H1 & Hc & Hs & Hf & He & Hsum).
    eexists. split; [apply stored_update_progress; exact H1|].
    simpl. split; [rewrite Hc; ring|]. repeat split; assumption.
Qed.

(** Rows of other ids come out of the unit's writes as they went in, and
    no row is added or removed. *)
Lemma writes_others task_id db db' :
  writes task_id db db' ->
  Forall2 (fun r r' => Row.task_id r' = Row.task_id r
                       /\ Row.project_path r' = Row.project_path r
                       /\ (TaskRepository.has_id task_id r = false -> r' = r))
    db db'.
Proof.
  assert (forall (f : Row.t -> Row.t) (db0 db1 : TaskRepository.table),
             (forall r, Row.task_id (f r) = Row.task_id r
                        /\ Row.project_path (f r) = Row.project_path r) ->
             Forall2 (fun r r' => Row.task_id r' = Row.task_id r
                                  /\ Row.project_path r' = Row.project_path r
                                  /\ (TaskRepository.has_id task_id r = false ->
                                      r' = r)) db0 db1 ->
             Forall2 (fun r r' => Row.task_id r' = Row.task_id r
                                  /\ Row.project_path r' = Row.project_path r
                                  /\ (TaskRepository.has_id task_id r = false ->
                                      r' = r)) db0
               (map (fun r => if TaskRepository.has_id task_id r then f r else r)
                  db1)) as Hstep.
  { intros f db0 db1 Hf H. induction H as [|x y l l' (Hid & Hp & Hsame) H IH];
      simpl; constructor; [|exact IH].
    destruct (TaskRepository.has_id task_id y) eqn:Hy.
    - destruct (Hf y) as [Hfi Hfp]. split; [congruence|]. split; [congruence|].
      intros Hx. rewrite (Hsame Hx) in Hy. congruence.
    - auto. }
  induction 1.
  - induction db; constructor; auto.
  - apply Hstep; [intros; split; reflexivity | assumption].
  - apply Hstep; [intros; split; reflexivity | assumption].
Qed.

Lemma settled_refl r : settled r r.
Proof. repeat split; auto. Qed.

Lemma settles_refl db : settles db db.
Proof. induction db; constructor; auto using settled_refl. Qed.

Lemma settles_trans a b c : settles a b -> settles b c -> settles a c.
Proof.
  intros H. revert c. induction H as [|x y l l' Hxy H IH]; intros c Hc.
  - inversion Hc; subst. constructor.
  - inversion Hc as [|y' z l0 l1 Hyz Hrest]; subst. constructor.
    + destruct Hxy as (H1 & H2 & H3), Hyz as (G1 & G2 & G3).
      split; [congruence|]. split; [congruence | auto].
    + apply IH. exact Hrest.
Qed.

Lemma settles_map (f : Row.t -> Row.t) task_id db :
  (forall r, settled r (f r)) ->
  settles db (map (fun r => if TaskRepository.has_id task_id r then f r else r) db).
Proof.
  intros Hf. induction db as [|x db IH]; simpl; constructor; [|exact IH].
  destruct (TaskRepository.has_id task_id x); [apply Hf | apply settled_refl].
Qed.

Lemma settles_update_progress now task_id cost out db :
  settles db (TaskRepository.update_progress now task_id cost out db).
Proof. apply settles_map. intros r. repeat split; auto. Qed.

Lemma settles_update_status now task_id status kw db :
  String.eqb status "running" = false ->
  settles db (TaskRepository.update_status now task_id status kw db).
Proof.
  intros Hs. apply settles_map. intros r. repeat split.
  unfold TaskRepository.is_running. simpl. congruence.
Qed.

Lemma finishing_not_running status :
  TaskRepository.is_finishing status = true ->
  String.eqb status "running" = false.
Proof.
  unfold TaskRepository.is_finishing. intros H.
  apply orb_true_iff in H as [H|H]; apply String.eqb_eq in H; subst;
    reflexivity.
Qed.

Lemma writes_settles task_id db db' : writes task_id db db' -> settles db db'.
Proof.
  induction 1.
  - apply settles_refl.
  - eapply settles_trans; [eassumption | apply settles_update_progress].
  - eapply settles_trans; [eassumption|].
    apply settles_update_status, finishing_not_running. assumption.
Qed.

Lemma settles_filter (g : Row.t -> bool) db db' :
  settles db db' ->
  (forall r r', settled r r' -> g r' = true -> g r = true) ->
  (length (List.filter g db') <= length (List.filter g db))%nat.
Proof.
  intros H Hg. induction H as [|x y l l' Hxy H IH]; simpl; [lia|].
  destruct (g y) eqn:Hy.
  - rewrite (Hg _ _ Hxy Hy). simpl. lia.
  - destruct (g x); simpl; lia.
Qed.

Lemma settles_limits db db' :
  settles db db' ->
  (exclusive db -> exclusive db')
  /\ TaskRepository.count_running db' <= TaskRepository.count_running db.
Proof.
  intros H. split.
  - intros Hex p. specialize (Hex p).
    assert (length (running_for p db') <= length (running_for p db))%nat;
      [|lia].
    apply settles_filter; [exact H|].
    intros r r' (_ & Hp & Hrun) Hg.
    apply andb_true_iff in Hg as [Hpath Hr].
    rewrite Hp in Hpath. rewrite Hpath, (Hrun Hr). reflexivity.
  - unfold TaskRepository.count_running.
    assert (length (List.filter TaskRepository.is_running db')
            <= length (List.filter TaskRepository.is_running db))%nat; [|lia].
    apply settles_filter; [exact H|].
    intros r r' (_ & _ & Hrun). exact Hrun.
Qed.

(** ** Every run of the execution unit *)

Section EveryRun.

Variable clock : nat -> Z.
Variable provider : nat -> ProviderCall.
Variable format_2f : Q -> string.
Variable git_log : string -> datetime.t -> list commit.
Variable settings : Settings.
Variable task : BackgroundTask.t.

Let task_id : string := BackgroundTask.task_id task.
Let run : M World unit :=
  _run_task clock provider format_2f git_log settings task.

Lemma ending_writes (start_time : datetime.t) (e : ending) (acc : Q)
  (w w1 : World) :
  after_calls task_id w w1 acc ->
  writes task_id (background_tasks w)
    (background_tasks (ending_world clock git_log task start_time e acc w1)).
Proof.
  intros (_ & _ & _ & Hf & _). apply feeds_writes in Hf.
  destruct e; simpl.
  - apply writes_finish; [exact Hf | reflexivity].
  - apply writes_finish; [exact Hf | reflexivity].
  - exact Hf.
Qed.

Lemma _run_task_writes (w : World) :
  writes task_id (background_tasks w) (background_tasks (snd (run w))).
Proof.
  unfold run.
  destruct (_run_task_cases clock provider format_2f git_log settings task w)
    as (e & acc & w1 & -> & Hafter).
  apply ending_writes. exact Hafter.
Qed.

Lemma _run_task_stamps (w : World) :
  stamps clock task_id (background_tasks w) (background_tasks (snd (run w))).
Proof.
  unfold run.
  destruct (_run_task_cases_stamps clock provider format_2f git_log settings
              task w) as (e & acc & w1 & n & -> & _ & _ & _ & Hst).
  destruct e; simpl.
  - apply stamps_finish; [exact Hst | reflexivity].
  - apply stamps_finish; [exact Hst | reflexivity].
  - exact Hst.
Qed.

(** X5: whatever the provider does, a run ends in one of three ways: it
    is cancelled, raising [CancelledError] with no event published and the
    status of its record as it was; or it returns having published
    exactly one event, [Completed] with the record [completed], or
    [Failed] with the record [failed] and the event's message as its
    error_message. It never returns without a terminal event and never
    publishes two. *)
Theorem run_ends_with_one_terminal_event (w : World) :
  exists (res : result unit) (w' : World),
    run w = (res, w')
    /\ ((res = Raise CancelledError
         /\ published w' = published w
         /\ (forall r0 : Row.t,
               stored task_id (background_tasks w) = Some r0 ->
               exists r1 : Row.t,
                 stored task_id (background_tasks w') = Some r1
                 /\ Row.status r1 = Row.status r0))
        \/ (res = Ok tt
            /\ (exists (d : Z) (c : Q) (commits : list commit) (summary : string),
                   published w'
                   = (published w
                      ++ [TaskCompletedEvent task_id d c commits summary
                            (or_zero (BackgroundTask.chat_id task))
                            (BackgroundTask.message_thread_id task)])%list)
            /\ (forall r0 : Row.t,
                  stored task_id (background_tasks w) = Some r0 ->
                  exists r1 : Row.t,
                    stored task_id (background_tasks w') = Some r1
                    /\ Row.status r1 = "completed"))
        \/ (res = Ok tt
            /\ exists (d : Z) (c : Q) (msg : string),
                 published w'
                 = (published w
                    ++ [TaskFailedEvent task_id d c msg
                          (or_empty (BackgroundTask.last_output task))
                          (or_zero (BackgroundTask.chat_id task))
                          (BackgroundTask.message_thread_id task)])%list
                 /\ (forall r0 : Row.t,
                       stored task_id (background_tasks w) = Some r0 ->
                       exists r1 : Row.t,
                         stored task_id (background_tasks w') = Some r1
                         /\ Row.status r1 = "failed"
                         /\ Row.error_message r1 = Some msg))).
Proof.
  unfold run.
  destruct (_run_task_cases clock provider format_2f git_log settings task w)
    as (e & acc & w1 & -> & (Hp & _ & _ & Hf & _)).
  eexists; eexists; split; [reflexivity|].
  destruct e as [response|msg|]; simpl.
  - right. left. split; [reflexivity|]. split.
    + rewrite Hp. eexists; eexists; eexists; eexists. reflexivity.
    + intros r0 Hr0.
      destruct (feeds_stored _ _ _ _ _ Hf Hr0) as (r1 & H1 & _).
      eexists. split; [apply stored_update_status; exact H1 | reflexivity].
  - right. right. split; [reflexivity|].
    eexists; eexists; exists msg. rewrite Hp. split; [reflexivity|].
    intros r0 Hr0.
    destruct (feeds_stored _ _ _ _ _ Hf Hr0) as (r1 & H1 & _).
    eexists. split; [apply stored_update_status; exact H1|].
    split; reflexivity.
  - left. split; [reflexivity|]. split; [exact Hp|].
    intros r0 Hr0.
    destruct (feeds_stored _ _ _ _ _ Hf Hr0) as (r1 & H1 & _ & Hs & _).
    eauto.
Qed.

(** X6: a run calls the provider once or twice, never more, and sleeps
    the retry delay exactly when it calls twice; it leaves the manager's
    map of units and the heartbeat map alone. *)
Theorem run_calls_provider_once_or_twice (w : World) :
  let w' := snd (run w) in
  (provider_calls w' = S (provider_calls w) /\ sleeps w' = sleeps w
   \/ provider_calls w' = S (S (provider_calls w))
      /\ sleeps w' = (sleeps w ++ [RETRY_DELAY_SECONDS])%list)
  /\ running_tasks w' = running_tasks w
  /\ heartbeat_tasks w' = heartbeat_tasks w.
Proof.
  unfold run.
  destruct (_run_task_cases clock provider format_2f git_log settings task w)
    as (e & acc & w1 & -> & (_ & Hr & Hh & _ & Hcalls)).
  destruct e; simpl; auto.
Qed.

(** X7: a run changes no record but its own: every row stored under
    another id comes out exactly as it went in, and no row is added or
    removed. *)
Theorem run_touches_only_its_record (w : World) :
  Forall2
    (fun r r' => Row.task_id r' = Row.task_id r
                 /\ Row.project_path r' = Row.project_path r
                 /\ (TaskRepository.has_id task_id r = false -> r' = r))
    (background_tasks w) (background_tasks (snd (run w))).
Proof. apply writes_others, _run_task_writes. Qed.

(** X8: the cost a terminal event carries is the cost stored in the
    record. For a record that holds cost 0 when its unit starts, as
    [start_task] creates it, a [Failed] event carries the record's
    total_cost as the run left it, and a [Completed] event carries that
    total_cost plus the cost of the response the last provider call of
    the run returned; that last amount is never added to the record. *)
Theorem event_cost_matches_record (w : World) (r0 : Row.t) :
  stored task_id (background_tasks w) = Some r0 ->
  (Row.total_cost r0 == 0)%Q ->
  let w' := snd (run w) in
  exists r1 : Row.t,
    stored task_id (background_tasks w') = Some r1
    /\ (published w' = published w
        \/ (exists (d : Z) (cost : Q) (msg : string),
               published w'
               = (published w
                  ++ [TaskFailedEvent task_id d cost msg
                        (or_empty (BackgroundTask.last_output task))
                        (or_zero (BackgroundTask.chat_id task))
                        (BackgroundTask.message_thread_id task)])%list
               /\ (cost == Row.total_cost r1)%Q)
        \/ (exists (d : Z) (cost : Q) (commits : list commit)
               (summary : string) (n : nat) (response : LLMResponse.t),
               published w'
               = (published w
                  ++ [TaskCompletedEvent task_id d cost commits summary
                        (or_zero (BackgroundTask.chat_id task))
                        (BackgroundTask.message_thread_id task)])%list
               /\ provider_calls w' = S n
               /\ outcome (provider n) = Ok response
               /\ (cost == Row.total_cost r1 + LLMResponse.cost response)%Q)).
Proof.
  intros Hr0 Hzero. unfold run.
  destruct (_run_task_cases_response clock provider format_2f git_log settings
              task w)
    as (e & acc & w1 & n & -> & (Hp & _ & _ & Hf & _) & Hn & Hret).
  destruct (feeds_stored _ _ _ _ _ Hf Hr0) as (r1 & H1 & Hcost & _).
  assert (acc == Row.total_cost r1)%Q as Hacc
      by (rewrite Hcost, Hzero; ring).
  destruct e as [response|msg|]; cbn [snd ending_world].
  - eexists. split; [apply stored_update_status; exact H1|].
    right. right. cbn [published completed_world provider_calls].
    rewrite Hp. destruct Hret as [Hout _].
    eexists _, _, _, _, n, response. split; [reflexivity|].
    split; [exact Hn|]. split; [exact Hout|].
    cbn [TaskRepository.set_status Row.total_cost]. rewrite Hacc. reflexivity.
  - eexists. split; [apply stored_update_status; exact H1|].
    right. left. cbn [published failed_world]. rewrite Hp.
    eexists _, _, _. split; [reflexivity|].
    cbn [TaskRepository.set_status Row.total_cost]. exact Hacc.
  - exists r1. split; [exact H1|]. left. exact Hp.
Qed.

(** X9: [_run_task_with_cleanup] never raises, whatever the run did,
    cancellation included, and always releases both registrations: the
    task id is gone from the manager's map and from the heartbeat map;
    table and events are those the run left. *)
Theorem cleanup_always_releases (w : World) :
  exists w' : World,
    _run_task_with_cleanup clock provider format_2f git_log settings task w
    = (Ok tt, w')
    /\ (running_tasks w' !! task_id) = None
    /\ (task_id ∉ heartbeat_tasks w')
    /\ background_tasks w' = background_tasks (snd (run w))
    /\ published w' = published (snd (run w)).
Proof.
  unfold _run_task_with_cleanup, try_finally, try_except. fold run.
  destruct (run w) as [[[]|e] w1]; simpl;
    (eexists; split; [reflexivity|]; simpl;
     split; [apply lookup_delete_eq|];
     split; [apply not_elem_of_difference; right;
             apply elem_of_singleton; reflexivity|];
     split; reflexivity).
Qed.

End EveryRun.

Lemma event_cost_matches_record_witness :
  exists r1 : Row.t,
    stored "abcd1234"
      (background_tasks
         (snd (_run_task sample_clock failing_provider sample_format_2f
                 no_commits sample_settings sample_task started_world)))
    = Some r1.
Proof.
  destruct (event_cost_matches_record sample_clock failing_provider
              sample_format_2f no_commits sample_settings sample_task
              started_world (TaskRepository.row_of_task sample_task) eq_refl
              ltac:(reflexivity))
    as (r1 & H1 & _).
  exists r1. exact H1.
Defined.

(** ** Cancellation *)

Section Cancellation.

Variable clock : nat -> Z.
Variable provider : nat -> ProviderCall.
Variable format_2f : Q -> string.
Variable git_log : string -> datetime.t -> list commit.
Variable settings : Settings.
Variable task : BackgroundTask.t.

Let task_id : string := BackgroundTask.task_id task.
Let limit : Q := task_max_cost settings.


End Cancellation.


(** ** Invariants over all manager operations *)

Lemma recover_each_settles (clock : nat -> Z) (ts : list BackgroundTask.t) :
  forall w : World,
    settles (background_tasks w)
      (background_tasks (snd (recover_each clock ts w))).
Proof.
  induction ts as [|t ts IH]; intros w; simpl.
  - apply settles_refl.
  - unfold bind at 1. unfold repo_update_status, bind, utcnow, modify. simpl.
    eapply settles_trans; [|apply IH]. simpl.
    apply settles_update_status. reflexivity.
Qed.

Lemma recover_settles (clock : nat -> Z) (w : World) :
  settles (background_tasks w) (background_tasks (snd (recover clock w))).
Proof.
  rewrite recover_unfold.
  destruct (TaskRepository.get_all_running (background_tasks w));
    [apply recover_each_settles | apply settles_refl].
Qed.

(** X11: no operation other than admission starts anything: [stop_task],
    [recover] and the execution unit never add a running record, so the
    running count does not grow and per-project exclusivity is kept. *)
Theorem running_set_only_shrinks (clock : nat -> Z)
  (provider : nat -> ProviderCall) (format_2f : Q -> string)
  (git_log : string -> datetime.t -> list commit) (settings : Settings)
  (w : World) :
  let kept (w' : World) :=
    (exclusive (background_tasks w) -> exclusive (background_tasks w'))
    /\ TaskRepository.count_running (background_tasks w')
       <= TaskRepository.count_running (background_tasks w) in
  (forall task_id : string, kept (snd (stop_task clock task_id w)))
  /\ kept (snd (recover clock w))
  /\ (forall task : BackgroundTask.t,
        kept (snd (_run_task clock provider format_2f git_log settings task w))).
Proof.
  intros kept. split; [|split].
  - intros task_id. apply settles_limits. rewrite stop_task_unfold. simpl.
    apply settles_update_status. reflexivity.
  - apply settles_limits, recover_settles.
  - intros task. apply settles_limits.
    eapply writes_settles, _run_task_writes.
Qed.

(** ** What every operation keeps of the rows *)

Section RowInvariant.

Variable clock : nat -> Z.
Variable P : Row.t -> bool.

Hypothesis P_set_status :
  forall (n : nat) (status : string) (kw : TaskRepository.kwargs) (r : Row.t),
    P r = true ->
    P (TaskRepository.set_status (datetime.mk (clock n) datetime.utc) status kw r)
    = true.
Hypothesis P_set_progress :
  forall (n : nat) (cost : Q) (out : option string) (r : Row.t),
    P r = true ->
    P (TaskRepository.set_progress (datetime.mk (clock n) datetime.utc) cost out r)
    = true.
Hypothesis P_new_task :
  forall (w : World) (uuid8 prompt project_path : string) (user_id chat_id : Z)
    (message_thread_id : option Z) (session_id : option string),
    P (TaskRepository.row_of_task
         (new_task clock w uuid8 prompt project_path user_id chat_id
            message_thread_id session_id)) = true.

Lemma forallb_update (f : Row.t -> Row.t) (task_id : string)
  (db : TaskRepository.table) :
  (forall r, P r = true -> P (f r) = true) ->
  forallb P db = true ->
  forallb P (map (fun r => if TaskRepository.has_id task_id r then f r else r) db)
  = true.
Proof.
  intros Hf. induction db as [|x db IH]; simpl; [reflexivity|].
  intros H. apply andb_true_iff in H as [Hx Hrest].
  rewrite (IH Hrest).
  destruct (TaskRepository.has_id task_id x); [rewrite (Hf x Hx) | rewrite Hx];
    reflexivity.
Qed.

Lemma stamps_keep (task_id : string) (db db' : TaskRepository.table) :
  stamps clock task_id db db' -> forallb P db = true -> forallb P db' = true.
Proof.
  induction 1; intros Hdb; [assumption| |].
  - apply forallb_update; [apply P_set_progress | auto].
  - apply forallb_update; [apply P_set_status | auto].
Qed.

Lemma recover_each_keeps (ts : list BackgroundTask.t) :
  forall w : World,
    forallb P (background_tasks w) = true ->
    forallb P (background_tasks (snd (recover_each clock ts w))) = true.
Proof.
  induction ts as [|t ts IH]; intros w Hdb; simpl; [exact Hdb|].
  unfold bind at 1. unfold repo_update_status, bind, utcnow, modify. simpl.
  apply IH. simpl. apply forallb_update; [apply P_set_status | exact Hdb].
Qed.

(** The four operations that write to the table keep a property of
    rows that their stamped updates and the new record keep. *)
Lemma operations_keep (provider : nat -> ProviderCall) (format_2f : Q -> string)
  (git_log : string -> datetime.t -> list commit) (settings : Settings)
  (w : World) :
  forallb P (background_tasks w) = true ->
  (forall uuid8 prompt project_path user_id chat_id message_thread_id
      session_id,
      forallb P
        (background_tasks
           (snd (start_task clock settings uuid8 prompt project_path user_id
                   chat_id message_thread_id session_id w))) = true)
  /\ (forall task_id : string,
        forallb P (background_tasks (snd (stop_task clock task_id w))) = true)
  /\ forallb P (background_tasks (snd (recover clock w))) = true
  /\ (forall task : BackgroundTask.t,
        forallb P
          (background_tasks
             (snd (_run_task clock provider format_2f git_log settings task w)))
        = true).
Proof.
  intros Hdb. split; [|split; [|split]].
  - intros. rewrite start_task_unfold.
    destruct (TaskRepository.get_running_for_project project_path
                (background_tasks w)) as [[e|]|e]; try exact Hdb.
    destruct (max_concurrent_tasks settings
              <=? TaskRepository.count_running (background_tasks w));
      [exact Hdb|].
    cbv zeta.
    destruct (existsb (TaskRepository.has_id uuid8) (background_tasks w));
      [exact Hdb|].
    cbn [snd background_tasks]. rewrite forallb_app, Hdb.
    cbn [forallb]. rewrite P_new_task. reflexivity.
  - intros task_id. rewrite stop_task_unfold. simpl.
    apply forallb_update; [apply P_set_status | exact Hdb].
  - rewrite recover_unfold.
    destruct (TaskRepository.get_all_running (background_tasks w));
      [apply recover_each_keeps; exact Hdb | exact Hdb].
  - intros task. eapply stamps_keep; [apply _run_task_stamps | exact Hdb].
Qed.

End RowInvariant.

(** The stamp of an update, as SQLite keeps it, is read as aware. *)
Lemma stored_stamp_aware (clock : nat -> Z) (n : nat) :
  in_range clock ->
  aware_cell (Stored.as_stored (CDatetime (datetime.mk (clock n) datetime.utc)))
  = true.
Proof.
  intros Hclock.
  rewrite aware_cell_as_stored by (apply valid_stamp; exact Hclock).
  reflexivity.
Qed.

(** What [from_row] makes of a cell that reads as aware. *)
Lemma parse_field_aware (c : cell) :
  aware_cell c = true ->
  exists d : datetime.t,
    BackgroundTask.parse_field c = Ok (CDatetime d)
    /\ datetime.aware d = true.
Proof.
  destruct c as [|s|d]; simpl; [discriminate| |eauto].
  destruct s as [|a s]; [vm_compute; discriminate|].
  destruct (datetime.fromisoformat (String a s)) as [d|e];
    [eauto | discriminate].
Qed.

Lemma from_row_aware (r : Row.t) :
  row_aware r = true ->
  exists t : BackgroundTask.t,
    BackgroundTask.from_row r = Ok t
    /\ datetime.aware (BackgroundTask.created_at t) = true
    /\ datetime.aware (BackgroundTask.last_activity_at t) = true.
Proof.
  unfold row_aware, BackgroundTask.from_row.
  destruct r as [? ? ? ? ? ? ? created finished ? ? ? activity ? ? ? ? ?].
  cbn [Row.created_at Row.last_activity_at Row.finished_at].
  intros H.
  apply andb_true_iff in H as [H Hfin]. apply andb_true_iff in H as [Hc Ha].
  destruct (parse_field_aware created Hc) as (dc & -> & Hdc).
  destruct (parse_field_aware activity Ha) as (da & -> & Hda).
  destruct finished as [|s|d].
  - simpl. eexists. split; [reflexivity|]. split; assumption.
  - destruct (parse_field_aware (CText s) Hfin) as (df & -> & _).
    simpl. eexists. split; [reflexivity|]. split; assumption.
  - simpl. eexists. split; [reflexivity|]. split; assumption.
Qed.

Lemma from_rows_aware (rows : list Row.t) :
  forallb row_aware rows = true ->
  exists ts, TaskRepository.from_rows rows = Ok ts.
Proof.
  induction rows as [|r rows IH]; simpl; intros H; [eauto|].
  apply andb_true_iff in H as [Hr Hrest].
  destruct (from_row_aware r Hr) as (t & -> & _).
  destruct (IH Hrest) as (ts & ->). eauto.
Qed.

Lemma table_aware_filter (g : Row.t -> bool) db :
  table_aware db = true -> forallb row_aware (List.filter g db) = true.
Proof.
  unfold table_aware. induction db as [|x db IH]; simpl; [reflexivity|].
  intros H. apply andb_true_iff in H as [Hx Hrest].
  destruct (g x); simpl; [rewrite Hx|]; auto.
Qed.

Lemma table_aware_find (g : Row.t -> bool) db r :
  table_aware db = true -> List.find g db = Some r -> row_aware r = true.
Proof.
  unfold table_aware. induction db as [|x db IH]; simpl; [discriminate|].
  intros H. apply andb_true_iff in H as [Hx Hrest].
  destruct (g x); [intros [= <-]; exact Hx | auto].
Qed.

Lemma stored_row_aware_set_status (clock : nat -> Z) (n : nat)
  (status : string) (kw : TaskRepository.kwargs) (r : Row.t) :
  in_range clock ->
  Stored.row_aware (Stored.of_bound r) = true ->
  Stored.row_aware
    (Stored.of_bound
       (TaskRepository.set_status (datetime.mk (clock n) datetime.utc) status
          kw r)) = true.
Proof.
  intros Hclock. unfold Stored.row_aware, Stored.of_bound.
  cbn [TaskRepository.set_status Row.created_at Row.last_activity_at
       Row.finished_at Stored.created_at Stored.last_activity_at
       Stored.finished_at].
  intros H.
  apply andb_true_iff in H as [H Hfin]. apply andb_true_iff in H as [Hc _].
  rewrite Hc, (stored_stamp_aware clock n Hclock).
  destruct (TaskRepository.is_finishing status); [|exact Hfin].
  pose proof (stored_stamp_aware clock n Hclock) as Hstamp.
  cbn [Stored.as_stored] in *. rewrite Hstamp. reflexivity.
Qed.

Lemma stored_row_aware_set_progress (clock : nat -> Z) (n : nat) (cost : Q)
  (out : option string) (r : Row.t) :
  in_range clock ->
  Stored.row_aware (Stored.of_bound r) = true ->
  Stored.row_aware
    (Stored.of_bound
       (TaskRepository.set_progress (datetime.mk (clock n) datetime.utc) cost
          out r)) = true.
Proof.
  intros Hclock. unfold Stored.row_aware, Stored.of_bound.
  cbn [TaskRepository.set_progress Row.created_at Row.last_activity_at
       Row.finished_at Stored.created_at Stored.last_activity_at
       Stored.finished_at].
  intros H.
  apply andb_true_iff in H as [H Hfin]. apply andb_true_iff in H as [Hc _].
  rewrite Hc, Hfin, (stored_stamp_aware clock n Hclock). reflexivity.
Qed.

Lemma stored_row_aware_new_task (clock : nat -> Z) (w : World)
  (uuid8 prompt project_path : string) (user_id chat_id : Z)
  (message_thread_id : option Z) (session_id : option string) :
  in_range clock ->
  Stored.row_aware
    (Stored.of_bound
       (TaskRepository.row_of_task
          (new_task clock w uuid8 prompt project_path user_id chat_id
             message_thread_id session_id))) = true.
Proof.
  intros Hclock.
  unfold Stored.row_aware, Stored.of_bound, new_task,
    TaskRepository.row_of_task.
  cbn [Row.created_at Row.last_activity_at Row.finished_at Stored.created_at
       Stored.last_activity_at Stored.finished_at BackgroundTask.created_at
       BackgroundTask.last_activity_at BackgroundTask.finished_at].
  rewrite !(stored_stamp_aware clock _ Hclock). reflexivity.
Qed.

(** X12: what the task core writes keeps the stored timestamps aware.
    SQLite keeps a bound [datetime] as the text of sqlite3's default
    adapter, [isoformat(" ")]. If every timestamp the table holds is
    read as an aware datetime, be it a text [from_row] has to parse, a
    value a converter parsed or a value this code bound, and the clock
    stays within the years 1 to 9999, then the same holds of the table
    SQLite keeps after [start_task], [stop_task], [recover] and a run of
    the execution unit: the text kept of every reading of
    [datetime.now(timezone.utc)] they bind carries its offset and is
    parsed back by [fromisoformat] as an aware value. *)
Theorem aware_tables_stay_aware (clock : nat -> Z)
  (provider : nat -> ProviderCall) (format_2f : Q -> string)
  (git_log : string -> datetime.t -> list commit) (settings : Settings)
  (w : World) :
  in_range clock ->
  stored_aware (background_tasks w) = true ->
  (forall uuid8 prompt project_path user_id chat_id message_thread_id
      session_id,
      stored_aware
        (background_tasks
           (snd (start_task clock settings uuid8 prompt project_path user_id
                   chat_id message_thread_id session_id w))) = true)
  /\ (forall task_id : string,
        stored_aware (background_tasks (snd (stop_task clock task_id w))) = true)
  /\ stored_aware (background_tasks (snd (recover clock w))) = true
  /\ (forall task : BackgroundTask.t,
        stored_aware
          (background_tasks
             (snd (_run_task clock provider format_2f git_log settings task w)))
        = true).
Proof.
  intros Hclock Hdb.
  assert (forall db, stored_aware db
                     = forallb (fun r => Stored.row_aware (Stored.of_bound r)) db)
    as Hview.
  { intros db. unfold stored_aware, on_disk.
    induction db as [|r db IH]; [reflexivity|].
    cbn [map forallb]. rewrite IH. reflexivity. }
  rewrite Hview in Hdb.
  destruct (operations_keep clock
              (fun r => Stored.row_aware (Stored.of_bound r))
              (fun n status kw r =>
                 stored_row_aware_set_status clock n status kw r Hclock)
              (fun n cost out r =>
                 stored_row_aware_set_progress clock n cost out r Hclock)
              (fun w0 uuid8 prompt project_path user_id chat_id
                   message_thread_id session_id =>
                 stored_row_aware_new_task clock w0 uuid8 prompt project_path
                   user_id chat_id message_thread_id session_id Hclock)
              provider format_2f git_log settings w Hdb)
    as (Hstart & Hstop & Hrecover & Hrun).
  split; [|split; [|split]].
  - intros. rewrite Hview. apply Hstart.
  - intros. rewrite Hview. apply Hstop.
  - rewrite Hview. exact Hrecover.
  - intros. rewrite Hview. apply Hrun.
Qed.

Lemma aware_tables_stay_aware_witness :
  stored_aware
    (background_tasks (snd (stop_task day_clock "abcd1234" text_world)))
  = true.
Proof.
  exact (proj1 (proj2 (aware_tables_stay_aware day_clock ok_provider
                         sample_format_2f no_commits sample_settings
                         text_world
                         ltac:(intros n;
                               unfold day_clock, datetime.MAX_US,
                                 datetime._MAXORDINAL, datetime.US_PER_DAY;
                               lia)
                         eq_refl)) "abcd1234").
Defined.

Lemma row_valid_set_status (clock : nat -> Z) (n : nat) (status : string)
  (kw : TaskRepository.kwargs) (r : Row.t) :
  in_range clock ->
  row_valid r = true ->
  row_valid
    (TaskRepository.set_status (datetime.mk (clock n) datetime.utc) status kw r)
  = true.
Proof.
  intros Hclock. unfold row_valid.
  cbn [TaskRepository.set_status Row.created_at Row.last_activity_at
       Row.finished_at valid_cell].
  intros H.
  apply andb_true_iff in H as [H _]. apply andb_true_iff in H as [Hc Hf].
  rewrite Hc, (valid_stamp clock n Hclock).
  destruct (TaskRepository.is_finishing status);
    [cbn [valid_cell]; rewrite (valid_stamp clock n Hclock) | rewrite Hf];
    reflexivity.
Qed.

Lemma row_valid_set_progress (clock : nat -> Z) (n : nat) (cost : Q)
  (out : option string) (r : Row.t) :
  in_range clock ->
  row_valid r = true ->
  row_valid
    (TaskRepository.set_progress (datetime.mk (clock n) datetime.utc) cost out r)
  = true.
Proof.
  intros Hclock. unfold row_valid.
  cbn [TaskRepository.set_progress Row.created_at Row.last_activity_at
       Row.finished_at valid_cell].
  intros H.
  apply andb_true_iff in H as [H _]. apply andb_true_iff in H as [Hc Hf].
  rewrite Hc, Hf, (valid_stamp clock n Hclock). reflexivity.
Qed.

Lemma row_valid_new_task (clock : nat -> Z) (w : World)
  (uuid8 prompt project_path : string) (user_id chat_id : Z)
  (message_thread_id : option Z) (session_id : option string) :
  in_range clock ->
  row_valid
    (TaskRepository.row_of_task
       (new_task clock w uuid8 prompt project_path user_id chat_id
          message_thread_id session_id)) = true.
Proof.
  intros Hclock.
  unfold row_valid, new_task, TaskRepository.row_of_task.
  cbn [Row.created_at Row.last_activity_at Row.finished_at
       BackgroundTask.created_at BackgroundTask.last_activity_at
       BackgroundTask.finished_at valid_cell].
  rewrite !(valid_stamp clock _ Hclock). reflexivity.
Qed.

(** X25: the table of bound values reads like the table SQLite keeps.
    The rows of this development hold the values the code binds; SQLite
    keeps a bound [datetime] as the text [isoformat(" ")] and the
    commits as the text [json.dumps] made, and [from_row] parses the one
    with [fromisoformat] and decodes the other with [json.loads]. On a
    table whose bound timestamps are values Python's [datetime] can
    hold, [get] on what SQLite keeps returns what [get] on the bound
    values returns, a record or the same exception; and with a clock
    within the years 1 to 9999 the table stays such a table through
    [start_task], [stop_task], [recover] and a run of the execution
    unit. *)
Theorem stored_table_reads_alike (clock : nat -> Z)
  (provider : nat -> ProviderCall) (format_2f : Q -> string)
  (git_log : string -> datetime.t -> list commit) (settings : Settings)
  (w : World) :
  in_range clock ->
  forallb row_valid (background_tasks w) = true ->
  (forall task_id : string,
      Stored.get task_id (on_disk (background_tasks w))
      = TaskRepository.get task_id (background_tasks w))
  /\ (forall uuid8 prompt project_path user_id chat_id message_thread_id
        session_id,
        forallb row_valid
          (background_tasks
             (snd (start_task clock settings uuid8 prompt project_path user_id
                     chat_id message_thread_id session_id w))) = true)
  /\ (forall task_id : string,
        forallb row_valid (background_tasks (snd (stop_task clock task_id w)))
        = true)
  /\ forallb row_valid (background_tasks (snd (recover clock w))) = true
  /\ (forall task : BackgroundTask.t,
        forallb row_valid
          (background_tasks
             (snd (_run_task clock provider format_2f git_log settings task w)))
        = true).
Proof.
  intros Hclock Hdb. split.
  - intros task_id. apply get_on_disk. exact Hdb.
  - exact (operations_keep clock row_valid
             (fun n status kw r =>
                row_valid_set_status clock n status kw r Hclock)
             (fun n cost out r =>
                row_valid_set_progress clock n cost out r Hclock)
             (fun w0 uuid8 prompt project_path user_id chat_id
                  message_thread_id session_id =>
                row_valid_new_task clock w0 uuid8 prompt project_path user_id
                  chat_id message_thread_id session_id Hclock)
             provider format_2f git_log settings w Hdb).
Qed.

Lemma stored_table_reads_alike_witness :
  Stored.get "abcd1234" (on_disk (background_tasks started_world))
  = TaskRepository.get "abcd1234" (background_tasks started_world).
Proof.
  exact (proj1 (stored_table_reads_alike day_clock ok_provider sample_format_2f
                  no_commits sample_settings started_world
                  ltac:(intros n;
                        unfold day_clock, datetime.MAX_US,
                          datetime._MAXORDINAL, datetime.US_PER_DAY; lia)
                  eq_refl) "abcd1234").
Defined.

(** On a table whose timestamp cells are all read as aware datetimes,
    texts that [from_row] parses or values already parsed, no read
    fails. *)
Lemma aware_cells_never_fail (clock : nat -> Z) (hb : HeartbeatService)
  (w : World) :
  table_aware (background_tasks w) = true ->
  (forall task_id : string,
      exists found, TaskRepository.get task_id (background_tasks w) = Ok found)
  /\ (forall project_path : string,
        exists found,
          TaskRepository.get_running_for_project project_path
            (background_tasks w) = Ok found)
  /\ (exists tasks, TaskRepository.get_all_running (background_tasks w) = Ok tasks)
  /\ (exists w', recover clock w = (Ok tt, w'))
  /\ (forall task_id : string,
        exists (again : bool) (w' : World),
          _loop_body clock hb task_id w = (Ok again, w')).
Proof.
  intros Ha.
  assert (forall g, exists found,
             TaskRepository.fetch (List.find g (background_tasks w)) = Ok found)
    as Hfetch.
  { intros g. destruct (List.find g (background_tasks w)) as [r|] eqn:Hfind;
      [|simpl; eauto].
    destruct (from_row_aware r (table_aware_find _ _ _ Ha Hfind)) as (t & Ht & _).
    simpl. rewrite Ht. eauto. }
  assert (exists tasks,
             TaskRepository.get_all_running (background_tasks w) = Ok tasks)
    as Hall by (apply from_rows_aware, table_aware_filter, Ha).
  split; [intros; apply Hfetch|]. split; [intros; apply Hfetch|].
  split; [exact Hall|]. split.
  - destruct Hall as (tasks & Hall). rewrite recover_unfold, Hall.
    destruct (recover_each_spec clock tasks w) as (w' & H & _). eauto.
  - intros task_id. rewrite _loop_body_unfold. cbv zeta.
    unfold TaskRepository.get.
    destruct (List.find (TaskRepository.has_id task_id) (background_tasks w))
      as [r|] eqn:Hfind; [|simpl; eauto].
    destruct (from_row_aware r (table_aware_find _ _ _ Ha Hfind))
      as (t & Ht & Hc & Hl).
    simpl. rewrite Ht.
    destruct (negb (String.eqb (BackgroundTask.status t) "running")); [eauto|].
    unfold datetime.sub, datetime.aware in *. simpl.
    destruct (datetime.tzinfo (BackgroundTask.created_at t)); [|discriminate].
    destruct (datetime.tzinfo (BackgroundTask.last_activity_at t));
      [|discriminate].
    destruct (negb (Qle_bool _ (timeout hb))); eauto.
Qed.

Lemma stored_aware_table_aware (db : TaskRepository.table) :
  forallb row_valid db = true ->
  stored_aware db = true ->
  table_aware db = true.
Proof.
  unfold stored_aware, on_disk, table_aware.
  induction db as [|r db IH]; [reflexivity|].
  cbn [map forallb]. intros Hv Ha.
  apply andb_true_iff in Hv as [Hr Hv]. apply andb_true_iff in Ha as [Har Ha].
  rewrite (IH Hv Ha), andb_true_r.
  unfold row_valid in Hr. unfold Stored.row_aware, Stored.of_bound in Har.
  cbn [Stored.created_at Stored.last_activity_at Stored.finished_at] in Har.
  apply andb_true_iff in Hr as [Hr Hva]. apply andb_true_iff in Hr as [Hvc Hvf].
  rewrite (aware_cell_as_stored _ Hvc), (aware_cell_as_stored _ Hva) in Har.
  unfold row_aware.
  apply andb_true_iff in Har as [Har Hfin]. rewrite Har.
  destruct (Row.finished_at r) as [|s|d] eqn:Hf; [reflexivity | exact Hfin |].
  cbn [Stored.as_stored] in Hfin.
  rewrite <- (aware_cell_as_stored (CDatetime d) Hvf). exact Hfin.
Qed.

(** X13: on a table whose stored timestamps are all read as aware
    datetimes no read fails. Let the bound timestamps of the table be
    values Python's [datetime] can hold, and let every timestamp SQLite
    keeps of it, a text with its UTC offset, be read by [from_row] as an
    aware datetime. Then [get] on what SQLite keeps returns, [get],
    [get_running_for_project] and [get_all_running] return, [recover]
    returns, and a heartbeat tick never raises, so it ends in a break, a
    [Timeout] or a [Progress], never in the [TypeError] of mixed
    arithmetic. *)
Theorem aware_tables_never_fail (clock : nat -> Z) (hb : HeartbeatService)
  (w : World) :
  forallb row_valid (background_tasks w) = true ->
  stored_aware (background_tasks w) = true ->
  (forall task_id : string,
      exists found,
        Stored.get task_id (on_disk (background_tasks w)) = Ok found
        /\ TaskRepository.get task_id (background_tasks w) = Ok found)
  /\ (forall project_path : string,
        exists found,
          TaskRepository.get_running_for_project project_path
            (background_tasks w) = Ok found)
  /\ (exists tasks, TaskRepository.get_all_running (background_tasks w) = Ok tasks)
  /\ (exists w', recover clock w = (Ok tt, w'))
  /\ (forall task_id : string,
        exists (again : bool) (w' : World),
          _loop_body clock hb task_id w = (Ok again, w')).
Proof.
  intros Hvalid Hstored.
  pose proof (stored_aware_table_aware _ Hvalid Hstored) as Ha.
  destruct (aware_cells_never_fail clock hb w Ha) as (Hget & Hrest).
  split; [|exact Hrest].
  intros task_id. destruct (Hget task_id) as (found & Hfound).
  exists found. split; [|exact Hfound].
  rewrite get_on_disk by exact Hvalid. exact Hfound.
Qed.

Lemma aware_tables_never_fail_witness :
  exists (again : bool) (w' : World),
    _loop_body sample_clock sample_heartbeat "abcd1234" text_world
    = (Ok again, w').
Proof.
  exact (proj2 (proj2 (proj2 (proj2
           (aware_tables_never_fail sample_clock sample_heartbeat text_world
              eq_refl eq_refl)))) "abcd1234").
Defined.

Lemma recover_no_running (clock : nat -> Z) (w w' : World) :
  recover clock w = (Ok tt, w') ->
  Forall (fun r => Row.status r <> "running") (background_tasks w').
Proof.
  rewrite recover_unfold.
  destruct (TaskRepository.get_all_running (background_tasks w))
    as [orphaned|e] eqn:Hget; [|discriminate].
  destruct (recover_each_spec clock orphaned w)
    as (w1 & H & _ & _ & _ & _ & _ & Hdb).
  rewrite H. intros [= <-].
  unfold TaskRepository.get_all_running in Hget.
  apply from_rows_ids in Hget. rewrite Hget in Hdb.
  apply Forall2_In_l in Hdb.
  eapply Forall2_right; [exact Hdb|].
  intros r r' (Hin & _ & Hyes & Hno). simpl.
  destruct (in_dec string_dec (Row.task_id r)
              (map Row.task_id
                 (List.filter TaskRepository.is_running (background_tasks w))))
    as [Hi|Hn].
  - destruct (Hyes Hi) as [-> _]. discriminate.
  - rewrite (Hno Hn). intros Hst. apply Hn.
    apply in_map. apply filter_In. split; [exact Hin|].
    unfold TaskRepository.is_running. rewrite Hst. reflexivity.
Qed.

(** X14: [recover] is idempotent: once it has returned, a second call
    finds no running record and returns leaving the world exactly as it
    is, without even reading the clock. *)
Theorem recover_twice (clock : nat -> Z) (w w' : World) :
  recover clock w = (Ok tt, w') -> recover clock w' = (Ok tt, w').
Proof.
  intros H. pose proof (recover_no_running clock w w' H) as Hnone.
  rewrite recover_unfold. unfold TaskRepository.get_all_running.
  assert (List.filter TaskRepository.is_running (background_tasks w') = [])
    as ->.
  { induction Hnone as [|x l Hx Hl IH]; simpl; [reflexivity|].
    unfold TaskRepository.is_running at 1.
    apply String.eqb_neq in Hx. rewrite Hx. exact IH. }
  reflexivity.
Qed.

Lemma recover_twice_witness :
  recover sample_clock (snd (recover sample_clock started_world))
  = (Ok tt, snd (recover sample_clock started_world)).
Proof.
  exact (recover_twice sample_clock started_world _ eq_refl).
Defined.

(** ** Every supervisor loop *)

Section EveryLoop.

Variable clock : nat -> Z.
Variable hb : HeartbeatService.
Variable task_id : string.

Lemma _loop_body_cases (w : World) :
  exists (r : result bool) (w1 : World),
    _loop_body clock hb task_id w = (r, w1)
    /\ observes w w1
    /\ ((r = Ok true
         /\ exists p, published w1 = (published w ++ [p])%list
                      /\ is_progress_of task_id p = true)
        \/ (r <> Ok true /\ published w1 = published w)
        \/ (r = Ok false
            /\ exists t, published w1 = (published w ++ [t])%list
                         /\ is_timeout_of task_id t = true)).
Proof.
  rewrite _loop_body_unfold. cbv zeta.
  destruct (TaskRepository.get task_id (background_tasks w)) as [[task|]|e];
    try (eexists; eexists; split; [reflexivity|]; split; [repeat split|];
         right; left; split; [discriminate | reflexivity]).
  destruct (negb (String.eqb (BackgroundTask.status task) "running"));
    [eexists; eexists; split; [reflexivity|]; split; [repeat split|];
     right; left; split; [discriminate | reflexivity]|].
  destruct (datetime.sub _ (BackgroundTask.created_at task));
    [|eexists; eexists; split; [reflexivity|]; split; [repeat split|];
      right; left; split; [discriminate | reflexivity]].
  destruct (datetime.sub _ (BackgroundTask.last_activity_at task));
    [|eexists; eexists; split; [reflexivity|]; split; [repeat split|];
      right; left; split; [discriminate | reflexivity]].
  destruct (negb (Qle_bool _ (timeout hb))).
  - eexists; eexists; split; [reflexivity|]. split; [repeat split|].
    right. right. split; [reflexivity|]. eexists. split; [reflexivity|].
    simpl. apply String.eqb_refl.
  - eexists; eexists; split; [reflexivity|]. split; [repeat split|].
    left. split; [reflexivity|]. eexists. split; [reflexivity|].
    simpl. apply String.eqb_refl.
Qed.

Lemma observes_trans a b c : observes a b -> observes b c -> observes a c.
Proof.
  intros (H1 & H2 & H3 & H4) (G1 & G2 & G3 & G4). repeat split; congruence.
Qed.

Lemma _loop_while_shape (fuel : nat) :
  forall w : World,
  exists (r : result bool) (w' : World) (ps last : list Event),
    _loop_while clock hb task_id fuel w = (r, w')
    /\ observes w w'
    /\ published w' = (published w ++ ps ++ last)%list
    /\ forallb (is_progress_of task_id) ps = true
    /\ (length ps <= fuel)%nat
    /\ (last = []
        \/ exists t, last = [t] /\ is_timeout_of task_id t = true /\ r = Ok true)
    /\ (r = Ok false -> length ps = fuel /\ last = []).
Proof.
  induction fuel as [|fuel IH]; intros w.
  - exists (Ok false), w, [], []. simpl.
    split; [reflexivity|]. split; [repeat split|].
    split; [symmetry; apply app_nil_r|]. repeat split; auto.
  - simpl _loop_while. unfold bind.
    destruct (_loop_body_cases w) as (r & w1 & -> & Hobs & Hcase).
    destruct Hcase as [(-> & p & Hp & Hprog) | [(Hr & Hp) | (-> & t & Hp & Ht)]].
    + destruct (IH w1) as (r2 & w2 & ps & last & -> & Hobs2 & Hp2 & Hps & Hlen
                           & Hlast & Hgo).
      exists r2, w2, (p :: ps), last.
      split; [reflexivity|]. split; [eapply observes_trans; eassumption|].
      split; [rewrite Hp2, Hp, <- app_assoc; reflexivity|].
      split; [simpl; rewrite Hprog, Hps; reflexivity|].
      split; [simpl; lia|]. split; [exact Hlast|].
      intros Hr2. destruct (Hgo Hr2) as [Hl ->]. simpl. auto.
    + destruct r as [[|]|e]; [congruence| |].
      * exists (Ok true), w1, [], []. simpl.
        split; [reflexivity|]. split; [exact Hobs|].
        split; [rewrite Hp; symmetry; apply app_nil_r|].
        split; [reflexivity|]. split; [lia|]. split; [auto | discriminate].
      * exists (Raise e), w1, [], []. simpl.
        split; [reflexivity|]. split; [exact Hobs|].
        split; [rewrite Hp; symmetry; apply app_nil_r|].
        split; [reflexivity|]. split; [lia|]. split; [auto | discriminate].
    + exists (Ok true), w1, [], [t]. simpl.
      split; [reflexivity|]. split; [exact Hobs|].
      split; [exact Hp|]. split; [reflexivity|]. split; [lia|].
      split; [right; eauto | discriminate].
Qed.

(** X15: the supervisor only observes. Whatever it reads, however long
    it runs, [_loop] never raises, never writes to the table, never calls
    the provider and never touches the manager's map of units; once the
    loop has ended, its entry is gone from the heartbeat map, and while
    it is still going the map is as it was. *)
Theorem supervisor_only_observes (fuel : nat) (w : World) :
  exists (ended : bool) (w' : World),
    _loop clock hb task_id fuel w = (Ok ended, w')
    /\ background_tasks w' = background_tasks w
    /\ provider_calls w' = provider_calls w
    /\ running_tasks w' = running_tasks w
    /\ (if ended then task_id ∉ heartbeat_tasks w'
        else heartbeat_tasks w' = heartbeat_tasks w).
Proof.
  unfold _loop.
  destruct (_loop_while_shape fuel w)
    as (r & w1 & ps & last & -> & (Hdb & Hc & Hr & Hh) & _).
  destruct r as [[|]|e]; eexists; eexists; (split; [reflexivity|]); simpl;
    repeat split; try assumption;
    apply not_elem_of_difference; right; apply elem_of_singleton; reflexivity.
Qed.

(** X16: the events of one supervisor are [Progress] events of its task,
    at most one per tick, followed by at most one [Timeout], which is
    then the last event: after a [Timeout] the loop has ended and
    publishes nothing more. *)
Theorem supervisor_events (fuel : nat) (w : World) :
  exists (ended : bool) (w' : World) (ps last : list Event),
    _loop clock hb task_id fuel w = (Ok ended, w')
    /\ published w' = (published w ++ ps ++ last)%list
    /\ forallb (is_progress_of task_id) ps = true
    /\ (length ps <= fuel)%nat
    /\ (last = []
        \/ exists t, last = [t] /\ is_timeout_of task_id t = true
                     /\ ended = true)
    /\ (ended = false -> length ps = fuel /\ last = []).
Proof.
  unfold _loop.
  destruct (_loop_while_shape fuel w)
    as (r & w1 & ps & last & -> & _ & Hp & Hps & Hlen & Hlast & Hgo).
  destruct r as [[|]|e].
  - eexists true, _, ps, last. split; [reflexivity|].
    split; [exact Hp|]. split; [exact Hps|]. split; [exact Hlen|].
    split; [|discriminate].
    destruct Hlast as [-> | (t & -> & Ht & _)]; [left; auto | right; eauto].
  - exists false, w1, ps, last. split; [reflexivity|].
    destruct (Hgo eq_refl) as [Hl ->]. repeat split; auto.
  - eexists true, _, ps, last. split; [reflexivity|].
    split; [exact Hp|]. split; [exact Hps|]. split; [exact Hlen|].
    split; [|discriminate].
    destruct Hlast as [-> | (t & _ & _ & Habs)]; [left; auto | discriminate].
Qed.

End EveryLoop.

(** ** Stage detection *)

Lemma match_here_fold_case (p : string) :
  forall s s' : string,
    fold_case s = fold_case s' -> match_here p s = match_here p s'.
Proof.
  induction p as [|a p IH]; intros s s' H; [reflexivity|].
  destruct s as [|c s], s' as [|c' s']; simpl in *; try discriminate;
    [reflexivity|].
  injection H as Hc Hs. rewrite Hc, (IH _ _ Hs). reflexivity.
Qed.

Lemma search_literal_fold_case (p : string) :
  forall s s' : string,
    fold_case s = fold_case s' -> search_literal p s = search_literal p s'.
Proof.
  intros s. induction s as [|c s IH]; intros s' H.
  - destruct s'; [reflexivity | discriminate].
  - destruct s' as [|c' s']; [discriminate|].
    pose proof (match_here_fold_case p _ _ H) as Hhere.
    simpl in H. injection H as _ Hs.
    simpl search_literal. rewrite Hhere, (IH _ Hs). reflexivity.
Qed.

Lemma search_fold_case (alternatives : list string) (s s' : string) :
  fold_case s = fold_case s' -> search alternatives s = search alternatives s'.
Proof.
  intros H. unfold search.
  induction alternatives as [|p ps IH]; simpl; [reflexivity|].
  rewrite (search_literal_fold_case p _ _ H), IH. reflexivity.
Qed.

(** X17: stage detection ignores letter case: two outputs that differ
    only in the case of their ASCII letters get the same stage label. *)
Theorem parse_stage_ignores_case (s s' : string) :
  fold_case s = fold_case s' -> parse_stage (Some s) = parse_stage (Some s').
Proof.
  intros H. rewrite !parse_stage_label. unfold stage_label, first_match.
  assert (forall table : list (list string * string),
             List.find (fun entry => search (fst entry) s) table
             = List.find (fun entry => search (fst entry) s') table) as ->.
  { induction table as [|x table IH]; simpl; [reflexivity|].
    rewrite (search_fold_case (fst x) _ _ H), IH. reflexivity. }
  reflexivity.
Qed.

Lemma parse_stage_ignores_case_witness :
  parse_stage (Some "GIT PUSH origin") = parse_stage (Some "git push ORIGIN").
Proof. exact (parse_stage_ignores_case _ _ eq_refl). Defined.

Lemma match_here_prefix (p b : string) : match_here p (p +:+ b) = true.
Proof.
  induction p as [|c p IH]; simpl; [reflexivity|].
  rewrite Ascii.eqb_refl. exact IH.
Qed.

Lemma search_literal_anywhere (p a b : string) :
  search_literal p (a +:+ p +:+ b) = true.
Proof.
  induction a as [|c a IH]; simpl.
  - destruct (p +:+ b) eqn:E.
    + simpl. rewrite <- E. rewrite match_here_prefix. reflexivity.
    + simpl. rewrite <- E. rewrite match_here_prefix. reflexivity.
  - rewrite IH. apply orb_true_r.
Qed.

(** X18: a keyword of the table is detected wherever it stands in the
    output: a text containing any alternative of any pattern never gets
    the default label but the label of some pattern of the table, and a
    text containing an alternative of the first pattern gets the first
    label. *)
Theorem keyword_anywhere_is_detected
  (pattern : list string) (stage word a b : string) :
  In (pattern, stage) STAGE_PATTERNS ->
  In word pattern ->
  let text := a +:+ word +:+ b in
  parse_stage (Some text) <> DEFAULT_STAGE
  /\ In (parse_stage (Some text)) (map snd STAGE_PATTERNS)
  /\ (List.hd_error STAGE_PATTERNS = Some (pattern, stage) ->
      parse_stage (Some text) = stage).
Proof.
  intros Hentry Hword text.
  assert (search pattern text = true) as Hsearch.
  { unfold search. apply existsb_exists. exists word.
    split; [exact Hword | apply search_literal_anywhere]. }
  rewrite parse_stage_label. unfold stage_label, first_match.
  destruct (List.find (fun entry => search (fst entry) text) STAGE_PATTERNS)
    as [[pattern' stage']|] eqn:Hfind.
  - pose proof Hfind as Hcopy. apply find_some in Hcopy as [Hin _].
    assert (In stage' (map snd STAGE_PATTERNS)) as Hlabel
      by (apply (in_map snd) in Hin; exact Hin).
    split; [|split; [exact Hlabel|]].
    + simpl in Hlabel.
      repeat (destruct Hlabel as [<- | Hlabel]; [discriminate|]).
      destruct Hlabel.
    + intros Hhd.
      assert (List.find (fun entry => search (fst entry) text) STAGE_PATTERNS
              = Some (pattern, stage)) as Hfirst.
      { revert Hhd. unfold STAGE_PATTERNS. simpl hd_error. intros [= <- <-].
        cbn [List.find fst]. rewrite Hsearch. reflexivity. }
      rewrite Hfirst in Hfind. injection Hfind as _ <-. reflexivity.
  - exfalso. pose proof (find_none _ _ Hfind _ Hentry) as Hno.
    simpl in Hno. congruence.
Qed.

Lemma keyword_anywhere_is_detected_witness :
  parse_stage (Some ("running " +:+ "npm test" +:+ " now")) <> DEFAULT_STAGE.
Proof.
  exact (proj1 (keyword_anywhere_is_detected
                  ["pytest"; "npm test"; "jest"; "make test"] "запускает тесты"
                  "npm test" "running " " now"
                  (or_intror (or_intror (or_introl eq_refl)))
                  (or_intror (or_introl eq_refl)))).
Defined.

(** * Properties of the callers *)

(** ** Splitting at the first separator *)

Lemma split_once_app (sep : ascii) (a b : string) :
  has_char sep a = false -> split_once sep (a +:+ String sep b) = Some (a, b).
Proof.
  induction a as [|c a IH]; simpl.
  - intros _. rewrite Ascii.eqb_refl. reflexivity.
  - intros H. apply orb_false_elim in H as [Hc Ha].
    rewrite Hc, (IH Ha). reflexivity.
Qed.

Lemma split_once_some (sep : ascii) (s a b : string) :
  split_once sep s = Some (a, b) ->
  s = a +:+ String sep b /\ has_char sep a = false /\ has_char sep s = true.
Proof.
  revert a. induction s as [|c s IH]; simpl; intros a; [discriminate|].
  destruct (Ascii.eqb c sep) eqn:Hc.
  - intros [= <- <-]. apply Ascii.eqb_eq in Hc as ->. auto.
  - destruct (split_once sep s) as [[a' b']|]; [|discriminate].
    intros [= <- <-]. destruct (IH a' eq_refl) as (-> & Ha & Hs).
    simpl. rewrite Hc, Ha. auto.
Qed.

Lemma split_once_none (sep : ascii) (s : string) :
  split_once sep s = None -> has_char sep s = false.
Proof.
  induction s as [|c s IH]; simpl; [reflexivity|].
  destruct (Ascii.eqb c sep); [discriminate|].
  destruct (split_once sep s) as [[a b]|]; [discriminate|]. auto.
Qed.

(** ** The commit log *)

Lemma parse_oneline_lines (lines : list string) :
  map oneline (parse_oneline lines) = List.filter (has_char " ") lines
  /\ Forall (fun c => has_char " " (fst c) = false) (parse_oneline lines).
Proof.
  induction lines as [|line lines [IHl IHf]]; simpl; [auto|].
  destruct (split_once " " line) as [[sha message]|] eqn:Hsplit.
  - destruct (split_once_some _ _ _ _ Hsplit) as (Hline & Hsha & Hhas).
    rewrite Hhas. simpl. split.
    + rewrite IHl. unfold oneline. simpl. rewrite Hline. reflexivity.
    + constructor; [exact Hsha | exact IHf].
  - rewrite (split_once_none _ _ Hsplit). auto.
Qed.

Lemma parse_oneline_round_trip (cs : list commit) :
  Forall (fun c => has_char " " (fst c) = false) cs ->
  parse_oneline (map oneline cs) = cs.
Proof.
  induction 1 as [|[sha message] cs Hc _ IH]; simpl; [reflexivity|].
  unfold oneline at 1. simpl fst. simpl snd.
  change (sha +:+ " " +:+ message) with (sha +:+ String " " message).
  rewrite (split_once_app _ _ _ Hc), IH. reflexivity.
Qed.

(** X19: [_collect_commits] reads the log line by line and invents
    nothing. On exit code 0 the commits it returns are, in order, the
    lines that contain a space, each cut at its first space, so that sha,
    space and message give the line back and no sha contains a space;
    lines without a space are dropped. Conversely a log of lines
    [<sha> <message>] whose shas hold no space is read back exactly. A
    non-zero exit code or a subprocess that could not start gives no
    commits. *)
Theorem collect_commits_reads_the_log :
  (forall lines : list string,
      map oneline (_collect_commits (GitExited 0 lines))
      = List.filter (has_char " ") lines
      /\ Forall (fun c => has_char " " (fst c) = false)
           (_collect_commits (GitExited 0 lines)))
  /\ (forall cs : list commit,
        Forall (fun c => has_char " " (fst c) = false) cs ->
        _collect_commits (GitExited 0 (map oneline cs)) = cs)
  /\ (forall (returncode : Z) (lines : list string),
        returncode <> 0 -> _collect_commits (GitExited returncode lines) = [])
  /\ _collect_commits GitNotStarted = [].
Proof.
  split; [|split; [|split]].
  - intros lines. unfold _collect_commits. simpl negb.
    destruct lines as [|line lines]; [simpl; auto|].
    cbn [length Nat.eqb orb]. apply parse_oneline_lines.
  - intros cs Hcs. unfold _collect_commits. simpl negb.
    destruct cs as [|c cs]; [reflexivity|].
    cbn [map length Nat.eqb orb].
    apply (parse_oneline_round_trip (c :: cs) Hcs).
  - intros returncode lines Hrc. unfold _collect_commits.
    apply Z.eqb_neq in Hrc. rewrite Hrc. reflexivity.
  - reflexivity.
Qed.

(** ** Notifications *)

Section Delivery.

Variable bot : nat -> Message.t -> SendResult.
Variable format_2f : Q -> string.

Lemma _send_skips (text : string) (message_thread_id : option Z)
  (reply_markup : option InlineKeyboardMarkup) (tg : Telegram) :
  _send bot 0 text message_thread_id reply_markup tg = (Ok tt, tg).
Proof. reflexivity. Qed.

Lemma _send_sends (chat_id : Z) (text : string) (message_thread_id : option Z)
  (reply_markup : option InlineKeyboardMarkup) (tg : Telegram) :
  chat_id <> 0 ->
  sent_as bot (Message.mk chat_id text "HTML" message_thread_id reply_markup)
    tg (_send bot chat_id text message_thread_id reply_markup tg).
Proof.
  intros Hchat. unfold _send, sent_as.
  apply Z.eqb_neq in Hchat. rewrite Hchat.
  destruct (bot (send_calls tg) _); simpl; auto.
Qed.

End Delivery.

(** X20: a notification goes to the chat of its task or nowhere. Each
    subscribed handler ignores events of other classes and events whose
    chat id is 0: it returns without calling the bot. For an event of its
    class with a chat id it calls [send_message] exactly once, with the
    chat and thread of the event and parse mode HTML; a [TelegramError]
    is swallowed, any other exception of the bot is raised to the caller.
    Every event class has at most one handler, and [Started] has none. *)
Theorem notifications_reach_the_task_chat
  (bot : nat -> Message.t -> SendResult) (format_2f : Q -> string) :
  Forall (delivers bot) (register bot format_2f)
  /\ NoDup (map fst (register bot format_2f))
  /\ ~ In TaskStarted (map fst (register bot format_2f)).
Proof.
  split; [|split].
  - unfold register.
    constructor; [|constructor; [|constructor; [|constructor; [|constructor]]]].
    all: intros event tg; simpl fst; simpl snd; split.
    all: try (intros [Hty | Hchat];
              [destruct event; try reflexivity; destruct Hty; reflexivity
              |destruct event; try reflexivity; simpl in Hchat; subst;
               apply _send_skips]).
    all: intros Hty Hchat; destruct event; try discriminate Hty;
      simpl in Hchat;
      eexists; (split; [|split; [|split; [|apply _send_sends; exact Hchat]]]);
      reflexivity.
  - unfold register. cbn [map fst]. apply NoDup_ListNoDup.
    repeat (apply List.NoDup_cons; [simpl; intuition discriminate|]).
    apply List.NoDup_nil.
  - unfold register. simpl. intuition discriminate.
Qed.

(** ** Buttons and callback data *)

Lemma callback_task_id_of (action task_id : string) :
  has_char ":" action = false ->
  callback_task_id (action +:+ ":" +:+ task_id) = Ok task_id.
Proof.
  intros H. unfold callback_task_id.
  change (action +:+ ":" +:+ task_id) with (action +:+ String ":" task_id).
  rewrite (split_once_app _ _ _ H). reflexivity.
Qed.

Lemma leads_to_action (action label task_id : string) :
  In action task_actions ->
  leads_to task_id (label, action +:+ ":" +:+ task_id).
Proof.
  intros Hin. exists action. split; [exact Hin|]. split; [reflexivity|].
  apply callback_task_id_of.
  simpl in Hin. destruct Hin as [<-|[<-|[<-|[]]]]; reflexivity.
Qed.

Lemma _send_delivered (bot : nat -> Message.t -> SendResult) (chat_id : Z)
  (text : string) (message_thread_id : option Z)
  (reply_markup : option InlineKeyboardMarkup) (tg : Telegram) (m : Message.t) :
  delivered (snd (_send bot chat_id text message_thread_id reply_markup tg))
  = (delivered tg ++ [m])%list ->
  m = Message.mk chat_id text "HTML" message_thread_id reply_markup
  /\ chat_id <> 0.
Proof.
  assert (forall l : list Message.t, l <> (l ++ [m])%list) as Hgrow.
  { intros l H. apply (f_equal (@length _)) in H.
    rewrite length_app in H. simpl in H. lia. }
  unfold _send. destruct (chat_id =? 0) eqn:Hchat; simpl.
  - intros H. destruct (Hgrow _ H).
  - apply Z.eqb_neq in Hchat.
    destruct (bot (send_calls tg) _); simpl; intros H;
      try (destruct (Hgrow _ H)).
    apply app_inv_head in H. injection H as <-. auto.
Qed.

(** X21: every button the task code puts under a message leads back to
    the task it was built for. When a subscribed handler delivers a
    message for an event, each of its buttons carries one of the prefixes
    [taskstop], [tasklog], [taskretry], a colon and the task id of the
    event, and [data.split(":", 1)] in the callbacks reads exactly that
    id back, whatever characters the id holds. A [Failed] message offers
    log and retry, a [Timeout] message retry and stop. The keyboard of
    [taskstop_command] has one row per task, whose single button leads
    to that task. *)
Theorem buttons_lead_back_to_the_task
  (bot : nat -> Message.t -> SendResult) (format_2f : Q -> string)
  (path_name : string -> string) :
  Forall
    (fun entry =>
       forall (event : Event) (tg : Telegram) (m : Message.t),
         delivered (snd (snd entry event tg)) = (delivered tg ++ [m])%list ->
         let task_id := event_task_id event in
         Forall (leads_to task_id) (buttons m)
         /\ (fst entry = TaskFailed ->
             map snd (buttons m)
             = ["tasklog:" +:+ task_id; "taskretry:" +:+ task_id])
         /\ (fst entry = TaskTimeout ->
             map snd (buttons m)
             = ["taskretry:" +:+ task_id; "taskstop:" +:+ task_id]))
    (register bot format_2f)
  /\ (forall tasks : list BackgroundTask.t,
        Forall2
          (fun t row =>
             exists label : string,
               row = [(label, "taskstop:" +:+ BackgroundTask.task_id t)]
               /\ leads_to (BackgroundTask.task_id t)
                    (label, "taskstop:" +:+ BackgroundTask.task_id t))
          tasks (stop_choice path_name tasks)).
Proof.
  assert (forall l : list Message.t, forall m, l <> (l ++ [m])%list) as Hgrow.
  { intros l m H. apply (f_equal (@length _)) in H.
    rewrite length_app in H. simpl in H. lia. }
  split.
  - unfold register.
    constructor; [|constructor; [|constructor; [|constructor; [|constructor]]]].
    all: intros event tg m; simpl fst; simpl snd.
    all: destruct event; simpl;
      try (intros H; destruct (Hgrow _ _ H)).
    all: intros H; apply _send_delivered in H as [-> _]; unfold buttons; simpl.
    all: split; [|split; intros; try discriminate; try reflexivity].
    all: try (constructor; [|constructor; [|constructor]]).
    all: first [apply (leads_to_action "tasklog")
               |apply (leads_to_action "taskretry")
               |apply (leads_to_action "taskstop")|constructor].
    all: simpl; auto.
  - induction tasks as [|t tasks IH]; simpl; constructor; [|exact IH].
    eexists. split; [reflexivity|].
    apply (leads_to_action "taskstop"). simpl. auto.
Qed.

(** ** Stopping and restarting from the chat *)

Lemma get_some task_id db t :
  TaskRepository.get task_id db = Ok (Some t) ->
  exists r : Row.t,
    stored task_id db = Some r /\ BackgroundTask.from_row r = Ok t.
Proof.
  unfold TaskRepository.get, stored, TaskRepository.fetch.
  destruct (List.find (TaskRepository.has_id task_id) db) as [r|];
    [|discriminate].
  destruct (BackgroundTask.from_row r) as [t'|e] eqn:Hr; [|discriminate].
  intros [= <-]. exists r. auto.
Qed.

Lemma from_row_project_path row t :
  BackgroundTask.from_row row = Ok t ->
  BackgroundTask.project_path t = Row.project_path row.
Proof.
  unfold BackgroundTask.from_row.
  repeat match goal with
         | |- context [match ?x with Ok _ => _ | Raise _ => _ end] =>
             destruct x; try discriminate
         end.
  intros [= <-]. reflexivity.
Qed.

Lemma running_for_stopped now task_id kw project_path db :
  running_for project_path
    (TaskRepository.update_status now task_id "stopped" kw db)
  = List.filter (fun r => negb (TaskRepository.has_id task_id r))
      (running_for project_path db).
Proof.
  unfold running_for, TaskRepository.update_status.
  induction db as [|x db IH]; simpl; [reflexivity|].
  destruct (TaskRepository.has_id task_id x) eqn:Hx.
  - cbn [TaskRepository.set_status Row.project_path Row.status
         TaskRepository.is_running].
    change (TaskRepository.is_running
              (TaskRepository.set_status now "stopped" kw x)) with false.
    rewrite andb_false_r.
    destruct (String.eqb (Row.project_path x) project_path
              && TaskRepository.is_running x); simpl; [rewrite Hx|];
      simpl; exact IH.
  - destruct (String.eqb (Row.project_path x) project_path
              && TaskRepository.is_running x); simpl; [rewrite Hx; simpl|];
      rewrite IH; reflexivity.
Qed.

Lemma count_running_stopped now task_id kw db r :
  stored task_id db = Some r ->
  TaskRepository.is_running r = true ->
  TaskRepository.count_running
    (TaskRepository.update_status now task_id "stopped" kw db)
  < TaskRepository.count_running db.
Proof.
  unfold TaskRepository.count_running, stored. intros Hfind Hrun.
  assert (forall l,
             (length (List.filter TaskRepository.is_running
                        (TaskRepository.update_status now task_id "stopped"
                           kw l))
              <= length (List.filter TaskRepository.is_running l))%nat)
    as Hle.
  { intros l. apply settles_filter.
    - apply settles_update_status. reflexivity.
    - intros a b (_ & _ & H). exact H. }
  induction db as [|x db IH]; simpl in *; [discriminate|].
  destruct (TaskRepository.has_id task_id x) eqn:Hx.
  - injection Hfind as ->. rewrite Hrun.
    change (TaskRepository.is_running
              (TaskRepository.set_status now "stopped" kw r)) with false.
    simpl. specialize (Hle db). lia.
  - specialize (IH Hfind).
    destruct (TaskRepository.is_running x); simpl; lia.
Qed.

Lemma existsb_update_status now task_id status kw other db :
  existsb (TaskRepository.has_id other)
    (TaskRepository.update_status now task_id status kw db)
  = existsb (TaskRepository.has_id other) db.
Proof.
  unfold TaskRepository.update_status.
  induction db as [|x db IH]; simpl; [reflexivity|].
  rewrite IH. destruct (TaskRepository.has_id task_id x); reflexivity.
Qed.

Lemma stored_in task_id db r :
  stored task_id db = Some r -> In r db /\ Row.task_id r = task_id.
Proof.
  unfold stored. intros H. apply find_some in H as [Hin Hid].
  split; [exact Hin | apply String.eqb_eq; exact Hid].
Qed.

Lemma stored_app_found task_id db rest r :
  stored task_id db = Some r -> stored task_id (db ++ rest)%list = Some r.
Proof.
  unfold stored. induction db as [|x db IH]; simpl; [discriminate|].
  destruct (TaskRepository.has_id task_id x); auto.
Qed.

Section Retry.

Variable clock : nat -> Z.
Variable format_2f : Q -> string.
Variable escape_html : string -> string.
Variable settings : Settings.

(** X22: retrying a running task always restarts it. When the retry
    button of a task that is still running is pressed, with at most one
    running record per project, the running count within the cap and a
    fresh id drawn, the callback stops the old record and admits the new
    one: admission cannot refuse, because the stop has freed both the
    project and a slot. The new record is running with the prompt,
    project, user, session and thread of the old one, in the old chat or,
    when that is missing or 0, in the chat of the button; one [Started]
    event is published, and both limits still hold. *)
Theorem retry_restarts_a_running_task (uuid8 : string) (query_chat_id : Z)
  (data task_id : string) (t : BackgroundTask.t) (w : World) :
  callback_task_id data = Ok task_id ->
  TaskRepository.get task_id (background_tasks w) = Ok (Some t) ->
  BackgroundTask.status t = "running" ->
  exclusive (background_tasks w) ->
  TaskRepository.count_running (background_tasks w)
  <= max_concurrent_tasks settings ->
  stored uuid8 (background_tasks w) = None ->
  exists (w' : World) (old : Row.t) (new : BackgroundTask.t),
    _taskretry_callback clock format_2f escape_html settings uuid8
      query_chat_id true data w
    = (Ok (html ("🔄 Задача перезапущена" +:+ LF
                 +:+ "Новый ID: <code>" +:+ uuid8 +:+ "</code>")), w')
    /\ stored task_id (background_tasks w') = Some old
    /\ Row.status old = "stopped"
    /\ TaskRepository.get uuid8 (background_tasks w') = Ok (Some new)
    /\ BackgroundTask.status new = "running"
    /\ BackgroundTask.prompt new = BackgroundTask.prompt t
    /\ BackgroundTask.project_path new = BackgroundTask.project_path t
    /\ BackgroundTask.user_id new = BackgroundTask.user_id t
    /\ BackgroundTask.session_id new = BackgroundTask.session_id t
    /\ BackgroundTask.message_thread_id new
       = BackgroundTask.message_thread_id t
    /\ BackgroundTask.chat_id new
       = Some (chat_or (BackgroundTask.chat_id t) query_chat_id)
    /\ published w'
       = (published w
          ++ [TaskStartedEvent uuid8 (BackgroundTask.project_path t)
                (BackgroundTask.prompt t) (BackgroundTask.user_id t)
                (chat_or (BackgroundTask.chat_id t) query_chat_id)
                (BackgroundTask.message_thread_id t)])%list
    /\ exclusive (background_tasks w')
    /\ TaskRepository.count_running (background_tasks w')
       <= max_concurrent_tasks settings.
Proof.
  intros Hdata Hget Hstatus Hex Hcap Hfresh.
  destruct (get_some _ _ _ Hget) as (r0 & Hstored & Hrow).
  assert (TaskRepository.is_running r0 = true) as Hrun.
  { unfold TaskRepository.is_running.
    rewrite <- (from_row_status _ _ Hrow), Hstatus. reflexivity. }
  assert (Row.project_path r0 = BackgroundTask.project_path t) as Hproj
    by (symmetry; apply from_row_project_path; exact Hrow).
  destruct (stored_in _ _ _ Hstored) as [Hin Hid].
  set (now := datetime.mk (clock (clock_reads w)) datetime.utc).
  set (db1 := TaskRepository.update_status now task_id "stopped"
                TaskRepository.no_kwargs (background_tasks w)).
  assert (settles (background_tasks w) db1) as Hsettles
    by (apply settles_update_status; reflexivity).
  destruct (settles_limits _ _ Hsettles) as [Hex1 _].
  specialize (Hex1 Hex).
  assert (running_for (BackgroundTask.project_path t) db1 = []) as Hfree.
  { unfold db1. rewrite running_for_stopped.
    pose proof (Hex (BackgroundTask.project_path t)) as Hone.
    assert (In r0 (running_for (BackgroundTask.project_path t)
                     (background_tasks w))) as Hr0.
    { unfold running_for. apply filter_In. split; [exact Hin|].
      rewrite Hproj, String.eqb_refl, Hrun. reflexivity. }
    destruct (running_for (BackgroundTask.project_path t) (background_tasks w))
      as [|x [|y l]]; simpl in *; try lia.
    destruct Hr0 as [->|[]].
    unfold TaskRepository.has_id. rewrite Hid, String.eqb_refl. reflexivity. }
  assert (TaskRepository.count_running db1
          < TaskRepository.count_running (background_tasks w)) as Hless
    by (apply (count_running_stopped _ _ _ _ r0); assumption).
  assert (existsb (TaskRepository.has_id uuid8) db1 = false) as Hnew.
  { unfold db1. rewrite existsb_update_status.
    apply stored_none_existsb. exact Hfresh. }
  set (w1 := mkWorld db1 (published w) (provider_calls w) (sleeps w)
               (S (clock_reads w)) (delete task_id (running_tasks w))
               (heartbeat_tasks w ∖ {[ task_id ]})).
  set (task := new_task clock w1 uuid8 (BackgroundTask.prompt t)
                 (BackgroundTask.project_path t) (BackgroundTask.user_id t)
                 (chat_or (BackgroundTask.chat_id t) query_chat_id)
                 (BackgroundTask.message_thread_id t)
                 (BackgroundTask.session_id t)).
  assert (start_task clock settings uuid8 (BackgroundTask.prompt t)
            (BackgroundTask.project_path t) (BackgroundTask.user_id t)
            (chat_or (BackgroundTask.chat_id t) query_chat_id)
            (BackgroundTask.message_thread_id t)
            (BackgroundTask.session_id t) w1
          = (Ok uuid8,
             mkWorld (db1 ++ [TaskRepository.row_of_task task])%list
               (published w
                ++ [TaskStartedEvent uuid8 (BackgroundTask.project_path t)
                      (BackgroundTask.prompt t) (BackgroundTask.user_id t)
                      (chat_or (BackgroundTask.chat_id t) query_chat_id)
                      (BackgroundTask.message_thread_id t)])%list
               (provider_calls w) (sleeps w) (S (S (S (clock_reads w))))
               (<[ uuid8 := task ]> (delete task_id (running_tasks w)))
               (heartbeat_tasks w ∖ {[ task_id ]} ∪ {[ uuid8 ]}))) as Hstart.
  { rewrite start_task_unfold. cbn [background_tasks w1].
    unfold TaskRepository.get_running_for_project.
    fold (running_for (BackgroundTask.project_path t) db1).
    assert (List.find
              (fun r => String.eqb (Row.project_path r)
                          (BackgroundTask.project_path t)
                        && TaskRepository.is_running r) db1 = None) as ->.
    { destruct (List.find _ db1) as [x|] eqn:Hfind; [|reflexivity].
      apply find_some in Hfind.
      assert (In x (running_for (BackgroundTask.project_path t) db1)) as Hx
        by (apply filter_In; exact Hfind).
      rewrite Hfree in Hx. destruct Hx. }
    cbn [TaskRepository.fetch].
    assert ((max_concurrent_tasks settings
             <=? TaskRepository.count_running db1) = false) as ->
      by (apply Z.leb_gt; lia).
    cbv zeta. rewrite Hnew. reflexivity. }
  eexists _, (TaskRepository.set_status now "stopped" TaskRepository.no_kwargs r0),
    task.
  split.
  { unfold _taskretry_callback, bind, of_result. rewrite Hdata.
    cbn [negb]. unfold repo_get at 1. rewrite Hget. rewrite Hstatus.
    cbn [String.eqb Ascii.eqb Bool.eqb].
    unfold try_except at 1. rewrite stop_task_unfold.
    fold now. fold db1. fold w1.
    unfold try_except, ret. rewrite Hstart. reflexivity. }
  cbn [background_tasks published].
  assert (uuid8 <> task_id) as Hne by (intros ->; congruence).
  split.
  { apply stored_app_found. unfold db1.
    apply stored_update_status. exact Hstored. }
  split; [reflexivity|].
  split.
  { unfold TaskRepository.get. fold (stored uuid8 (db1 ++ [TaskRepository.row_of_task task])%list).
    rewrite (stored_app_fresh _ _ _ Hnew).
    unfold TaskRepository.has_id. cbn [TaskRepository.row_of_task Row.task_id task new_task BackgroundTask.task_id].
    rewrite String.eqb_refl. unfold TaskRepository.fetch.
    rewrite from_row_of_task. reflexivity. }
  repeat (split; [reflexivity|]).
  split.
  - intros p. rewrite running_for_app, length_app.
    destruct (string_dec p (BackgroundTask.project_path t)) as [->|Hp].
    + rewrite Hfree. simpl. unfold running_for. simpl.
      destruct (_ && _); simpl; lia.
    + assert (running_for p [TaskRepository.row_of_task task] = []) as ->.
      { unfold running_for. simpl.
        assert (String.eqb (BackgroundTask.project_path t) p = false) as ->
          by (apply String.eqb_neq; congruence).
        reflexivity. }
      specialize (Hex1 p). simpl. lia.
  - rewrite count_running_app.
    assert (TaskRepository.count_running [TaskRepository.row_of_task task] = 1)
      as -> by reflexivity.
    lia.
Qed.

End Retry.

Lemma retry_restarts_a_running_task_witness :
  exists w' : World,
    fst (_taskretry_callback sample_clock sample_format_2f (fun s => s)
           sample_settings "beef5678" 100 true "taskretry:abcd1234"
           started_world)
    = Ok (html ("🔄 Задача перезапущена" +:+ LF
                +:+ "Новый ID: <code>beef5678</code>"))
    /\ TaskRepository.count_running (background_tasks w') <= 3.
Proof.
  destruct (retry_restarts_a_running_task sample_clock sample_format_2f
              (fun s => s) sample_settings "beef5678" 100
              "taskretry:abcd1234" "abcd1234" sample_task started_world
              eq_refl eq_refl eq_refl
              ltac:(intros p; unfold running_for; simpl;
                    destruct (_ && _); simpl; lia)
              ltac:(vm_compute; discriminate) eq_refl)
    as (w' & old & new & Hrun & H).
  exists w'. split.
  - rewrite Hrun. reflexivity.
  - apply H.
Defined.

(** ** What the chat handlers leave alone *)

Lemma unique_ids_same db r r' :
  unique_ids db -> In r db -> In r' db -> Row.task_id r = Row.task_id r' ->
  r = r'.
Proof.
  unfold unique_ids. induction db as [|x db IH]; simpl; [intros _ []|].
  intros Hnd Hr Hr' Hid. inversion Hnd as [|? ? Hx Hrest]; subst.
  destruct Hr as [->|Hr], Hr' as [->|Hr']; auto.
  - destruct Hx. rewrite Hid. apply in_map. exact Hr'.
  - destruct Hx. rewrite <- Hid. apply in_map. exact Hr.
Qed.

Lemma stopped_one_keeps task_id db db' :
  unique_ids db -> stopped_one task_id db db' -> keeps_all_but task_id db db'.
Proof.
  intros Hu (us & r0 & Hin0 & Hrun0 & Hid0 & ->) r Hin Hr.
  assert (TaskRepository.has_id task_id r = false) as Hno.
  { unfold TaskRepository.has_id. apply String.eqb_neq. intros Hid.
    destruct Hr as [Hr|Hr]; [|exact (Hr Hid)].
    assert (r = r0) as -> by (apply (unique_ids_same db); congruence).
    congruence. }
  unfold TaskRepository.update_status. apply in_map_iff.
  exists r. rewrite Hno. auto.
Qed.

Lemma keeps_all_but_refl task_id db : keeps_all_but task_id db db.
Proof. intros r Hin _. exact Hin. Qed.

Lemma keeps_all_but_app task_id db db' rest :
  keeps_all_but task_id db db' -> keeps_all_but task_id db (db' ++ rest)%list.
Proof. intros H r Hin Hr. apply in_or_app. left. apply H; assumption. Qed.

Lemma get_running task_id db t :
  TaskRepository.get task_id db = Ok (Some t) ->
  BackgroundTask.status t = "running" ->
  exists r0 : Row.t,
    In r0 db /\ TaskRepository.is_running r0 = true
    /\ Row.task_id r0 = task_id.
Proof.
  intros Hget Hstatus.
  destruct (get_some _ _ _ Hget) as (r0 & Hstored & Hrow).
  destruct (stored_in _ _ _ Hstored) as [Hin Hid].
  exists r0. split; [exact Hin|]. split; [|exact Hid].
  unfold TaskRepository.is_running.
  rewrite <- (from_row_status _ _ Hrow), Hstatus. reflexivity.
Qed.

Lemma get_running_for_project_running project_path db t :
  TaskRepository.get_running_for_project project_path db = Ok (Some t) ->
  exists r0 : Row.t,
    In r0 db /\ TaskRepository.is_running r0 = true
    /\ Row.task_id r0 = BackgroundTask.task_id t.
Proof.
  unfold TaskRepository.get_running_for_project, TaskRepository.fetch.
  destruct (List.find _ db) as [r0|] eqn:Hfind; [|discriminate].
  destruct (BackgroundTask.from_row r0) as [t'|e] eqn:Hrow; [|discriminate].
  intros [= <-]. apply find_some in Hfind as [Hin Hrun].
  apply andb_true_iff in Hrun as [_ Hrun].
  exists r0. split; [exact Hin|]. split; [exact Hrun|].
  symmetry. apply from_row_task_id. exact Hrow.
Qed.

Lemma get_all_running_single db t :
  TaskRepository.get_all_running db = Ok [t] ->
  exists r0 : Row.t,
    In r0 db /\ TaskRepository.is_running r0 = true
    /\ Row.task_id r0 = BackgroundTask.task_id t.
Proof.
  unfold TaskRepository.get_all_running. intros H.
  pose proof (from_rows_ids _ _ H) as Hids.
  destruct (List.filter TaskRepository.is_running db) as [|r0 [|r1 l]] eqn:Hf;
    try discriminate.
  assert (In r0 (List.filter TaskRepository.is_running db)) as Hin
    by (rewrite Hf; left; reflexivity).
  apply filter_In in Hin as [Hin Hrun].
  exists r0. split; [exact Hin|]. split; [exact Hrun|].
  simpl in Hids. congruence.
Qed.

Section ChatHandlers.

Variable clock : nat -> Z.
Variable format_2f : Q -> string.
Variable escape_html : string -> string.
Variable path_name : string -> string.

Lemma try_stop_unfold (task_id : string) (on_error : string -> Reply.t)
  (w : World) :
  try_stop clock format_2f task_id on_error w
  = (Ok None, snd (stop_task clock task_id w)).
Proof. unfold try_stop, try_except, bind. rewrite stop_task_unfold. reflexivity. Qed.

Lemma stop_task_stopped_one (task_id : string) (w : World) (r0 : Row.t) :
  In r0 (background_tasks w) ->
  TaskRepository.is_running r0 = true ->
  Row.task_id r0 = task_id ->
  stopped_one task_id (background_tasks w)
    (background_tasks (snd (stop_task clock task_id w))).
Proof.
  intros Hin Hrun Hid. rewrite stop_task_unfold.
  exists (clock (clock_reads w)), r0. auto.
Qed.

Lemma _taskstop_callback_table (task_manager : bool) (data : string)
  (w : World) :
  untouched_or_stopped w
    (snd (_taskstop_callback clock format_2f escape_html task_manager data w)).
Proof.
  unfold _taskstop_callback, bind, of_result.
  destruct (callback_task_id data) as [task_id|e]; [|left; reflexivity].
  destruct task_manager; [|left; reflexivity]. cbn [negb].
  unfold repo_get at 1.
  destruct (TaskRepository.get task_id (background_tasks w))
    as [[t|]|e] eqn:Hget; try (left; reflexivity).
  unfold not_running.
  destruct (String.eqb (BackgroundTask.status t) "running") eqn:Hs;
    [|left; reflexivity].
  apply String.eqb_eq in Hs. cbn [negb].
  rewrite try_stop_unfold. cbn [snd]. right. exists task_id.
  destruct (get_running _ _ _ Hget Hs) as (r0 & Hin & Hrun & Hid).
  apply (stop_task_stopped_one _ _ r0); assumption.
Qed.

Lemma taskstop_command_table (task_manager : bool) (args : list string)
  (project_path : option string) (w : World) :
  untouched_or_stopped w
    (snd (taskstop_command clock format_2f escape_html path_name task_manager
            args project_path w)).
Proof.
  unfold taskstop_command.
  destruct task_manager; [|left; reflexivity]. cbn [negb].
  destruct args as [|task_id args].
  - unfold bind.
    assert (forall t : BackgroundTask.t,
               (exists r0 : Row.t,
                   In r0 (background_tasks w)
                   /\ TaskRepository.is_running r0 = true
                   /\ Row.task_id r0 = BackgroundTask.task_id t) ->
               untouched_or_stopped w
                 (snd (match try_stop clock format_2f (BackgroundTask.task_id t)
                               (stop_error escape_html None) w with
                       | (Ok failure, s') =>
                           match failure with
                           | Some reply => ret reply
                           | None =>
                               ret (stopped_reply (BackgroundTask.task_id t))
                           end s'
                       | (Raise e, s') => (Raise e, s')
                       end))) as Hstop.
    { intros t (r0 & Hin & Hrun & Hid). rewrite try_stop_unfold.
      cbn [snd ret]. right. exists (BackgroundTask.task_id t).
      apply (stop_task_stopped_one _ _ r0); assumption. }
    destruct project_path as [p|].
    + unfold repo_get_running_for_project at 1.
      destruct (TaskRepository.get_running_for_project p (background_tasks w))
        as [[t|]|e] eqn:Hget; try (left; reflexivity).
      * cbn [ret]. apply Hstop.
        apply (get_running_for_project_running p). exact Hget.
      * unfold repo_get_all_running at 1.
        destruct (TaskRepository.get_all_running (background_tasks w))
          as [[|t [|t' tasks]]|e] eqn:Hall; try (left; reflexivity).
        cbn [ret]. apply Hstop. apply get_all_running_single. exact Hall.
    + cbn [ret]. unfold repo_get_all_running at 1.
      destruct (TaskRepository.get_all_running (background_tasks w))
        as [[|t [|t' tasks]]|e] eqn:Hall; try (left; reflexivity).
      cbn [ret]. apply Hstop. apply get_all_running_single. exact Hall.
  - unfold bind. unfold repo_get at 1.
    destruct (TaskRepository.get task_id (background_tasks w))
      as [[t|]|e] eqn:Hget; try (left; reflexivity).
    unfold not_running.
    destruct (String.eqb (BackgroundTask.status t) "running") eqn:Hs;
      [|left; reflexivity].
    apply String.eqb_eq in Hs. cbn [negb].
    rewrite try_stop_unfold. cbn [snd]. right. exists task_id.
    destruct (get_running _ _ _ Hget Hs) as (r0 & Hin & Hrun & Hid).
    apply (stop_task_stopped_one _ _ r0); assumption.
Qed.

End ChatHandlers.

Section ChatHandlersKeep.

Variable clock : nat -> Z.
Variable format_2f : Q -> string.
Variable escape_html : string -> string.
Variable path_name : string -> string.
Variable settings : Settings.

Lemma start_task_table uuid8 prompt project_path user_id chat_id
  message_thread_id session_id (w : World) :
  grown_by_one (background_tasks w)
    (background_tasks
       (snd (start_task clock settings uuid8 prompt project_path user_id
               chat_id message_thread_id session_id w))).
Proof.
  rewrite start_task_unfold.
  destruct (TaskRepository.get_running_for_project project_path
              (background_tasks w)) as [[e|]|e]; try (left; reflexivity).
  destruct (max_concurrent_tasks settings
            <=? TaskRepository.count_running (background_tasks w));
    [left; reflexivity|].
  cbv zeta.
  destruct (existsb (TaskRepository.has_id uuid8) (background_tasks w));
    [left; reflexivity|].
  right. eexists. reflexivity.
Qed.

Lemma _taskretry_callback_table (uuid8 : string) (query_chat_id : Z)
  (task_manager : bool) (data : string) (w : World) :
  exists w1 : World,
    untouched_or_stopped w w1
    /\ grown_by_one (background_tasks w1)
         (background_tasks
            (snd (_taskretry_callback clock format_2f escape_html settings
                    uuid8 query_chat_id task_manager data w))).
Proof.
  unfold _taskretry_callback, bind, of_result.
  destruct (callback_task_id data) as [task_id|e];
    [|exists w; split; left; reflexivity].
  destruct task_manager; [|exists w; split; left; reflexivity]. cbn [negb].
  unfold repo_get at 1.
  destruct (TaskRepository.get task_id (background_tasks w))
    as [[t|]|e] eqn:Hget; try (exists w; split; left; reflexivity).
  assert (forall w1 : World,
             grown_by_one (background_tasks w1)
               (background_tasks
                  (snd (try_except
                          (fun s =>
                             match
                               start_task clock settings uuid8
                                 (BackgroundTask.prompt t)
                                 (BackgroundTask.project_path t)
                                 (BackgroundTask.user_id t)
                                 (chat_or (BackgroundTask.chat_id t)
                                    query_chat_id)
                                 (BackgroundTask.message_thread_id t)
                                 (BackgroundTask.session_id t) s
                             with
                             | (Ok new_task_id, s') =>
                                 ret (html ("🔄 Задача перезапущена" +:+ LF
                                            +:+ "Новый ID: <code>"
                                            +:+ new_task_id +:+ "</code>")) s'
                             | (Raise e, s') => (Raise e, s')
                             end)
                          (fun e =>
                             match e with
                             | ValueError _ | ValidationError _ =>
                                 ret (plain ("❌ "
                                             +:+ escape_html
                                                   (str_exn format_2f e)))
                             | _ => raise e
                             end) w1)))) as Hstart.
  { intros w1.
    pose proof (start_task_table uuid8 (BackgroundTask.prompt t)
                  (BackgroundTask.project_path t) (BackgroundTask.user_id t)
                  (chat_or (BackgroundTask.chat_id t) query_chat_id)
                  (BackgroundTask.message_thread_id t)
                  (BackgroundTask.session_id t) w1) as H.
    unfold try_except.
    destruct (start_task _ _ _ _ _ _ _ _ _ w1) as [[id|e] s']; [exact H|].
    destruct e; exact H. }
  destruct (String.eqb (BackgroundTask.status t) "running") eqn:Hs.
  - apply String.eqb_eq in Hs.
    unfold try_except at 1. rewrite stop_task_unfold.
    eexists. split; [|apply Hstart].
    right. exists task_id.
    destruct (get_running _ _ _ Hget Hs) as (r0 & Hin & Hrun & Hid).
    exists (clock (clock_reads w)), r0. auto.
  - exists w. split; [left; reflexivity|]. apply Hstart.
Qed.

Lemma _tasklog_callback_reads (task_manager : bool) (data : string)
  (w : World) :
  snd (_tasklog_callback escape_html task_manager data w) = w.
Proof.
  unfold _tasklog_callback, bind, of_result.
  destruct (callback_task_id data) as [task_id|e]; [|reflexivity].
  destruct task_manager; [|reflexivity]. cbn [negb].
  unfold repo_get.
  destruct (TaskRepository.get task_id (background_tasks w)) as [[t|]|e];
    reflexivity.
Qed.

Lemma untouched_or_stopped_keeps (w w' : World) :
  unique_ids (background_tasks w) ->
  untouched_or_stopped w w' ->
  exists task_id : string,
    keeps_all_but task_id (background_tasks w) (background_tasks w').
Proof.
  intros Hu [->|[task_id H]].
  - exists "". apply keeps_all_but_refl.
  - exists task_id. apply stopped_one_keeps; assumption.
Qed.

(** X23: the chat handlers never rewrite a finished record. In a table
    with unique task ids, whatever data, arguments or current project
    they are given, the stop callback, [taskstop_command] and the retry
    callback change at most one record, and only one that was running:
    every record that is not running, and every record but the one
    addressed, is still in the table exactly as it was; the retry
    callback may add one record at the end. The log callback changes
    nothing at all. *)
Theorem chat_handlers_spare_finished_records (w : World) :
  unique_ids (background_tasks w) ->
  let spared (w' : World) : Prop :=
    exists task_id : string,
      keeps_all_but task_id (background_tasks w) (background_tasks w') in
  (forall (task_manager : bool) (data : string),
      spared (snd (_taskstop_callback clock format_2f escape_html
                     task_manager data w)))
  /\ (forall (task_manager : bool) (args : list string)
        (project_path : option string),
        spared (snd (taskstop_command clock format_2f escape_html path_name
                       task_manager args project_path w)))
  /\ (forall (uuid8 : string) (query_chat_id : Z) (task_manager : bool)
        (data : string),
        spared (snd (_taskretry_callback clock format_2f escape_html
                       settings uuid8 query_chat_id task_manager data w)))
  /\ (forall (task_manager : bool) (data : string),
        snd (_tasklog_callback escape_html task_manager data w) = w).
Proof.
  intros Hu spared. split; [|split; [|split]].
  - intros task_manager data. apply untouched_or_stopped_keeps; [exact Hu|].
    apply _taskstop_callback_table.
  - intros task_manager args project_path.
    apply untouched_or_stopped_keeps; [exact Hu|].
    apply taskstop_command_table.
  - intros uuid8 query_chat_id task_manager data.
    destruct (_taskretry_callback_table uuid8 query_chat_id task_manager data w)
      as (w1 & Hstop & Hgrow).
    destruct (untouched_or_stopped_keeps _ _ Hu Hstop) as [task_id Hkeep].
    exists task_id. destruct Hgrow as [->|[row ->]]; [exact Hkeep|].
    apply keeps_all_but_app. exact Hkeep.
  - intros task_manager data. apply _tasklog_callback_reads.
Qed.

End ChatHandlersKeep.

Lemma chat_handlers_spare_finished_records_witness :
  exists task_id : string,
    keeps_all_but task_id (background_tasks finished_world)
      (background_tasks
         (snd (_taskstop_callback sample_clock sample_format_2f (fun s => s)
                 true "taskstop:abcd1234" finished_world))).
Proof.
  refine (proj1 (chat_handlers_spare_finished_records sample_clock
                   sample_format_2f (fun s => s) (fun s => s) sample_settings
                   finished_world _) true "taskstop:abcd1234").
  unfold unique_ids. vm_compute.
  constructor; [intros []|constructor].
Defined.

(** ** From a timeout warning to the stop *)

Section TimeoutWarning.

Variable clock : nat -> Z.
Variable hb : HeartbeatService.
Variable bot : nat -> Message.t -> SendResult.
Variable format_2f : Q -> string.
Variable escape_html : string -> string.

(** X24: the stop button of a timeout warning stops the task that timed
    out. When a heartbeat tick publishes a [Timeout] event and the
    notification for it is delivered, the message has two buttons, retry
    and stop; pressing stop in the world the tick left makes the stop
    callback read the id of that task, find its record still running and
    stop it: the record is [stopped], the task is gone from the manager's
    map of units and from the heartbeat map, no event is published, and
    the reply names the task. *)
Theorem timeout_stop_button_stops_the_task (task_id : string)
  (w w1 : World) (again : bool) (e : Event) (tg : Telegram) (m : Message.t) :
  _loop_body clock hb task_id w = (Ok again, w1) ->
  published w1 = (published w ++ [e])%list ->
  type_of e = TaskTimeout ->
  delivered (snd (handle_timeout bot e tg)) = (delivered tg ++ [m])%list ->
  exists (retry stop : Button) (w2 : World) (r : Row.t),
    buttons m = [retry; stop]
    /\ _taskstop_callback clock format_2f escape_html true (snd stop) w1
       = (Ok (stopped_reply (escape_html task_id)), w2)
    /\ stored task_id (background_tasks w2) = Some r
    /\ Row.status r = "stopped"
    /\ (running_tasks w2 !! task_id) = None
    /\ (task_id ∉ heartbeat_tasks w2)
    /\ published w2 = published w1.
Proof.
  assert (forall l : list Event, forall x, l <> (l ++ [x])%list) as Hgrow.
  { intros l x H. apply (f_equal (@length _)) in H.
    rewrite length_app in H. simpl in H. lia. }
  rewrite _loop_body_unfold. cbv zeta.
  destruct (TaskRepository.get task_id (background_tasks w))
    as [[task|]|e0] eqn:Hget; try discriminate;
    try (intros [= <- <-] Hp; destruct (Hgrow _ _ Hp)).
  destruct (String.eqb (BackgroundTask.status task) "running") eqn:Hs;
    cbn [negb];
    try (intros [= <- <-] Hp; destruct (Hgrow _ _ Hp)).
  apply String.eqb_eq in Hs.
  destruct (datetime.sub _ (BackgroundTask.created_at task)) as [sc|];
    [|discriminate].
  destruct (datetime.sub _ (BackgroundTask.last_activity_at task)) as [sa|];
    [|discriminate].
  destruct (negb (Qle_bool (datetime.total_seconds sa) (timeout hb)));
    intros [= <- <-] Hp Hty Hm; cbn [published with_event] in Hp;
    apply app_inv_head in Hp; injection Hp as <-; [|discriminate Hty].
  cbn [handle_timeout] in Hm. apply _send_delivered in Hm as [-> _].
  destruct (get_some _ _ _ Hget) as (r0 & Hstored & Hrow).
  set (w1 := with_event _ _).
  assert (background_tasks w1 = background_tasks w) as Hdb by reflexivity.
  eexists _, _, _, _. split; [reflexivity|]. cbn [snd].
  split.
  { unfold _taskstop_callback, bind, of_result.
    pose proof (callback_task_id_of "taskstop" task_id eq_refl) as Hcb.
    change ("taskstop" +:+ ":" +:+ task_id) with ("taskstop:" +:+ task_id)
      in Hcb.
    rewrite Hcb. cbn [negb].
    unfold repo_get at 1. rewrite Hdb, Hget. unfold not_running.
    rewrite Hs. cbn [String.eqb Ascii.eqb Bool.eqb negb].
    rewrite try_stop_unfold. rewrite stop_task_unfold. reflexivity. }
  cbn [background_tasks running_tasks heartbeat_tasks published snd].
  split; [rewrite Hdb; apply stored_update_status; exact Hstored|].
  split; [reflexivity|].
  split; [apply lookup_delete_eq|].
  split; [|reflexivity].
  apply not_elem_of_difference. right. apply elem_of_singleton. reflexivity.
Qed.

End TimeoutWarning.

Lemma timeout_stop_button_stops_the_task_witness :
  exists (w2 : World) (r : Row.t),
    stored "abcd1234" (background_tasks w2) = Some r
    /\ Row.status r = "stopped".
Proof.
  destruct (timeout_stop_button_stops_the_task sample_clock sample_heartbeat
              reliable_bot sample_format_2f (fun s => s) "abcd1234" idle_world
              _ _ (TaskTimeoutEvent "abcd1234" 600 (25 # 100)%Q 600 200 (Some 5))
              quiet_chat _ eq_refl eq_refl eq_refl eq_refl)
    as (retry & stop & w2 & r & _ & _ & Hstored & Hstatus & _).
  exists w2, r. split; [exact Hstored | exact Hstatus].
Defined.

(** * The one-way rule of statuses *)

Lemma one_way_refl (r : Row.t) : one_way r r.
Proof. split; [reflexivity | left; reflexivity]. Qed.

Lemma Forall2_same {A : Type} (P : A -> A -> Prop) (l : list A) :
  (forall x, P x x) -> Forall2 P l l.
Proof. intros H. induction l; constructor; auto. Qed.

(** What the writes of a unit do to the statuses: rows of other ids are
    kept as they are, and a row of its id keeps its status or gets
    [completed] or [failed]. *)
Lemma writes_statuses task_id db db' :
  writes task_id db db' ->
  Forall2 (fun r r' => Row.task_id r' = Row.task_id r
                       /\ (Row.task_id r <> task_id -> r' = r)
                       /\ (Row.status r' = Row.status r
                           \/ Row.status r' = "completed"
                           \/ Row.status r' = "failed"))
    db db'.
Proof.
  assert (forall (f : Row.t -> Row.t) (db0 db1 : TaskRepository.table),
             (forall r, Row.task_id (f r) = Row.task_id r
                        /\ (Row.status (f r) = Row.status r
                            \/ Row.status (f r) = "completed"
                            \/ Row.status (f r) = "failed")) ->
             Forall2 (fun r r' => Row.task_id r' = Row.task_id r
                                  /\ (Row.task_id r <> task_id -> r' = r)
                                  /\ (Row.status r' = Row.status r
                                      \/ Row.status r' = "completed"
                                      \/ Row.status r' = "failed")) db0 db1 ->
             Forall2 (fun r r' => Row.task_id r' = Row.task_id r
                                  /\ (Row.task_id r <> task_id -> r' = r)
                                  /\ (Row.status r' = Row.status r
                                      \/ Row.status r' = "completed"
                                      \/ Row.status r' = "failed")) db0
               (map (fun r => if TaskRepository.has_id task_id r then f r else r)
                  db1)) as Hstep.
  { intros f db0 db1 Hf H.
    induction H as [|x y l l' (Hid & Hsame & Hst) H IH];
      simpl; constructor; [|exact IH].
    destruct (TaskRepository.has_id task_id y) eqn:Hy; [|auto].
    destruct (Hf y) as [Hfi Hfs]. split; [congruence|]. split.
    - intros Hx. apply String.eqb_eq in Hy. congruence.
    - destruct Hfs as [Hfs|Hfs]; [|auto]. rewrite Hfs. exact Hst. }
  induction 1 as [db|db db' us cost out H IH|db db' us status kw H IH Hfin].
  - apply Forall2_same. auto.
  - apply Hstep; [|exact IH]. intros r. split; [reflexivity|]. left. reflexivity.
  - apply Hstep; [|exact IH]. intros r. split; [reflexivity|]. right.
    unfold TaskRepository.is_finishing in Hfin.
    apply orb_true_iff in Hfin as [Hs|Hs]; apply String.eqb_eq in Hs;
      cbn [TaskRepository.set_status Row.status]; auto.
Qed.

(** C4, amended: statuses move one way, except through [stop_task].
    [start_task] changes no existing record; [recover] changes no record
    that is not running and takes the running ones to [failed]; the
    execution unit changes no record but its own, which it leaves as it
    is or sets to [completed] or [failed], so that a record that is
    running when its unit starts only goes from [running] to a terminal
    status. None of them turns a terminal status into a non-terminal
    one. [stop_task] raises no error on any task and sets the status to
    [stopped] whatever it was, leaving the records of other ids as they
    are: an already stopped record stays stopped, a completed or failed
    one becomes stopped. A terminal status is left unchanged by the stop
    the bot's handlers perform, which call [stop_task] only after
    reading status [running]. *)
Theorem terminal_status_is_kept (clock : nat -> Z)
  (provider : nat -> ProviderCall) (format_2f : Q -> string)
  (git_log : string -> datetime.t -> list commit) (settings : Settings)
  (w : World) :
  (forall task_id : string,
      exists w' : World,
        stop_task clock task_id w = (Ok tt, w')
        /\ evolves (background_tasks w) (background_tasks w')
        /\ (forall r : Row.t,
              stored task_id (background_tasks w) = Some r ->
              exists r' : Row.t,
                stored task_id (background_tasks w') = Some r'
                /\ Row.status r' = "stopped")
        /\ (forall other : string,
              other <> task_id ->
              stored other (background_tasks w')
              = stored other (background_tasks w))
        /\ Forall2 (fun r r' => Row.task_id r <> task_id -> r' = r)
             (background_tasks w) (background_tasks w'))
  /\ (forall (task_id : string) (r : Row.t),
        stored task_id (background_tasks w) = Some r ->
        Row.status r <> "running" ->
        background_tasks (snd (taskstop clock task_id w)) = background_tasks w)
  /\ (forall uuid8 prompt project_path user_id chat_id message_thread_id
        session_id,
        let w' := snd (start_task clock settings uuid8 prompt project_path
                         user_id chat_id message_thread_id session_id w) in
        evolves (background_tasks w) (background_tasks w')
        /\ grown_by_one (background_tasks w) (background_tasks w'))
  /\ (let w' := snd (recover clock w) in
      evolves (background_tasks w) (background_tasks w')
      /\ (unique_ids (background_tasks w) ->
          Forall2
            (fun r r' =>
               one_way r r'
               /\ (Row.status r <> "running" -> r' = r)
               /\ (Row.status r' = Row.status r \/ Row.status r' = "failed"))
            (background_tasks w) (background_tasks w')))
  /\ (forall task : BackgroundTask.t,
        let w' := snd (_run_task clock provider format_2f git_log settings
                         task w) in
        evolves (background_tasks w) (background_tasks w')
        /\ Forall2
             (fun r r' =>
                Row.task_id r' = Row.task_id r
                /\ (Row.task_id r <> BackgroundTask.task_id task -> r' = r)
                /\ (Row.status r' = Row.status r
                    \/ Row.status r' = "completed"
                    \/ Row.status r' = "failed")
                /\ (Row.status r = "running" -> one_way r r'))
             (background_tasks w) (background_tasks w')).
Proof.
  split; [|split; [|split; [|split]]].
  - intros task_id. rewrite stop_task_unfold.
    eexists; split; [reflexivity|]. simpl.
    split; [apply evolves_update_status; reflexivity|]. split; [|split].
    + intros r Hr. eexists. split; [apply stored_update_status; exact Hr|].
      reflexivity.
    + intros other Hne.
      apply (stored_update_other task_id
               (TaskRepository.set_status _ "stopped" TaskRepository.no_kwargs)).
      * intros; reflexivity.
      * exact Hne.
    + unfold TaskRepository.update_status.
      induction (background_tasks w) as [|x l IH]; simpl; constructor;
        [|exact IH].
      intros Hx. destruct (TaskRepository.has_id task_id x) eqn:Hid;
        [|reflexivity].
      apply String.eqb_eq in Hid. contradiction.
  - intros task_id r Hr Hst. rewrite taskstop_unfold.
    unfold TaskRepository.get. unfold stored in Hr. rewrite Hr. simpl.
    destruct (BackgroundTask.from_row r) as [t|e] eqn:Hrow; [|reflexivity].
    rewrite (from_row_status _ _ Hrow).
    apply String.eqb_neq in Hst. rewrite Hst. reflexivity.
  - intros. split; [apply start_task_evolves | apply start_task_table].
  - split; [apply recover_evolves|].
    intros Hu. rewrite recover_unfold.
    destruct (TaskRepository.get_all_running (background_tasks w))
      as [orphaned|e] eqn:Hget.
    + destruct (recover_each_spec clock orphaned w)
        as (w1 & H & _ & _ & _ & _ & _ & Hdb).
      rewrite H. cbn [snd].
      unfold TaskRepository.get_all_running in Hget.
      apply from_rows_ids in Hget. rewrite Hget in Hdb.
      assert (forall r, In r (background_tasks w) ->
                        (Row.status r = "running" <->
                         In (Row.task_id r)
                           (map Row.task_id
                              (List.filter TaskRepository.is_running
                                 (background_tasks w))))) as Hids.
      { intros r Hin. split.
        - intros Hs. apply in_map. apply filter_In. split; [exact Hin|].
          unfold TaskRepository.is_running. rewrite Hs. reflexivity.
        - intros Hi. apply in_map_iff in Hi as (r2 & Hid & Hr2).
          apply filter_In in Hr2 as [Hin2 Hrun2].
          assert (r2 = r) as <-
              by (apply (unique_ids_same (background_tasks w)); auto).
          apply String.eqb_eq. exact Hrun2. }
      apply Forall2_In_l in Hdb.
      eapply Forall2_impl; [exact Hdb|].
      intros r r' (Hin & Hid & Hyes & Hno).
      destruct (string_dec (Row.status r) "running") as [Hs|Hs].
      * destruct (Hyes (proj1 (Hids r Hin) Hs)) as [Hf _].
        split; [|split; [contradiction | right; exact Hf]].
        split; [exact Hid|]. right. split; [exact Hs|].
        rewrite Hf. reflexivity.
      * assert (r' = r) as ->.
        { apply Hno. intros Hi. apply Hs. apply (Hids r Hin). exact Hi. }
        split; [apply one_way_refl|]. split; [reflexivity | left; reflexivity].
    + cbn [snd]. apply Forall2_same. intros r.
      split; [apply one_way_refl|]. split; [reflexivity | left; reflexivity].
  - intros task. split; [apply _run_task_evolves|].
    pose proof (writes_statuses _ _ _
                  (_run_task_writes clock provider format_2f git_log settings
                     task w)) as H.
    eapply Forall2_impl; [exact H|].
    intros r r' (Hid & Hother & Hst).
    split; [exact Hid|]. split; [exact Hother|]. split; [exact Hst|].
    intros Hrun. split; [exact Hid|].
    destruct Hst as [Hst|[Hst|Hst]]; [left; exact Hst| |];
      right; (split; [exact Hrun|]); rewrite Hst; reflexivity.
Qed.

Lemma terminal_status_is_kept_witness :
  background_tasks (snd (taskstop sample_clock "abcd1234" finished_world))
  = background_tasks finished_world
  /\ exists w' : World,
       stop_task sample_clock "abcd1234" finished_world = (Ok tt, w')
       /\ evolves (background_tasks finished_world) (background_tasks w').
Proof.
  pose proof (terminal_status_is_kept sample_clock ok_provider sample_format_2f
                no_commits sample_settings finished_world) as (Hstop & Hguard & _).
  split.
  - destruct (stored "abcd1234" (background_tasks finished_world)) as [r|] eqn:Hr;
      [|vm_compute in Hr; discriminate Hr].
    apply (Hguard "abcd1234" r Hr).
    vm_compute in Hr. injection Hr as <-. discriminate.
  - destruct (Hstop "abcd1234") as (w' & H & Hev & _).
    exists w'. split; assumption.
Defined.

(** * The cost limit behind ClaudeProvider *)


